(** * Affinetes / rayfine_env: the environment proxy and the deployment
      orchestrator

    A shallow embedding of [rayfine_env/core/wrapper.py] (the class
    [EnvironmentWrapper]), of [rayfine_env/api.py] ([load_env],
    [_load_single_instance], [_load_multi_instance], [_deploy_instance]) and
    of [rayfine_env/infrastructure/docker_manager.py] (the class
    [DockerManager]), followed by the properties of the design document
    that concern them and by further properties of the code.

    Python objects are mutable and live in a store; every operation is a
    function from the store to an outcome and a new store.  An outcome is
    either a value or a raised exception; a raised exception does not undo
    the effects that preceded it. *)

From Stdlib Require Import List String Ascii ZArith Bool Lia.
From Stdlib Require Import DecimalString.
Import ListNotations.
Open Scope string_scope.

(* ================================================================== *)
(** * Values, exceptions and outcomes *)

(** The values that cross the proxy: arguments and results of remote
    methods.  Their shape is irrelevant to the proxy, which only passes
    them along. *)
Inductive PyVal : Type :=
| VNone
| VBool (b : bool)
| VInt (z : Z)
| VStr (s : string).

(** Keyword arguments of a call, in the order they were written. *)
Definition Keywords := list (string * PyVal).

(** The exception classes that occur in the two modules.  All of them derive
    from Python's [Exception], which is what every [except Exception] of the
    source catches; signals that derive from [BaseException] only
    (KeyboardInterrupt, SystemExit) are outside the model. *)
Inductive ExcClass : Type :=
| ValidationError
| BackendError
| EnvironmentError
| NotImplementedError
| AttributeError
| IndexError
| SetupError
| ContainerError
| ImageNotFoundError
| RayConnectionError
| RayExecutionError
| TimeoutError
| RuntimeError.

(** An exception instance; [exc_msg] is what [str(e)] and [f"{e}"] give. *)
Record Exc : Type := mkExc { exc_class : ExcClass; exc_msg : string }.

Inductive result (A : Type) : Type :=
| Ok (a : A)
| Raise (e : Exc).
Arguments Ok {A} a.
Arguments Raise {A} e.

Definition is_ok {A} (r : result A) : bool :=
  match r with Ok _ => true | Raise _ => false end.

(** Computations over a store [St] that may raise. *)
Definition M (St A : Type) : Type := St -> result A * St.

Definition ret {St A} (a : A) : M St A := fun st => (Ok a, st).
Definition raise {St A} (e : Exc) : M St A := fun st => (Raise e, st).
Definition bind {St A B} (m : M St A) (k : A -> M St B) : M St B :=
  fun st => match m st with
            | (Ok a, st') => k a st'
            | (Raise e, st') => (Raise e, st')
            end.

(** [try: body except Exception as e: handler e]. *)
Definition try_except {St A} (body : M St A) (handler : Exc -> M St A) : M St A :=
  fun st => match body st with
            | (Ok a, st') => (Ok a, st')
            | (Raise e, st') => handler e st'
            end.

Declare Scope py_scope.
Delimit Scope py_scope with py.
Notation "x <- m ;; k" := (bind m (fun x => k))
  (at level 61, m at next level, right associativity) : py_scope.
Notation "m ;;; k" := (bind m (fun _ => k))
  (at level 61, right associativity) : py_scope.

(* ================================================================== *)
(** * The environment proxy: [core/wrapper.py] *)

(** What the proxy uses of the object it wraps.  The object is an
    [AbstractBackend] or an [InstancePool]; the proxy reads its [name]
    attribute, asks [isinstance(backend, InstancePool)] once, and calls
    [is_ready], [call_method], [cleanup] and, on a pool, [get_stats].
    Methods act on the store [St] in which the object lives; [is_ready] is
    the probe of the contract, which answers with a boolean and changes
    nothing. *)
Record PoolStats : Type := mkStats {
  total_instances : nat;
  healthy_instances : nat;
  strategy : string
}.

Record Backend (St : Type) : Type := mkBackend {
  b_isinstance_pool : bool;
  b_name : St -> string;
  b_is_ready : St -> bool;
  b_call_method : string -> list PyVal -> PyVal -> Keywords -> M St PyVal;
  b_cleanup : M St unit;
  b_get_stats : M St PoolStats
}.
Arguments b_isinstance_pool {St} _.
Arguments b_name {St} _ _.
Arguments b_is_ready {St} _ _.
Arguments b_call_method {St} _ _ _ _ _ _.
Arguments b_cleanup {St} _ _.
Arguments b_get_stats {St} _ _.

(** Dynamic dispatch: the methods of the object a reference points to. *)
Class Dispatch (St Ref : Type) : Type := vtable : Ref -> Backend St.

(** The calls a proxy issues on the object it wraps. *)
Inductive Call : Type :=
| CIsReady
| CCallMethod (method_name : string) (args : list PyVal)
              (timeout : PyVal) (kwargs : Keywords)
| CCleanup
| CGetStats.

(** The state a proxy runs in: the store of the backends, and the journal of
    the calls issued on backend objects through the call sites of the two
    modules, oldest first. *)
Record PState (St Ref : Type) : Type := mkPState {
  store : St;
  calls : list (Ref * Call)
}.
Arguments mkPState {St Ref} _ _.
Arguments store {St Ref} _.
Arguments calls {St Ref} _.

(** The attributes of an [EnvironmentWrapper] instance. *)
Record EnvironmentWrapper (Ref : Type) : Type := mkWrapper {
  _backend : Ref;
  _is_pool : bool;
  name : string;
  _is_ready : bool
}.
Arguments mkWrapper {Ref} _ _ _ _.
Arguments _backend {Ref} _.
Arguments _is_pool {Ref} _.
Arguments name {Ref} _.
Arguments _is_ready {Ref} _.

Section Proxy.
Context {St Ref : Type} {D : Dispatch St Ref}.

Definition journal (r : Ref) (c : Call) (ps : PState St Ref) : PState St Ref :=
  mkPState (store ps) (calls ps ++ [(r, c)]).

(** Running a method of the wrapped object: the call is journalled, then
    the method acts on the store. *)
Definition on_store {A} (m : M St A) : M (PState St Ref) A :=
  fun ps => let (r, st') := m (store ps) in (r, mkPState st' (calls ps)).

Definition call_is_ready (r : Ref) : PState St Ref -> bool * PState St Ref :=
  fun ps => (b_is_ready (vtable r) (store ps), journal r CIsReady ps).

Definition call_call_method (r : Ref) (method_name : string)
    (args : list PyVal) (timeout : PyVal) (kwargs : Keywords)
  : M (PState St Ref) PyVal :=
  fun ps => on_store (b_call_method (vtable r) method_name args timeout kwargs)
                     (journal r (CCallMethod method_name args timeout kwargs) ps).

Definition call_cleanup (r : Ref) : M (PState St Ref) unit :=
  fun ps => on_store (b_cleanup (vtable r)) (journal r CCleanup ps).

Definition call_get_stats (r : Ref) : M (PState St Ref) PoolStats :=
  fun ps => on_store (b_get_stats (vtable r)) (journal r CGetStats ps).

(** [EnvironmentWrapper.__init__] *)
Definition EnvironmentWrapper_init (backend : Ref)
  : PState St Ref -> EnvironmentWrapper Ref * PState St Ref :=
  fun ps =>
    let is_pool := b_isinstance_pool (vtable backend) in
    let nm := b_name (vtable backend) (store ps) in
    let (ready, ps') := call_is_ready backend ps in
    (mkWrapper backend is_pool nm ready, ps').

(** [EnvironmentWrapper.cleanup]: the assignment [self._is_ready = False]
    follows the awaited backend cleanup inside the [try]; the handler only
    logs.  The method returns [None] on both paths; the proxy is returned
    with its possibly updated flag. *)
Definition cleanup (self : EnvironmentWrapper Ref)
  : PState St Ref -> (result unit * EnvironmentWrapper Ref) * PState St Ref :=
  fun ps =>
    match call_cleanup (_backend self) ps with
    | (Ok _, ps') =>
        (Ok tt, mkWrapper (_backend self) (_is_pool self) (name self) false, ps')
    | (Raise _, ps') => (Ok tt, self, ps')
    end.

(** [EnvironmentWrapper.is_ready]:
    [self._is_ready and self._backend.is_ready()]; [and] does not evaluate
    its right operand when the left one is false. *)
Definition is_ready (self : EnvironmentWrapper Ref)
  : PState St Ref -> bool * PState St Ref :=
  fun ps => if _is_ready self then call_is_ready (_backend self) ps
            else (false, ps).

(** [name.startswith('_')] *)
Definition startswith_underscore (s : string) : bool :=
  match s with
  | String c _ => Ascii.eqb c "_"%char
  | EmptyString => false
  end.

(** [EnvironmentWrapper.__getattr__], which Python calls for an attribute
    name that is not found on the proxy itself: the result is the closure
    [method_caller], which captures [self] and [name]; it is represented by
    the captured name. *)
Definition __getattr__ (self : EnvironmentWrapper Ref) (attr : string)
  : result string :=
  if startswith_underscore attr then
    Raise (mkExc AttributeError
             ("'EnvironmentWrapper' has no attribute '" ++ attr ++ "'"))
  else if negb (_is_ready self) then
    Raise (mkExc EnvironmentError
             ("Environment '" ++ name self ++ "' not ready."))
  else Ok attr.

(** Binding of the parameters of
    [method_caller] (signature: star-args, keyword-only [timeout=None], star-star-kwargs): the keyword [timeout]
    binds the keyword-only parameter, every other keyword goes to
    [kwargs]. *)
Definition is_timeout_kw (p : string * PyVal) : bool := String.eqb (fst p) "timeout".

Definition bound_timeout (kw : Keywords) : PyVal :=
  match find is_timeout_kw kw with
  | Some (_, v) => v
  | None => VNone
  end.

Definition bound_kwargs (kw : Keywords) : Keywords :=
  filter (fun p => negb (is_timeout_kw p)) kw.

(** The closure [method_caller] called with positional arguments [args]
    and keywords [kw]. *)
Definition method_caller (self : EnvironmentWrapper Ref) (attr : string)
    (args : list PyVal) (kw : Keywords) : M (PState St Ref) PyVal :=
  let timeout := bound_timeout kw in
  let kwargs := bound_kwargs kw in
  try_except
    (call_call_method (_backend self) attr args timeout kwargs)
    (fun e => raise (mkExc EnvironmentError
                       ("Method '" ++ attr ++ "' failed on environment '"
                        ++ name self ++ "': " ++ exc_msg e))).

(** A forward request [await env.attr(...)]: attribute access,
    then at once the call of the closure it returned.  The readiness gate
    belongs to the access, the backend call to the closure. *)
Definition forward (self : EnvironmentWrapper Ref) (attr : string)
    (args : list PyVal) (kw : Keywords) : M (PState St Ref) PyVal :=
  fun ps => match __getattr__ self attr with
            | Ok f => method_caller self f args kw ps
            | Raise e => (Raise e, ps)
            end.

(** [EnvironmentWrapper.get_stats] *)
Definition get_stats (self : EnvironmentWrapper Ref)
  : M (PState St Ref) (option PoolStats) :=
  if _is_pool self then
    (s <- call_get_stats (_backend self) ;; ret (Some s))%py
  else ret None.

(** The operations a caller can perform on a proxy, and a run of several
    of them in sequence; outcomes are dropped, the proxy and the state are
    threaded. *)
Inductive Op : Type :=
| OpCleanup
| OpIsReady
| OpForward (attr : string) (args : list PyVal) (kw : Keywords)
| OpGetStats.

Definition run_op (o : Op) (c : EnvironmentWrapper Ref * PState St Ref)
  : EnvironmentWrapper Ref * PState St Ref :=
  let (w, ps) := c in
  match o with
  | OpCleanup => let '(_, w', ps') := cleanup w ps in (w', ps')
  | OpIsReady => (w, snd (is_ready w ps))
  | OpForward a args kw => (w, snd (forward w a args kw ps))
  | OpGetStats => (w, snd (get_stats w ps))
  end.

Definition run_ops (os : list Op) (c : EnvironmentWrapper Ref * PState St Ref)
  : EnvironmentWrapper Ref * PState St Ref :=
  fold_left (fun c o => run_op o c) os c.

End Proxy.

(* ================================================================== *)
(** * The store of the deployment layer *)

(** The capability contract of [backends/base.py] as far as the two modules
    use it, for a leaf backend whose state is [B]: its [name] attribute and
    the methods [is_ready], [call_method] and [cleanup].  [call_method]
    receives the timeout as its own parameter. *)
Class AbstractBackend (B : Type) : Type := {
  leaf_name : B -> string;
  leaf_is_ready : B -> bool;
  leaf_call_method : string -> list PyVal -> PyVal -> Keywords -> M B PyVal;
  leaf_cleanup : M B unit
}.

(** The keyword arguments [api.py] passes to the constructor
    [LocalBackend]. *)
Record LocalArgs : Type := mkLocalArgs {
  la_image : string;
  la_container_name : option string;
  la_http_port : Z;
  la_env_vars : option (list (string * string));
  la_env_type_override : option string;
  la_force_recreate : bool;
  la_backend_kwargs : Keywords
}.

(** The two backend classes [api.py] imports from [backends]; their code is
    not part of the modelled modules, so their constructors are taken as
    given: each either yields the state of a new backend or raises, and may
    depend on the backends that already exist. *)
Class BackendClasses (B : Type) : Type := {
  LocalBackend : LocalArgs -> list B -> result B;
  RemoteBackend : string -> Keywords -> list B -> result B
}.

(** [InstanceInfo] as [_deploy_instance] builds it; [backend] is a reference
    to the backend object in the heap. *)
Record InstanceInfo : Type := mkInstanceInfo {
  host : string;
  port : Z;
  backend : nat;
  healthy : bool;
  last_check : Z
}.

(** Modelled from the spec: the class [InstancePool] of
    [core/instance_pool.py], which is not among the modelled modules.  The
    design document gives a pool a name, an ordered sequence of instance
    records, a strategy and a cursor (section 3), and every backend variant,
    the pool included, a readiness flag set once construction completes and
    cleared once cleanup completes. *)
Record InstancePool : Type := mkPool {
  pool_name : string;
  instances : list InstanceInfo;
  pool_strategy : string;
  cursor : nat;
  pool_ready : bool
}.

Inductive BackendRef : Type :=
| RefBackend (id : nat)
| RefPool (id : nat).

(** A call of a backend constructor, successful or not. *)
Inductive Construction : Type :=
| NewLocalBackend (a : LocalArgs)
| NewRemoteBackend (environment_id : string) (kwargs : Keywords).

(** The process: the heap of leaf backends and the heap of pools (an object
    is referred to by its index), the constructor calls made so far, the
    registry of [core/registry.py] as an insertion-ordered mapping from names
    to proxies, the wall clock read by [time.time()], and the random choices
    still to be drawn. *)
Record World (B : Type) : Type := mkWorld {
  heap : list B;
  pools : list InstancePool;
  constructions : list Construction;
  registry : list (string * EnvironmentWrapper BackendRef);
  clock : Z;
  entropy : list nat
}.
Arguments mkWorld {B} _ _ _ _ _ _.
Arguments heap {B} _.
Arguments pools {B} _.
Arguments constructions {B} _.
Arguments registry {B} _.
Arguments clock {B} _.
Arguments entropy {B} _.

(** Replacement of the element at an index; nothing changes out of range,
    which does not occur for a reference obtained from a constructor. *)
Fixpoint set_nth {A} (i : nat) (x : A) (l : list A) : list A :=
  match l, i with
  | [], _ => []
  | _ :: t, O => x :: t
  | h :: t, S j => h :: set_nth j x t
  end.

Section Store.
Context {B : Type} {AB : AbstractBackend B} {BC : BackendClasses B}.

Definition with_heap (h : list B) (w : World B) : World B :=
  mkWorld h (pools w) (constructions w) (registry w) (clock w) (entropy w).

Definition with_pools (p : list InstancePool) (w : World B) : World B :=
  mkWorld (heap w) p (constructions w) (registry w) (clock w) (entropy w).

(** A method found on no object: a reference that points outside the heap.
    No function of [api.py] produces one. *)
Definition dangling {A} : M (World B) A :=
  raise (mkExc AttributeError "'NoneType' object has no attribute").

(** A method of the leaf backend at [id], run on the heap. *)
Definition on_leaf {A} (id : nat) (m : M B A) : M (World B) A :=
  fun w => match nth_error (heap w) id with
           | Some s => let (r, s') := m s in (r, with_heap (set_nth id s' (heap w)) w)
           | None => dangling w
           end.

Definition leaf_ready_at (id : nat) (w : World B) : bool :=
  match nth_error (heap w) id with
  | Some s => leaf_is_ready s
  | None => false
  end.

Definition leaf_name_at (id : nat) (w : World B) : string :=
  match nth_error (heap w) id with
  | Some s => leaf_name s
  | None => ""
  end.

(** A leaf backend as the proxy sees it.  It is not an [InstancePool] and
    has no [get_stats]. *)
Definition leaf_object (id : nat) : Backend (World B) :=
  mkBackend (World B) false
    (leaf_name_at id)
    (leaf_ready_at id)
    (fun m args timeout kwargs => on_leaf id (leaf_call_method m args timeout kwargs))
    (on_leaf id leaf_cleanup)
    (raise (mkExc AttributeError "object has no attribute 'get_stats'")).

(** ** The pool, from the design document *)

(** Modelled from the spec: selection step 1 of section 4.2, the instances
    with [healthy == true] whose backend reports [is_ready() == true]. *)
Definition selectable (w : World B) (i : InstanceInfo) : bool :=
  healthy i && leaf_ready_at (backend i) w.

(** Modelled from the spec: selection steps 2 to 4 of section 4.2.  An
    empty filtered set fails with [BackendError]; the random strategy draws
    an index among the filtered set; round-robin advances the cursor modulo
    the size of the filtered set and selects that index.  The outcome is
    the selected instance and the new cursor.  The document names no other
    strategy, so no instance is selected under any other. *)
Definition select_instance (p : InstancePool) (w : World B)
  : result (InstanceInfo * nat) * World B :=
  let candidates := filter (selectable w) (instances p) in
  let n := List.length candidates in
  match candidates with
  | [] => (Raise (mkExc BackendError "no healthy instances"), w)
  | first :: _ =>
      if String.eqb (pool_strategy p) "round_robin" then
        let c := Nat.modulo (S (cursor p)) n in
        (Ok (nth c candidates first, c), w)
      else if String.eqb (pool_strategy p) "random" then
        let draw := hd 0 (entropy w) in
        (Ok (nth (Nat.modulo draw n) candidates first, cursor p),
         mkWorld (heap w) (pools w) (constructions w) (registry w) (clock w)
                 (tl (entropy w)))
      else (Raise (mkExc BackendError "unknown load balancing strategy"), w)
  end.

(** Modelled from the spec: the cursor is the only field a selection
    changes. *)
Definition with_cursor (c : nat) (p : InstancePool) : InstancePool :=
  mkPool (pool_name p) (instances p) (pool_strategy p) c (pool_ready p).

(** Modelled from the spec: [call_method] of the pool selects one instance
    and forwards the call to its backend (sections 2 and 4.2). *)
Definition pool_call_method (pid : nat) (m : string) (args : list PyVal)
    (timeout : PyVal) (kwargs : Keywords) : M (World B) PyVal :=
  fun w => match nth_error (pools w) pid with
           | None => dangling w
           | Some p =>
               match select_instance p w with
               | (Raise e, w1) => (Raise e, w1)
               | (Ok (inst, c), w1) =>
                   on_leaf (backend inst) (leaf_call_method m args timeout kwargs)
                     (with_pools (set_nth pid (with_cursor c p) (pools w1)) w1)
               end
           end.

(** Modelled from the spec: every member's cleanup is run; a failure does
    not stop the others and is collected (section 4.2). *)
Fixpoint cleanup_members (l : list InstanceInfo) (w : World B)
  : list Exc * World B :=
  match l with
  | [] => ([], w)
  | i :: rest =>
      let (r, w1) := on_leaf (backend i) leaf_cleanup w in
      let (errs, w2) := cleanup_members rest w1 in
      (match r with Ok _ => errs | Raise e => e :: errs end, w2)
  end.

(** Modelled from the spec: [cleanup] of the pool applies to every member,
    member failures are collected and do not abort the others (section
    4.2), and the readiness flag is cleared once cleanup completes (section
    3).  The document says that a partial cleanup is reported, not how:
    [report] is that report for a non-empty collection of failures, either
    a normal return or a raised error. *)
Definition pool_cleanup (report : list Exc -> result unit) (pid : nat)
  : M (World B) unit :=
  fun w => match nth_error (pools w) pid with
           | None => dangling w
           | Some p =>
               let (errs, w1) := cleanup_members (instances p) w in
               let p' := mkPool (pool_name p) (instances p) (pool_strategy p)
                                (cursor p) false in
               (match errs with [] => Ok tt | _ => report errs end,
                with_pools (set_nth pid p' (pools w1)) w1)
           end.

(** Modelled from the spec: [get_stats] exposes the number of instances,
    the number of healthy ones and the strategy (section 4.2). *)
Definition pool_get_stats (pid : nat) : M (World B) PoolStats :=
  fun w => match nth_error (pools w) pid with
           | None => dangling w
           | Some p =>
               (Ok (mkStats (List.length (instances p))
                            (List.length (filter healthy (instances p)))
                            (pool_strategy p)), w)
           end.

(** Modelled from the spec: the pool as the proxy sees it, with the same
    capability contract as a single backend (section 2). *)
Definition pool_object (report : list Exc -> result unit) (pid : nat)
  : Backend (World B) :=
  mkBackend (World B) true
    (fun w => match nth_error (pools w) pid with
              | Some p => pool_name p | None => "" end)
    (fun w => match nth_error (pools w) pid with
              | Some p => pool_ready p | None => false end)
    (pool_call_method pid)
    (pool_cleanup report pid)
    (pool_get_stats pid).

End Store.

(* ================================================================== *)
(** * The deployment orchestrator: [api.py] *)

(** The event loop of the calling thread, as the synchronous entry points
    find it: none ([asyncio.get_event_loop()] raises [RuntimeError]), a loop
    that is not running, or the running loop from inside which the entry
    point is called.  [__exit__] and [__del__] log the [RuntimeError] and do
    nothing more; [_load_multi_instance] installs a new loop in its place. *)
Inductive LoopStatus : Type :=
| NoLoop
| LoopIdle
| LoopRunning.

(** [loop.run_until_complete(coroutine)] on the loop that
    [_load_multi_instance] obtained, which is not running unless it is the
    running loop of the caller: a running loop refuses with [RuntimeError]
    before anything of the coroutine is run; any other runs it to its
    end. *)
Definition run_until_complete {St A} (loop : LoopStatus) (coroutine : M St A)
  : M St A :=
  match loop with
  | LoopRunning => raise (mkExc RuntimeError "This event loop is already running")
  | _ => coroutine
  end.

(** The loop of the thread once [_load_multi_instance] has asked for it. *)
Definition loop_obtained (loop : LoopStatus) : LoopStatus :=
  match loop with
  | NoLoop => LoopIdle
  | _ => loop
  end.

(** Modelled from the spec: what the design document leaves open about the
    pool, taken as given: the name a pool gives itself, how a partial
    cleanup is reported, and what its constructor raises, if anything, for
    the instances and the strategy it is given (an unknown strategy, for
    instance). *)
Class PoolPolicy : Type := {
  name_pool : list InstanceInfo -> string;
  report_partial_cleanup : list Exc -> result unit;
  constructor_raises : list InstanceInfo -> string -> option Exc
}.

(** [asyncio.gather] over coroutines that never suspend, as
    [_deploy_instance] and the cleanups of the failure path are run by
    [run_until_complete]: every task is started in order and runs to its end
    whatever the outcome of the others. *)
Fixpoint run_tasks {St A} (tasks : list (M St A)) (st : St)
  : list (result A) * St :=
  match tasks with
  | [] => ([], st)
  | t :: rest =>
      let (r, st1) := t st in
      let (rs, st2) := run_tasks rest st1 in
      (r :: rs, st2)
  end.

(** Without [return_exceptions], the awaiting caller receives the first
    exception, or else the list of all results. *)
Fixpoint all_or_first_exception {A} (rs : list (result A)) : result (list A) :=
  match rs with
  | [] => Ok []
  | Raise e :: _ => Raise e
  | Ok a :: rest =>
      match all_or_first_exception rest with
      | Ok l => Ok (a :: l)
      | Raise e => Raise e
      end
  end.

Definition gather {St A} (tasks : list (M St A)) : M St (list A) :=
  fun st => let (rs, st') := run_tasks tasks st in
            (all_or_first_exception rs, st').

(** [str(n)] for an integer. *)
Definition str_of_Z (z : Z) : string := NilZero.string_of_int (Z.to_int z).

(** [s.replace(old, new)] for one-character [old] and [new]. *)
Fixpoint replace_char (old new : ascii) (s : string) : string :=
  match s with
  | EmptyString => EmptyString
  | String c rest =>
      String (if Ascii.eqb c old then new else c) (replace_char old new rest)
  end.

(** The truth value of [hosts], an optional list: [None] and the empty list
    are false. *)
Definition truthy_hosts (hosts : option (list string)) : bool :=
  match hosts with
  | Some (_ :: _) => true
  | _ => false
  end.

(** [len(hosts)], evaluated only where [hosts] is true. *)
Definition len_hosts (hosts : option (list string)) : Z :=
  match hosts with
  | Some l => Z.of_nat (List.length l)
  | None => 0
  end.

(** The target hosts of a multi-instance deployment: the list given, or
    [["localhost"] * replicas] when it is [None] or empty. *)
Definition target_hosts (hosts : option (list string)) (replicas : Z)
  : list string :=
  match hosts with
  | Some (h :: t) => h :: t
  | _ => repeat "localhost" (Z.to_nat replicas)
  end.

(** [a or b] on an optional string: [None] and the empty string are
    false. *)
Definition or_else (a : option string) (b : string) : string :=
  match a with
  | Some (String c r) => String c r
  | _ => b
  end.

Section Api.
Context {B : Type} {AB : AbstractBackend B} {BC : BackendClasses B}
        {PP : PoolPolicy}.

#[export] Instance world_dispatch : Dispatch (World B) BackendRef :=
  fun r => match r with
           | RefBackend id => leaf_object id
           | RefPool id => pool_object report_partial_cleanup id
           end.

Definition Proc : Type := PState (World B) BackendRef.

Definition lift {A} (m : M (World B) A) : M Proc A := on_store m.

(** A constructor call: it is recorded, and on success the new object is
    appended to the heap and its reference returned. *)
Definition construct (c : Construction) (outcome : result B) : M (World B) nat :=
  fun w =>
    let w1 := mkWorld (heap w) (pools w) (constructions w ++ [c]) (registry w)
                      (clock w) (entropy w) in
    match outcome with
    | Ok s => (Ok (List.length (heap w)), with_heap (heap w ++ [s]) w1)
    | Raise e => (Raise e, w1)
    end.

Definition new_LocalBackend (a : LocalArgs) : M (World B) nat :=
  fun w => construct (NewLocalBackend a) (LocalBackend a (heap w)) w.

Definition new_RemoteBackend (environment_id : string) (kwargs : Keywords)
  : M (World B) nat :=
  fun w => construct (NewRemoteBackend environment_id kwargs)
                     (RemoteBackend environment_id kwargs (heap w)) w.

(** [time.time()] *)
Definition time_time : M (World B) Z := fun w => (Ok (clock w), w).

(** Modelled from the spec: the constructor of [InstancePool].  A pool is
    never empty (section 3), it is ready once constructed, and its cursor
    starts at the first position; what else the constructor may refuse is
    [constructor_raises]. *)
Definition new_InstancePool (insts : list InstanceInfo)
    (load_balance_strategy : string) : M (World B) nat :=
  fun w =>
    match insts with
    | [] => (Raise (mkExc BackendError "no instances"), w)
    | _ :: _ =>
        match constructor_raises insts load_balance_strategy with
        | Some e => (Raise e, w)
        | None =>
            let p := mkPool (name_pool insts) insts load_balance_strategy 0 true in
            (Ok (List.length (pools w)), with_pools (pools w ++ [p]) w)
        end
    end.

(** Modelled from the spec: assignment in the registry's mapping from names
    to proxies, which keeps the order of insertion (section 3); a name
    already present keeps its place. *)
Fixpoint assoc_set {V} (k : string) (v : V) (l : list (string * V))
  : list (string * V) :=
  match l with
  | [] => [(k, v)]
  | (k', v') :: rest =>
      if String.eqb k k' then (k, v) :: rest else (k', v') :: assoc_set k v rest
  end.

(** Modelled from the spec: [register] of the registry of
    [core/registry.py], which is not among the modelled modules; the
    process-wide mapping is populated on every successful load
    (section 3). *)
Definition registry_register (nm : string) (wrapper : EnvironmentWrapper BackendRef)
  : M (World B) unit :=
  fun w => (Ok tt, mkWorld (heap w) (pools w) (constructions w)
                           (assoc_set nm wrapper (registry w))
                           (clock w) (entropy w)).

(** [_load_single_instance] *)
Definition _load_single_instance (image mode host : string) (port : Z)
    (container_name : option string)
    (env_vars : option (list (string * string)))
    (env_type : option string) (force_recreate : bool)
    (backend_kwargs : Keywords)
  : M Proc (EnvironmentWrapper BackendRef) :=
  if negb (String.eqb host "localhost") then
    raise (mkExc NotImplementedError
             ("Remote SSH deployment not yet implemented. "
              ++ "Use hosts=['localhost'] or hosts=None for local deployment."))
  else
    (id <- (if String.eqb mode "local" then
              lift (new_LocalBackend
                      (mkLocalArgs image container_name port env_vars env_type
                                   force_recreate backend_kwargs))
            else if String.eqb mode "remote" then
              lift (new_RemoteBackend image backend_kwargs)
            else
              raise (mkExc ValidationError
                       ("Invalid mode: " ++ mode
                        ++ ". Must be 'local' or 'remote'"))) ;;
     fun ps =>
       let (wrapper, ps1) := EnvironmentWrapper_init (RefBackend id) ps in
       (lift (registry_register (leaf_name_at id (store ps1)) wrapper) ;;;
        ret wrapper)%py ps1)%py.

(** [_deploy_instance]: a coroutine without suspension point. *)
Definition _deploy_instance (image mode host : string) (port : Z)
    (instance_id : nat) (container_name : option string)
    (env_vars : option (list (string * string)))
    (env_type : option string) (force_recreate : bool)
    (backend_kwargs : Keywords)
  : M (World B) InstanceInfo :=
  if negb (String.eqb host "localhost") then
    raise (mkExc NotImplementedError "Remote SSH deployment not yet implemented")
  else if String.eqb mode "local" then
    let name_prefix := or_else container_name (replace_char ":" "-" image) in
    let unique_name := name_prefix ++ "-" ++ str_of_Z (Z.of_nat instance_id) in
    (b <- new_LocalBackend
            (mkLocalArgs image (Some unique_name) port env_vars env_type
                         force_recreate backend_kwargs) ;;
     now <- time_time ;;
     ret (mkInstanceInfo host port b true now))%py
  else
    raise (mkExc ValidationError
             ("Mode '" ++ mode ++ "' not supported for multi-instance")).

(** [hosts[i]] for every [i] of the comprehension; an index out of range
    raises before any task exists. *)
Fixpoint index_hosts (hosts : list string) (indices : list nat)
  : result (list (nat * string)) :=
  match indices with
  | [] => Ok []
  | i :: rest =>
      match nth_error hosts i with
      | None => Raise (mkExc IndexError "list index out of range")
      | Some h =>
          match index_hosts hosts rest with
          | Ok l => Ok ((i, h) :: l)
          | Raise e => Raise e
          end
      end
  end.

(** The first host other than ["localhost"], if any. *)
Definition first_remote_host (hosts : list string) : option string :=
  find (fun h => negb (String.eqb h "localhost")) hosts.

(** The inner coroutine [deploy_all] of [_load_multi_instance]. *)
Definition deploy_all (image mode : string) (replicas : Z)
    (hosts : list string) (base_port : Z) (container_name : option string)
    (env_vars : option (list (string * string)))
    (env_type : option string) (force_recreate : bool)
    (backend_kwargs : Keywords)
  : M (World B) (list InstanceInfo) :=
  match index_hosts hosts (seq 0 (Z.to_nat replicas)) with
  | Raise e => raise e
  | Ok assigned =>
      gather (map (fun ih : nat * string =>
                     _deploy_instance image mode (snd ih)
                       (base_port + Z.of_nat (fst ih)) (fst ih)
                       container_name env_vars env_type force_recreate
                       backend_kwargs)
                  assigned)
  end.

(** The inner coroutine [cleanup_all] of the handler, awaited with
    [return_exceptions=True]: nothing is raised. *)
Definition cleanup_all (insts : list InstanceInfo) : Proc -> Proc :=
  fun ps => snd (run_tasks
                   (map (fun inst => call_cleanup (RefBackend (backend inst))) insts)
                   ps).

(** The handler [except Exception as e] of [_load_multi_instance], entered
    with the value the local variable [instances] has at that moment.
    [instances] is not empty only once [run_until_complete] has returned
    them, on a loop that is therefore not running and on which the
    [run_until_complete] of the handler runs [cleanup_all] to its end. *)
Definition deployment_failed (insts : list InstanceInfo) (e : Exc)
  : M Proc (EnvironmentWrapper BackendRef) :=
  fun ps =>
    let ps1 := match insts with
               | [] => ps
               | _ :: _ => cleanup_all insts ps
               end in
    (Raise (mkExc BackendError ("Multi-instance deployment failed: " ++ exc_msg e)),
     ps1).

(** [_load_multi_instance], called while the loop of the thread is [loop].
    [instances] is bound to the empty list before the [try] and assigned
    only when [run_until_complete] has returned: when the loop refuses, or
    when [deploy_all] raises, the handler finds it empty. *)
Definition _load_multi_instance (loop : LoopStatus) (image mode : string)
    (replicas : Z)
    (hosts : option (list string)) (load_balance : string) (base_port : Z)
    (container_name : option string)
    (env_vars : option (list (string * string)))
    (env_type : option string) (force_recreate : bool)
    (backend_kwargs : Keywords)
  : M Proc (EnvironmentWrapper BackendRef) :=
  let hosts := target_hosts hosts replicas in
  match first_remote_host hosts with
  | Some h =>
      raise (mkExc NotImplementedError
               ("Remote SSH deployment to '" ++ h ++ "' not yet implemented. "
                ++ "Currently only localhost deployment is supported."))
  | None =>
      fun ps =>
        match run_until_complete (loop_obtained loop)
                (lift (deploy_all image mode replicas hosts base_port
                         container_name env_vars env_type force_recreate
                         backend_kwargs)) ps with
        | (Raise e, ps1) => deployment_failed [] e ps1
        | (Ok insts, ps1) =>
            try_except
              (pool <- lift (new_InstancePool insts load_balance) ;;
               fun ps2 =>
                 let (wrapper, ps3) := EnvironmentWrapper_init (RefPool pool) ps2 in
                 (lift (registry_register
                          (b_name (vtable (RefPool pool)) (store ps3)) wrapper) ;;;
                  ret wrapper)%py ps3)%py
              (deployment_failed insts)
              ps1
        end
  end.

(** [load_env], called while the loop of the thread is [loop]; its handler
    logs and re-raises the exception it caught. *)
Definition load_env (loop : LoopStatus) (image mode : string) (replicas : Z)
    (hosts : option (list string)) (load_balance : string) (base_port : Z)
    (container_name : option string)
    (env_vars : option (list (string * string)))
    (env_type : option string) (force_recreate : bool)
    (backend_kwargs : Keywords)
  : M Proc (EnvironmentWrapper BackendRef) :=
  try_except
    (if (replicas <? 1)%Z then
       raise (mkExc ValidationError "replicas must be >= 1")
     else if truthy_hosts hosts && (len_hosts hosts <? replicas)%Z then
       raise (mkExc ValidationError
                ("Not enough hosts (" ++ str_of_Z (len_hosts hosts)
                 ++ ") for replicas (" ++ str_of_Z replicas ++ "). "
                 ++ "Either provide enough hosts or set hosts=None for local deployment."))
     else if (replicas =? 1)%Z then
       _load_single_instance image mode
         (match hosts with Some (h :: _) => h | _ => "localhost" end)
         base_port container_name env_vars env_type force_recreate
         backend_kwargs
     else
       _load_multi_instance loop image mode replicas hosts load_balance base_port
         container_name env_vars env_type force_recreate backend_kwargs)
    (fun e => raise e).

End Api.

(* ================================================================== *)
(** * The registry seen through [api.py] *)

(** The part of the store a method of a leaf backend cannot touch. *)
Definition same_frame {B} (w w' : World B) : Prop :=
  pools w' = pools w /\ registry w' = registry w
  /\ constructions w' = constructions w.

(** Pools and registry are out of reach of a constructor call. *)
Definition keeps_registry {B} (w w' : World B) : Prop :=
  pools w' = pools w /\ registry w' = registry w.

(** Modelled from the spec: [get] of the registry, the lookup of a name in
    the mapping, which gives the proxy or the absent indicator (sections 3
    and 6); [get_environment] of [api.py] returns what it gives. *)
Definition get_environment {B} (env_id : string) (w : World B)
  : option (EnvironmentWrapper BackendRef) :=
  match find (fun kv => String.eqb env_id (fst kv)) (registry w) with
  | Some kv => Some (snd kv)
  | None => None
  end.

(** Modelled from the spec: [list_all] of the registry, the registered
    names in the order of insertion (section 3); [list_active_environments]
    of [api.py] returns what it gives. *)
Definition list_active_environments {B} (w : World B) : list string :=
  map fst (registry w).

(* ================================================================== *)
(** * The proxy as a context manager, and its destructor *)

(** The outcome of [__exit__] and [__del__]: the proxy, and whether a cleanup
    was handed to [asyncio.create_task], to be run by the loop later. *)
Record Released (Ref : Type) : Type := mkReleased {
  released_proxy : EnvironmentWrapper Ref;
  cleanup_scheduled : bool
}.
Arguments mkReleased {Ref} _ _.
Arguments released_proxy {Ref} _.
Arguments cleanup_scheduled {Ref} _.

Section ContextManager.
Context {St Ref : Type} {D : Dispatch St Ref}.

(** [EnvironmentWrapper.__enter__] *)
Definition __enter__ (self : EnvironmentWrapper Ref) : EnvironmentWrapper Ref :=
  self.

(** The body shared by [__exit__] and [__del__]: on a running loop the
    cleanup is only scheduled, on an idle loop it is run to its end, and an
    exception on the way is logged. *)
Definition cleanup_in_sync_context (loop : LoopStatus)
    (self : EnvironmentWrapper Ref)
  : PState St Ref -> Released Ref * PState St Ref :=
  fun ps =>
    match loop with
    | NoLoop => (mkReleased self false, ps)
    | LoopRunning => (mkReleased self true, ps)
    | LoopIdle => let '(_, w', ps') := cleanup self ps in (mkReleased w' false, ps')
    end.

(** [EnvironmentWrapper.__exit__]; it returns [None]. *)
Definition __exit__ (loop : LoopStatus) (self : EnvironmentWrapper Ref)
  : PState St Ref -> Released Ref * PState St Ref :=
  cleanup_in_sync_context loop self.

(** [EnvironmentWrapper.__del__] *)
Definition __del__ (loop : LoopStatus) (self : EnvironmentWrapper Ref)
  : PState St Ref -> Released Ref * PState St Ref :=
  fun ps =>
    if _is_ready self then cleanup_in_sync_context loop self ps
    else (mkReleased self false, ps).

(** The statement [with env: body]: [__enter__], the body, then [__exit__]
    whatever the outcome of the body; since [__exit__] returns [None], an
    exception of the body is raised again after it.  The body may use the
    proxy, and change it. *)
Definition with_statement {A} (loop : LoopStatus) (self : EnvironmentWrapper Ref)
    (body : EnvironmentWrapper Ref ->
            PState St Ref -> (result A * EnvironmentWrapper Ref) * PState St Ref)
  : PState St Ref -> (result A * Released Ref) * PState St Ref :=
  fun ps =>
    let '(r, w1, ps1) := body (__enter__ self) ps in
    let (released, ps2) := __exit__ loop w1 ps1 in
    (r, released, ps2).

End ContextManager.

(* ================================================================== *)
(** * Listing and printing the methods: [core/wrapper.py] *)

(** The values of a method descriptor, as a backend returns them (decoded
    JSON): [None], booleans, integers, strings, lists, and dictionaries with
    string keys in their order. *)
#[local] Set Warnings "-register-all".
Inductive PyObj : Type :=
| ONone
| OBool (b : bool)
| OInt (z : Z)
| OStr (s : string)
| OList (l : list PyObj)
| ODict (kv : list (string * PyObj)).

(** The exceptions the printing code can run into. *)
Inductive PyError : Type :=
| NoSuchKey (key : string)
| NoSuchAttribute (type_name attribute : string)
| NotIterable (type_name : string).

(** [str(e)] for these: the [repr] of the key for a [KeyError], the usual
    sentences for the other two. *)
Definition str_of_error (e : PyError) : string :=
  match e with
  | NoSuchKey k => "'" ++ k ++ "'"
  | NoSuchAttribute t a => "'" ++ t ++ "' object has no attribute '" ++ a ++ "'"
  | NotIterable t => "'" ++ t ++ "' object is not iterable"
  end.

Inductive attempt (A : Type) : Type :=
| Done (a : A)
| Failed (e : PyError).
Arguments Done {A} a.
Arguments Failed {A} e.

(** [type(o).__name__] *)
Definition type_name (o : PyObj) : string :=
  match o with
  | ONone => "NoneType"
  | OBool _ => "bool"
  | OInt _ => "int"
  | OStr _ => "str"
  | OList _ => "list"
  | ODict _ => "dict"
  end.

(** The truth value of an object. *)
Definition truthy (o : PyObj) : bool :=
  match o with
  | ONone => false
  | OBool b => b
  | OInt z => negb (z =? 0)%Z
  | OStr s => negb (String.eqb s "")
  | OList l => match l with [] => false | _ => true end
  | ODict kv => match kv with [] => false | _ => true end
  end.

Definition dict_lookup (key : string) (kv : list (string * PyObj)) : option PyObj :=
  match find (fun p => String.eqb key (fst p)) kv with
  | Some p => Some (snd p)
  | None => None
  end.

(** [o.get(key, default)]: a method of dictionaries only. *)
Definition obj_get (o : PyObj) (key : string) (default : PyObj) : attempt PyObj :=
  match o with
  | ODict kv =>
      Done (match dict_lookup key kv with Some v => v | None => default end)
  | _ => Failed (NoSuchAttribute (type_name o) "get")
  end.

(** [d[key]] on a dictionary. *)
Definition dict_index (kv : list (string * PyObj)) (key : string) : attempt PyObj :=
  match dict_lookup key kv with
  | Some v => Done v
  | None => Failed (NoSuchKey key)
  end.

(** [a == b]: booleans compare with integers as 0 and 1, lists element by
    element, dictionaries key by key whatever the order. *)
Fixpoint py_eq (a b : PyObj) {struct a} : bool :=
  match a, b with
  | ONone, ONone => true
  | OBool x, OBool y => Bool.eqb x y
  | OInt x, OInt y => (x =? y)%Z
  | OBool x, OInt y => ((if x then 1 else 0) =? y)%Z
  | OInt x, OBool y => (x =? (if y then 1 else 0))%Z
  | OStr x, OStr y => String.eqb x y
  | OList l, OList m =>
      (fix go (l m : list PyObj) {struct l} : bool :=
         match l, m with
         | [], [] => true
         | x :: l', y :: m' => py_eq x y && go l' m'
         | _, _ => false
         end) l m
  | ODict d, ODict e =>
      Nat.eqb (List.length d) (List.length e)
      && (fix go (d : list (string * PyObj)) {struct d} : bool :=
            match d with
            | [] => true
            | (k, v) :: d' =>
                match dict_lookup k e with
                | Some v' => py_eq v v'
                | None => false
                end && go d'
            end) d
  | _, _ => false
  end.

(** The items a [for] loop or a comprehension draws from an object: the
    elements of a list, the keys of a dictionary, the characters of a
    string; the other objects are not iterable. *)
Fixpoint chars (s : string) : list PyObj :=
  match s with
  | EmptyString => []
  | String c rest => OStr (String c EmptyString) :: chars rest
  end.

Definition iterate (o : PyObj) : attempt (list PyObj) :=
  match o with
  | OList l => Done l
  | ODict kv => Done (map (fun p => OStr (fst p)) kv)
  | OStr s => Done (chars s)
  | _ => Failed (NotIterable (type_name o))
  end.

(** [str(o)] as an f-string inserts it.  The text of a list or of a
    dictionary is taken as given. *)
Class Repr : Type := repr_compound : PyObj -> string.

Definition py_str {R : Repr} (o : PyObj) : string :=
  match o with
  | ONone => "None"
  | OBool true => "True"
  | OBool false => "False"
  | OInt z => str_of_Z z
  | OStr s => s
  | _ => repr_compound o
  end.

(** Standard output: the texts handed to [print], oldest first. *)
Definition Console : Type := list string.

(** Printing code: it appends to the console and may fail half way, what
    was printed before staying printed. *)
Definition Pr (A : Type) : Type := Console -> attempt A * Console.

Definition pr_ret {A} (a : A) : Pr A := fun out => (Done a, out).
Definition pr_fail {A} (e : PyError) : Pr A := fun out => (Failed e, out).
Definition pr_bind {A C} (m : Pr A) (k : A -> Pr C) : Pr C :=
  fun out => match m out with
             | (Done a, out') => k a out'
             | (Failed e, out') => (Failed e, out')
             end.
Definition print (text : string) : Pr unit :=
  fun out => (Done tt, (out ++ [text])%list).
Definition pr_try {A} (a : attempt A) : Pr A := fun out => (a, out).

Declare Scope pr_scope.
Delimit Scope pr_scope with pr.
Notation "x <~ m ;; k" := (pr_bind m (fun x => k))
  (at level 61, m at next level, right associativity) : pr_scope.
Notation "m ;;~ k" := (pr_bind m (fun _ => k))
  (at level 61, right associativity) : pr_scope.

(** [for x in l: body x] *)
Fixpoint pr_for {A} (l : list A) (body : A -> Pr unit) : Pr unit :=
  match l with
  | [] => pr_ret tt
  | x :: rest => (body x ;;~ pr_for rest body)%pr
  end.

(** ["=" * 60] *)
Definition banner : string := Eval cbv in
  (fix rep (n : nat) : string :=
     match n with O => EmptyString | S k => String "=" (rep k) end) 60.

(** The new line character. *)
Definition nl : string := String (ascii_of_nat 10) EmptyString.

(** [[m for m in items if m.get(key) == value]] for a string [value]. *)
Fixpoint select_by (key value : string) (items : list PyObj)
  : attempt (list PyObj) :=
  match items with
  | [] => Done []
  | m :: rest =>
      match obj_get m key ONone with
      | Failed e => Failed e
      | Done v =>
          match select_by key value rest with
          | Failed e => Failed e
          | Done l => Done (if py_eq v (OStr value) then m :: l else l)
          end
      end
  end.

Section Printing.
Context {R : Repr}.

(** [item['name']] on an item that a comprehension kept: the item has
    answered a [get], so it is a dictionary, and the other case does not
    arise. *)
Definition item_index (m : PyObj) (key : string) : attempt PyObj :=
  match m with
  | ODict kv => dict_index kv key
  | _ => Failed (NoSuchAttribute (type_name m) "__getitem__")
  end.

(** The loop body of [_print_function_methods]:
    [print(f"  env.{method['name']}{sig}")]. *)
Definition print_signature (method : PyObj) : Pr unit :=
  (sig <~ pr_try (obj_get method "signature" (OStr "(...)")) ;;
   nm <~ pr_try (item_index method "name") ;;
   print ("  env." ++ py_str nm ++ py_str sig))%pr.

(** [EnvironmentWrapper._print_function_methods] *)
Definition _print_function_methods (methods : list PyObj) : Pr unit :=
  (print (nl ++ banner) ;;~
   print "Available Methods (function_based)" ;;~
   print banner ;;~
   actor_methods <~ pr_try (select_by "source" "Actor" methods) ;;
   module_methods <~ pr_try (select_by "source" "module" methods) ;;
   (match actor_methods with
    | [] => pr_ret tt
    | _ => (print (nl ++ "Actor Methods:") ;;~
            pr_for actor_methods print_signature)
    end) ;;~
   (match module_methods with
    | [] => pr_ret tt
    | _ => (print (nl ++ "Module Functions:") ;;~
            pr_for module_methods print_signature)
    end) ;;~
   print (nl ++ banner))%pr.

(** [" (required)" if p.get("required") else " (optional)"] *)
Definition required_mark (p : PyObj) : attempt string :=
  match obj_get p "required" ONone with
  | Failed e => Failed e
  | Done r => Done (if truthy r then " (required)" else " (optional)")
  end.

(** The loop body for a query parameter. *)
Definition print_query_param (p : PyObj) : Pr unit :=
  (required <~ pr_try (required_mark p) ;;
   ptype <~ pr_try (obj_get p "type" (OStr "unknown")) ;;
   nm <~ pr_try (item_index p "name") ;;
   print ("    - " ++ py_str nm ++ ": " ++ py_str ptype ++ required))%pr.

(** The loop body for a body parameter. *)
Definition print_body_param (p : PyObj) : Pr unit :=
  (required <~ pr_try (required_mark p) ;;
   ptype <~ pr_try (obj_get p "type" (OStr "unknown")) ;;
   default <~ pr_try (obj_get p "default" ONone) ;;
   let default_str :=
     match default with
     | ONone => ""
     | _ => " = " ++ py_str default
     end in
   nm <~ pr_try (item_index p "name") ;;
   print ("    - " ++ py_str nm ++ ": " ++ py_str ptype ++ required
          ++ default_str))%pr.

(** [[p for p in params if p.get("in") == value]] *)
Definition params_in (value : string) (params : PyObj) : attempt (list PyObj) :=
  match iterate params with
  | Failed e => Failed e
  | Done items => select_by "in" value items
  end.

(** The loop body of [_print_http_methods]. *)
Definition print_endpoint (endpoint : PyObj) : Pr unit :=
  (path <~ pr_try (obj_get endpoint "path" (OStr "")) ;;
   method <~ pr_try (obj_get endpoint "method" (OStr "GET")) ;;
   summary <~ pr_try (obj_get endpoint "summary" (OStr "")) ;;
   description <~ pr_try (obj_get endpoint "description" (OStr "")) ;;
   params <~ pr_try (obj_get endpoint "parameters" (OList [])) ;;
   print (nl ++ py_str method ++ " " ++ py_str path) ;;~
   (if truthy summary then print ("  Summary: " ++ py_str summary)
    else pr_ret tt) ;;~
   (if truthy description && negb (py_eq description summary)
    then print ("  Description: " ++ py_str description)
    else pr_ret tt) ;;~
   (if truthy params then
      (query_params <~ pr_try (params_in "query" params) ;;
       body_params <~ pr_try (params_in "body" params) ;;
       (match query_params with
        | [] => pr_ret tt
        | _ => (print "  Query Parameters:" ;;~
                pr_for query_params print_query_param)
        end) ;;~
       (match body_params with
        | [] => pr_ret tt
        | _ => (print "  Request Body:" ;;~
                pr_for body_params print_body_param)
        end))
    else pr_ret tt))%pr.

(** [EnvironmentWrapper._print_http_methods] *)
Definition _print_http_methods (methods : list PyObj) : Pr unit :=
  (print (nl ++ banner) ;;~
   print "Available Endpoints (http_based)" ;;~
   print banner ;;~
   pr_for methods print_endpoint ;;~
   print (nl ++ banner))%pr.

(** [EnvironmentWrapper._print_method_info] *)
Definition _print_method_info (methods : list PyObj) : Pr unit :=
  match methods with
  | [] => print "No methods available"
  | ODict kv :: _ =>
      match dict_lookup "path" kv with
      | Some _ => _print_http_methods methods
      | None => _print_function_methods methods
      end
  | _ :: _ =>
      (print (nl ++ "Available methods:") ;;~
       pr_for methods (fun method => print ("  - " ++ py_str method)))%pr
  end.

End Printing.

(** [list_methods] of the wrapped object, which the record of the other
    methods does not hold. *)
Class Lister (St Ref : Type) : Type :=
  b_list_methods : Ref -> M St (list PyObj).

(** The state [list_methods] of the proxy runs in: the state of the proxy,
    the console, and the objects whose [list_methods] was called, oldest
    first. *)
Record ListState (St Ref : Type) : Type := mkListState {
  proxy_state : PState St Ref;
  console : Console;
  listed : list Ref
}.
Arguments mkListState {St Ref} _ _ _.
Arguments proxy_state {St Ref} _.
Arguments console {St Ref} _.
Arguments listed {St Ref} _.

Section ListMethods.
Context {St Ref : Type} {L : Lister St Ref} {R : Repr}.

(** [EnvironmentWrapper.list_methods]: the readiness test stands before the
    [try]; inside it, the backend is asked, the result printed on request
    and returned; any exception raised there becomes
    [EnvironmentError(f"Failed to list methods: {e}")]. *)
Definition list_methods (self : EnvironmentWrapper Ref) (print_info : bool)
  : M (ListState St Ref) (list PyObj) :=
  fun ls =>
    if negb (_is_ready self) then
      (Raise (mkExc EnvironmentError
                ("Environment '" ++ name self ++ "' not ready.")), ls)
    else
      let (r, st') := b_list_methods (_backend self) (store (proxy_state ls)) in
      let ps' := mkPState st' (calls (proxy_state ls)) in
      let asked := (listed ls ++ [_backend self])%list in
      match r with
      | Raise e =>
          (Raise (mkExc EnvironmentError ("Failed to list methods: " ++ exc_msg e)),
           mkListState ps' (console ls) asked)
      | Ok methods =>
          if print_info then
            match _print_method_info methods (console ls) with
            | (Done _, out) => (Ok methods, mkListState ps' out asked)
            | (Failed e, out) =>
                (Raise (mkExc EnvironmentError
                          ("Failed to list methods: " ++ str_of_error e)),
                 mkListState ps' out asked)
            end
          else (Ok methods, mkListState ps' (console ls) asked)
      end.

End ListMethods.

(* ================================================================== *)
(** * Container lifecycle: [infrastructure/docker_manager.py] *)

Module DockerManager.

(** The classes of the exceptions that reach the handlers of this module
    from outside it, as far as the handlers tell them apart: of the Docker
    SDK, [docker.errors.ImageNotFound] derives from [NotFound] and
    [NotFound] from [APIError]; [OtherException] stands for every other
    class under [Exception] ([KeyError], [TypeError], a connection error). *)
Inductive ForeignClass : Type :=
| ImageNotFound
| NotFound
| APIError
| OtherException.

(** Whether an exception of class [c] is caught by [except parent]. *)
Definition isinstance (c parent : ForeignClass) : bool :=
  match parent, c with
  | ImageNotFound, ImageNotFound => true
  | NotFound, (ImageNotFound | NotFound) => true
  | APIError, (ImageNotFound | NotFound | APIError) => true
  | OtherException, OtherException => true
  | _, _ => false
  end.

(** What travels up the stack: an exception from outside the package, with
    the text [str(e)] gives, or one of the package's own. *)
Inductive Thrown : Type :=
| Foreign (c : ForeignClass) (text : string)
| Own (e : Exc).

(** [str(e)], what an f-string inserts. *)
Definition str_of (t : Thrown) : string :=
  match t with
  | Foreign _ text => text
  | Own e => exc_msg e
  end.

Inductive outcome (A : Type) : Type :=
| Returned (a : A)
| Threw (t : Thrown).
Arguments Returned {A} a.
Arguments Threw {A} t.

(** Keyword arguments collected in a dictionary, in insertion order. *)
Definition Config : Type := list (string * PyObj).

(** [d[k] = v]: a key already present keeps its place. *)
Fixpoint dict_set (k : string) (v : PyObj) (d : Config) : Config :=
  match d with
  | [] => [(k, v)]
  | (k', v') :: rest =>
      if String.eqb k k' then (k, v) :: rest else (k', v') :: dict_set k v rest
  end.

(** The dictionary display with [**kwargs] at its end: the entries of
    [kwargs] are assigned in their order. *)
Definition dict_update (d kwargs : Config) : Config :=
  fold_left (fun acc kv => dict_set (fst kv) (snd kv) acc) kwargs d.

(** [pattern in s] on strings. *)
Fixpoint contains (pattern s : string) : bool :=
  if String.prefix pattern s then true
  else match s with
       | EmptyString => false
       | String _ rest => contains pattern rest
       end.

(** What the SDK answers: a value, or an exception of its own making. *)
Inductive reply (A : Type) : Type :=
| Fine (a : A)
| Fault (c : ForeignClass) (text : string).
Arguments Fine {A} a.
Arguments Fault {A} c text.

Definition of_reply {A} (r : reply A) : outcome A :=
  match r with
  | Fine a => Returned a
  | Fault c text => Threw (Foreign c text)
  end.

(** The Docker SDK as this module uses it, over the state [D] of the daemon
    and of the client's objects, with [C] the container objects.  The calls
    may change the state and may raise; reading an attribute of a container
    object ([status], [short_id], [name], the networks under [attrs]) does
    not change the state and may raise as well. *)
Class Sdk (D C : Type) : Type := {
  images_get : string -> D -> reply unit * D;
  containers_get : string -> D -> reply C * D;
  containers_run : Config -> D -> reply C * D;
  containers_list : D -> reply (list C) * D;
  container_reload : C -> D -> reply unit * D;
  container_start : C -> D -> reply unit * D;
  container_stop : C -> Z -> D -> reply unit * D;
  container_remove : C -> bool -> D -> reply unit * D;
  container_status : C -> D -> reply string;
  container_short_id : C -> D -> reply string;
  (** [container.name], which is [None] for a container without one *)
  container_name : C -> D -> reply (option string);
  (** [container.attrs["NetworkSettings"]["Networks"]] *)
  container_networks : C -> D -> reply PyObj
}.

(** The calls made on the SDK, with their arguments. *)
Inductive SdkCall (C : Type) : Type :=
| ImagesGet (image : string)
| ContainersGet (name : string)
| ContainersRun (config : Config)
| ContainersList
| Reload (c : C)
| Start (c : C)
| Stop (c : C) (timeout : Z)
| Remove (c : C) (force : bool).
Arguments ImagesGet {C} image.
Arguments ContainersGet {C} name.
Arguments ContainersRun {C} config.
Arguments ContainersList {C}.
Arguments Reload {C} c.
Arguments Start {C} c.
Arguments Stop {C} c timeout.
Arguments Remove {C} c force.

(** The state a method of the manager runs in: the SDK's, and the calls
    made so far, oldest first. *)
Record DState (D C : Type) : Type := mkDState {
  daemon : D;
  sdk_calls : list (SdkCall C)
}.
Arguments mkDState {D C} daemon sdk_calls.
Arguments daemon {D C} d.
Arguments sdk_calls {D C} d.

Definition DM (D C A : Type) : Type := DState D C -> outcome A * DState D C.

Definition dret {D C A} (a : A) : DM D C A := fun st => (Returned a, st).
Definition throw {D C A} (t : Thrown) : DM D C A := fun st => (Threw t, st).
Definition dbind {D C A A'} (m : DM D C A) (k : A -> DM D C A') : DM D C A' :=
  fun st => match m st with
            | (Returned a, st') => k a st'
            | (Threw t, st') => (Threw t, st')
            end.

(** [try: body except ...: handler], the handler choosing by the class of
    what it is given, and throwing it again where no clause matches. *)
Definition try_catch {D C A} (body : DM D C A) (handler : Thrown -> DM D C A)
  : DM D C A :=
  fun st => match body st with
            | (Returned a, st') => (Returned a, st')
            | (Threw t, st') => handler t st'
            end.

Declare Scope dk_scope.
Delimit Scope dk_scope with dk.
Notation "x <- m ;; k" := (dbind m (fun x => k))
  (at level 61, m at next level, right associativity) : dk_scope.
Notation "m ;;; k" := (dbind m (fun _ => k))
  (at level 61, right associativity) : dk_scope.

(** A failure of the dictionary operations, as the [Exception] it is. *)
Definition of_attempt {D C A} (a : attempt A) : DM D C A :=
  match a with
  | Done x => dret x
  | Failed e => throw (Foreign OtherException (str_of_error e))
  end.

(** [name] as a condition: [None] and the empty string are false. *)
Definition given (name : option string) : bool :=
  match name with
  | Some s => negb (String.eqb s "")
  | None => false
  end.

Definition text_of (name : option string) : string :=
  match name with Some s => s | None => "" end.

(** [networks.items()] *)
Definition items (o : PyObj) : attempt (list (string * PyObj)) :=
  match o with
  | ODict kv => Done kv
  | _ => Failed (NoSuchAttribute (type_name o) "items")
  end.

(** [pattern not in name]; a [None] on the right is a [TypeError]. *)
Definition not_in {D C} (pattern : string) (name : option string) : DM D C bool :=
  match name with
  | Some s => dret (negb (contains pattern s))
  | None =>
      throw (Foreign OtherException "argument of type 'NoneType' is not iterable")
  end.

Section Manager.
Context {D C : Type} {S : Sdk D C}.
Open Scope dk_scope.

Definition sdk_call {A} (k : SdkCall C) (op : D -> reply A * D) : DM D C A :=
  fun st => (of_reply (fst (op (daemon st))),
             mkDState (snd (op (daemon st))) (sdk_calls st ++ [k])%list).

Definition sdk_read {A} (read : D -> reply A) : DM D C A :=
  fun st => (of_reply (read (daemon st)), st).

Definition call_images_get (image : string) : DM D C unit :=
  sdk_call (ImagesGet image) (images_get image).
Definition call_containers_get (name : string) : DM D C C :=
  sdk_call (ContainersGet name) (containers_get name).
Definition call_containers_run (config : Config) : DM D C C :=
  sdk_call (ContainersRun config) (containers_run config).
Definition call_containers_list : DM D C (list C) :=
  sdk_call ContainersList containers_list.
Definition call_reload (c : C) : DM D C unit :=
  sdk_call (Reload c) (container_reload c).
Definition call_start (c : C) : DM D C unit :=
  sdk_call (Start c) (container_start c).
Definition call_stop (c : C) (timeout : Z) : DM D C unit :=
  sdk_call (Stop c timeout) (container_stop c timeout).
Definition call_remove (c : C) (force : bool) : DM D C unit :=
  sdk_call (Remove c force) (container_remove c force).

(** [DockerManager.get_existing_container]: the container of that name,
    reloaded, or [None]; the message of the log reads [container.status]. *)
Definition get_existing_container (name : string) : DM D C (option C) :=
  try_catch
    (container <- call_containers_get name ;;
     call_reload container ;;;
     _ <- sdk_read (container_status container) ;;
     dret (Some container))
    (fun t =>
       match t with
       | Foreign c _ => if isinstance c NotFound then dret None else dret None
       | Own _ => dret None
       end).

(** [DockerManager.remove_container] *)
Definition remove_container (name : string) : DM D C bool :=
  try_catch
    (container <- call_containers_get name ;;
     call_remove container true ;;;
     dret true)
    (fun t =>
       match t with
       | Foreign c _ => if isinstance c NotFound then dret false else dret false
       | Own _ => dret false
       end).

(** The dictionary [container_config] of [start_container]. *)
Definition container_config (image : string) (name : option string)
    (detach : bool) (kwargs : Config) : Config :=
  let config :=
    dict_update [("image", OStr image); ("detach", OBool detach);
                 ("remove", OBool false); ("tty", OBool true);
                 ("stdin_open", OBool true)] kwargs in
  if given name then dict_set "name" (OStr (text_of name)) config else config.

(** The part of [start_container] that looks for a container of the given
    name: [Some c] where the source returns [c] from inside it, [None]
    where control reaches the statements after it.  A container object is
    true as a condition. *)
Definition reuse_existing (name : option string) (force_recreate : bool)
  : DM D C (option C) :=
  if given name then
    existing <- get_existing_container (text_of name) ;;
    match existing with
    | Some existing =>
        if force_recreate then
          remove_container (text_of name) ;;; dret None
        else
          status <- sdk_read (container_status existing) ;;
          if String.eqb status "running" then dret (Some existing)
          else
            call_start existing ;;;
            call_reload existing ;;;
            status <- sdk_read (container_status existing) ;;
            if String.eqb status "running" then dret (Some existing)
            else remove_container (text_of name) ;;; dret None
    | None => dret None
    end
  else dret None.

(** The part of [start_container] that runs a new container; the message
    of the last log reads [container.short_id]. *)
Definition run_new (image : string) (name : option string) (detach : bool)
    (kwargs : Config) : DM D C C :=
  container <- call_containers_run (container_config image name detach kwargs) ;;
  call_reload container ;;;
  status <- sdk_read (container_status container) ;;
  if negb (String.eqb status "running") then
    status <- sdk_read (container_status container) ;;
    throw (Own (mkExc ContainerError ("Container failed to start: " ++ status)))
  else
    _ <- sdk_read (container_short_id container) ;;
    dret container.

(** [DockerManager.start_container] *)
Definition start_container (image : string) (name : option string)
    (detach force_recreate : bool) (kwargs : Config) : DM D C C :=
  try_catch
    (try_catch (call_images_get image)
       (fun t =>
          match t with
          | Foreign c _ =>
              if isinstance c ImageNotFound then
                throw (Own (mkExc ImageNotFoundError
                         ("Image '" ++ image
                          ++ "' not found. Build it first using build_image_from_env()")))
              else throw t
          | Own _ => throw t
          end) ;;;
     reused <- reuse_existing name force_recreate ;;
     match reused with
     | Some existing => dret existing
     | None => run_new image name detach kwargs
     end)
    (fun t =>
       match t with
       | Own e =>
           match exc_class e with
           | ImageNotFoundError => throw t
           | _ => throw (Own (mkExc ContainerError
                                ("Failed to start container: " ++ str_of t)))
           end
       | Foreign c _ =>
           if isinstance c APIError then
             throw (Own (mkExc ContainerError ("Docker API error: " ++ str_of t)))
           else
             throw (Own (mkExc ContainerError
                           ("Failed to start container: " ++ str_of t)))
       end).

(** [DockerManager.stop_container]; the bare [except] of the handler
    catches whatever the second removal raises. *)
Definition stop_container (container : C) (timeout : Z) : DM D C unit :=
  try_catch
    (_ <- sdk_read (container_short_id container) ;;
     call_stop container timeout ;;;
     call_remove container true)
    (fun _ =>
       try_catch (call_remove container true) (fun _ => dret tt)).

(** The loop of [get_container_ip] over the items of the networks, and the
    [raise] after it. *)
Fixpoint first_address (networks : list (string * PyObj)) : DM D C PyObj :=
  match networks with
  | [] => throw (Own (mkExc ContainerError "No IP address found for container"))
  | (_, network_info) :: rest =>
      ip <- of_attempt (obj_get network_info "IPAddress" ONone) ;;
      if truthy ip then dret ip else first_address rest
  end.

(** [DockerManager.get_container_ip] *)
Definition get_container_ip (container : C) : DM D C PyObj :=
  try_catch
    (call_reload container ;;;
     networks <- sdk_read (container_networks container) ;;
     networks <- of_attempt (items networks) ;;
     first_address networks)
    (fun t =>
       throw (Own (mkExc ContainerError
                     ("Failed to get container IP: " ++ str_of t)))).

(** One turn of the loop of [cleanup_all]: [true] for [continue].  Both the
    message of the log and the message of the handler read
    [container.short_id]. *)
Definition skipped (name_pattern : option string) (container : C) : DM D C bool :=
  if given name_pattern then
    name <- sdk_read (container_name container) ;;
    not_in (text_of name_pattern) name
  else dret false.

Definition cleanup_one (name_pattern : option string) (container : C)
  : DM D C unit :=
  skip <- skipped name_pattern container ;;
  if skip then dret tt
  else
    try_catch
      (_ <- sdk_read (container_short_id container) ;;
       call_stop container 5 ;;;
       call_remove container true)
      (fun _ =>
         _ <- sdk_read (container_short_id container) ;;
         dret tt).

Fixpoint for_each {A} (l : list A) (body : A -> DM D C unit) : DM D C unit :=
  match l with
  | [] => dret tt
  | x :: rest => body x ;;; for_each rest body
  end.

(** [DockerManager.cleanup_all] *)
Definition cleanup_all (name_pattern : option string) : DM D C unit :=
  try_catch
    (containers <- call_containers_list ;;
     for_each containers (cleanup_one name_pattern))
    (fun _ => dret tt).

End Manager.

(** Proof steps: unfolding the methods in a hypothesis, and the analysis
    of what the SDK answers, innermost answer first. *)
Ltac dk_unfold H :=
  unfold start_container, reuse_existing, run_new, get_existing_container,
    remove_container, stop_container, get_container_ip, try_catch, dbind,
    sdk_read, call_images_get, call_containers_get, call_containers_run,
    call_containers_list, call_reload, call_start, call_stop, call_remove,
    sdk_call, dret, throw, of_reply in H.

Ltac dk_cases H :=
  repeat (cbn [fst snd daemon sdk_calls] in H;
          match type of H with
          | context [match ?x with _ => _ end] =>
              lazymatch x with
              | context [match _ with _ => _ end] => fail
              | _ => destruct x eqn:?
              end
          end).

End DockerManager.

(* ================================================================== *)
(** * Notions used in the statements *)

(** The uniform error of the readiness gate. *)
Definition not_ready_error {Ref} (self : EnvironmentWrapper Ref) : Exc :=
  mkExc EnvironmentError ("Environment '" ++ name self ++ "' not ready.").

(** The journal entry of a forwarded call. *)
Definition forwarded_entry {Ref} (self : EnvironmentWrapper Ref) (attr : string)
    (args : list PyVal) (kw : Keywords) : Ref * Call :=
  (_backend self, CCallMethod attr args (bound_timeout kw) (bound_kwargs kw)).

(** The error of [_deploy_instance] for a mode other than [local]. *)
Definition mode_unsupported (mode : string) : Exc :=
  mkExc ValidationError ("Mode '" ++ mode ++ "' not supported for multi-instance").

(** What a forwarded call returns to the caller for a given outcome of the
    backend. *)
Definition translated (env attr : string) (r : result PyVal) : result PyVal :=
  match r with
  | Ok v => Ok v
  | Raise e =>
      Raise (mkExc EnvironmentError
               ("Method '" ++ attr ++ "' failed on environment '" ++ env
                ++ "': " ++ exc_msg e))
  end.

(* ================================================================== *)
(** * A test double *)

(** A backend in the manner of a test double: it has a name, a readiness
    probe, a cleanup that stops it unless it is set to fail, and a remote
    method surface that answers with the name of the method unless it is set
    to fail. *)
Record Mock : Type := mkMock {
  mock_name : string;
  mock_ready : bool;
  mock_cleanup_raises : bool;
  mock_call_raises : bool
}.

#[export] Instance mock_backend : AbstractBackend Mock := {
  leaf_name := mock_name;
  leaf_is_ready := mock_ready;
  leaf_call_method := fun m _ _ _ s =>
    if mock_call_raises s
    then (Raise (mkExc RayExecutionError "actor died"), s)
    else (Ok (VStr m), s);
  leaf_cleanup := fun s =>
    if mock_cleanup_raises s
    then (Raise (mkExc ContainerError "cannot stop container"), s)
    else (Ok tt, mkMock (mock_name s) false false (mock_call_raises s))
}.

(** The constructors of the double: a local backend cannot be created on
    port 9001, which is taken; every other construction succeeds and gives a
    ready backend. *)
#[export] Instance mock_classes : BackendClasses Mock := {
  LocalBackend := fun a _ =>
    if (la_http_port a =? 9001)%Z
    then Raise (mkExc ContainerError "port is already allocated")
    else Ok (mkMock (or_else (la_container_name a) (la_image a)) true false false);
  RemoteBackend := fun environment_id _ _ =>
    Ok (mkMock environment_id true false false)
}.

(** The pool of the double calls itself "pool", reports a partial cleanup
    by returning, and has a constructor that refuses every strategy other
    than "random" and "round_robin". *)
#[export] Instance mock_policy : PoolPolicy := {
  name_pool := fun _ => "pool";
  report_partial_cleanup := fun _ => Ok tt;
  constructor_raises := fun _ strategy =>
    if String.eqb strategy "random" || String.eqb strategy "round_robin"
    then None
    else Some (mkExc ValidationError
                 ("Invalid load balance strategy: " ++ strategy))
}.

(** The process before anything was loaded. *)
Definition empty_world : World Mock := mkWorld [] [] [] [] 0 [].
Definition fresh : PState (World Mock) BackendRef := mkPState empty_world [].

(** A process holding one backend, wrapped once directly and once through a
    pool of size one. *)
Definition one_backend (s : Mock) : PState (World Mock) BackendRef :=
  mkPState
    (mkWorld [s]
       [mkPool "pool" [mkInstanceInfo "localhost" 8000 0 true 0] "round_robin" 0 true]
       [] [] 0 [])
    [].

(** A proxy over the backend at reference 0, as [__init__] builds it while
    the backend reports ready, and the same proxy with its flag cleared. *)
Definition ready_proxy : EnvironmentWrapper BackendRef :=
  fst (EnvironmentWrapper_init (RefBackend 0)
         (one_backend (mkMock "env" true false false))).

Definition cleared_proxy : EnvironmentWrapper BackendRef :=
  mkWrapper (RefBackend 0) false "env" false.

(** The pool proxy over the same backend. *)
Definition pool_proxy : EnvironmentWrapper BackendRef :=
  fst (EnvironmentWrapper_init (RefPool 0)
         (one_backend (mkMock "env" true false false))).

(** The state in which the backend has stopped reporting ready while it
    still answers calls. *)
Definition stale : PState (World Mock) BackendRef :=
  one_backend (mkMock "env" false false false).

(** A backend whose cleanup raises. *)
Definition stubborn : PState (World Mock) BackendRef :=
  one_backend (mkMock "env" true true false).

(** A backend whose remote calls raise. *)
Definition failing : PState (World Mock) BackendRef :=
  one_backend (mkMock "env" true false true).

(** What a journal entry issued by a proxy [w] may be: a call on the
    backend of [w], never a [call_method] for a name that begins with an
    underscore, and [get_stats] only if [w] wraps a pool. *)
Definition issued_by {Ref} (w : EnvironmentWrapper Ref) (rc : Ref * Call) : Prop :=
  fst rc = _backend w
  /\ match snd rc with
     | CCallMethod m _ _ _ => startswith_underscore m = false
     | CGetStats => _is_pool w = true
     | _ => True
     end.

(** ** Descriptors in good shape, and what is printed for them *)

(** The value of a field of a descriptor, or a default. *)
Definition field (m : PyObj) (key : string) (default : PyObj) : PyObj :=
  match m with
  | ODict kv => match dict_lookup key kv with Some v => v | None => default end
  | _ => default
  end.

Definition is_dict (m : PyObj) : bool :=
  match m with ODict _ => true | _ => false end.

Definition has_key (key : string) (m : PyObj) : bool :=
  match m with
  | ODict kv => match dict_lookup key kv with Some _ => true | None => false end
  | _ => false
  end.

(** The descriptors a comprehension [if m.get(key) == value] keeps. *)
Definition field_is (key value : string) (m : PyObj) : bool :=
  py_eq (field m key ONone) (OStr value).

(** The line of a function descriptor. *)
Definition signature_line {R : Repr} (m : PyObj) : string :=
  "  env." ++ py_str (field m "name" ONone)
  ++ py_str (field m "signature" (OStr "(...)")).

(** A titled group of lines, absent when there is no line. *)
Definition titled (title : string) (lines : list string) : list string :=
  match lines with
  | [] => []
  | _ => title :: lines
  end.

(** What the function-based listing prints. *)
Definition function_listing {R : Repr} (methods : list PyObj) : list string :=
  ([(nl ++ banner)%string; "Available Methods (function_based)"; banner]
   ++ titled (nl ++ "Actor Methods:")%string
        (map signature_line (filter (field_is "source" "Actor") methods))
   ++ titled (nl ++ "Module Functions:")%string
        (map signature_line (filter (field_is "source" "module") methods))
   ++ [(nl ++ banner)%string])%list.

(** The lines of an endpoint without parameters. *)
Definition endpoint_lines {R : Repr} (e : PyObj) : list string :=
  let summary := field e "summary" (OStr "") in
  let description := field e "description" (OStr "") in
  ([(nl ++ py_str (field e "method" (OStr "GET")) ++ " "
     ++ py_str (field e "path" (OStr "")))%string]
   ++ (if truthy summary then [("  Summary: " ++ py_str summary)%string] else [])
   ++ (if truthy description && negb (py_eq description summary)
       then [("  Description: " ++ py_str description)%string] else []))%list.

(** A backend for the listing: its store is the answer it will give. *)
#[export] Instance canned_lister : Lister (list PyObj) unit :=
  fun _ st => (Ok st, st).

#[export] Instance opaque_repr : Repr := fun _ => "<object>".

Definition listing_proxy (ready : bool) : EnvironmentWrapper unit :=
  mkWrapper tt false "env" ready.

Definition listing_state (answer : list PyObj) : ListState (list PyObj) unit :=
  mkListState (mkPState answer []) [] [].

Definition sample_functions : list PyObj :=
  [ODict [("name", OStr "evaluate"); ("signature", OStr "(task)");
          ("source", OStr "Actor")];
   ODict [("name", OStr "helper"); ("source", OStr "module")];
   ODict [("name", OStr "hidden"); ("source", OStr "imported")]].

Definition sample_endpoints : list PyObj :=
  [ODict [("path", OStr "/evaluate"); ("method", OStr "POST");
          ("summary", OStr "Run a task"); ("description", OStr "Run a task")];
   ODict [("path", OStr "/health"); ("description", OStr "Liveness")]].

(** The calls one turn of the loop of the manager's [cleanup_all] may make
    on a container: the stop, and the removal where it came to it. *)
Definition cleanup_block {C} (turn : C * bool) : list (DockerManager.SdkCall C) :=
  DockerManager.Stop (fst turn) 5
  :: (if snd turn then [DockerManager.Remove (fst turn) true] else []).

(** A network without an address: its [IPAddress] is absent, [None] or
    empty. *)
Definition no_address (network : string * PyObj) : Prop :=
  exists ip, obj_get (snd network) "IPAddress" ONone = Done ip
             /\ truthy ip = false.

(** The state of the SDK after a turn of the loop of the manager's
    [cleanup_all] that started in the state [d]: after the stop, and after
    the removal where it came to it. *)
Definition after_turn {D C} {S : DockerManager.Sdk D C}
    (turn : C * bool) (d : D) : D :=
  let stopped := snd (DockerManager.container_stop (fst turn) 5 d) in
  if snd turn
  then snd (DockerManager.container_remove (fst turn) true stopped)
  else stopped.

Definition after_turns {D C} {S : DockerManager.Sdk D C}
    (turns : list (C * bool)) (d : D) : D :=
  fold_left (fun d turn => after_turn turn d) turns d.

(** Turns taken one after the other from the state [d].  With a pattern
    given, the name of the container, read in the state its turn starts in,
    contains the pattern; the removal was attempted exactly when the stop,
    made in that state, returned; and the next turn starts in the state this
    one leaves. *)
Fixpoint turns_from {D C} {S : DockerManager.Sdk D C}
    (pattern : option string) (d : D) (turns : list (C * bool)) : Prop :=
  match turns with
  | [] => True
  | turn :: rest =>
      (DockerManager.given pattern = true ->
       exists nm,
         DockerManager.container_name (fst turn) d = DockerManager.Fine (Some nm)
         /\ DockerManager.contains (DockerManager.text_of pattern) nm = true)
      /\ (snd turn = true
          <-> fst (DockerManager.container_stop (fst turn) 5 d)
              = DockerManager.Fine tt)
      /\ turns_from pattern (after_turn turn d) rest
  end.

(** Every id can be read. *)
Definition ids_readable {D C} {S : DockerManager.Sdk D C} : Prop :=
  forall (c : C) (d : D),
    exists id, DockerManager.container_short_id c d = DockerManager.Fine id.

(** A Docker daemon in the manner of a test double: the images it has and
    its containers, by name, with their status.  A container is its name.
    A container of the image "broken" exits at once; a container that is
    "paused" cannot be stopped; every container is on two networks, of which
    the second has an address. *)
Record Engine : Type := mkEngine {
  engine_images : list string;
  engine_containers : list (string * string)
}.

Definition engine_status (c : string) (e : Engine) : option string :=
  match find (fun p => String.eqb c (fst p)) (engine_containers e) with
  | Some p => Some (snd p)
  | None => None
  end.

Definition engine_set_status (c status : string) (e : Engine) : Engine :=
  mkEngine (engine_images e)
    (map (fun p => if String.eqb c (fst p) then (c, status) else p)
       (engine_containers e)).

Definition engine_run (config : DockerManager.Config) (e : Engine)
  : DockerManager.reply string * Engine :=
  let name := match dict_lookup "name" config with
              | Some (OStr n) => n
              | _ => "unnamed"
              end in
  let status := match dict_lookup "image" config with
                | Some (OStr "broken") => "exited"
                | _ => "running"
                end in
  match engine_status name e with
  | Some _ => (DockerManager.Fault DockerManager.APIError
                 ("409 Conflict: the name " ++ name ++ " is in use"), e)
  | None => (DockerManager.Fine name,
             mkEngine (engine_images e)
               (engine_containers e ++ [(name, status)])%list)
  end.

#[export] Instance mock_sdk : DockerManager.Sdk Engine string := {
  DockerManager.images_get := fun image e =>
    (if existsb (String.eqb image) (engine_images e)
     then DockerManager.Fine tt
     else DockerManager.Fault DockerManager.ImageNotFound
            ("404 No such image: " ++ image), e);
  DockerManager.containers_get := fun name e =>
    (match engine_status name e with
     | Some _ => DockerManager.Fine name
     | None => DockerManager.Fault DockerManager.NotFound
                 ("404 No such container: " ++ name)
     end, e);
  DockerManager.containers_run := engine_run;
  DockerManager.containers_list := fun e =>
    (DockerManager.Fine (map fst (engine_containers e)), e);
  DockerManager.container_reload := fun _ e => (DockerManager.Fine tt, e);
  DockerManager.container_start := fun c e =>
    (DockerManager.Fine tt, engine_set_status c "running" e);
  DockerManager.container_stop := fun c _ e =>
    match engine_status c e with
    | Some "paused" =>
        (DockerManager.Fault DockerManager.APIError
           ("409 Conflict: " ++ c ++ " is paused"), e)
    | _ => (DockerManager.Fine tt, engine_set_status c "exited" e)
    end;
  DockerManager.container_remove := fun c _ e =>
    (DockerManager.Fine tt,
     mkEngine (engine_images e)
       (filter (fun p => negb (String.eqb c (fst p))) (engine_containers e)));
  DockerManager.container_status := fun c e =>
    match engine_status c e with
    | Some s => DockerManager.Fine s
    | None => DockerManager.Fault DockerManager.NotFound
                ("404 No such container: " ++ c)
    end;
  DockerManager.container_short_id := fun c _ => DockerManager.Fine c;
  DockerManager.container_name := fun c _ => DockerManager.Fine (Some c);
  DockerManager.container_networks := fun _ _ =>
    DockerManager.Fine
      (ODict [("none", ODict [("IPAddress", OStr "")]);
              ("bridge", ODict [("IPAddress", OStr "172.17.0.2")])])
}.

(** A daemon with two images and no container, and one where a container
    "web" is running. *)
Definition bare_engine : Engine := mkEngine ["app"; "broken"] [].
Definition busy_engine : Engine := mkEngine ["app"; "broken"] [("web", "running")].

(** A daemon with three containers, of which "web-2" is paused. *)
Definition crowded_engine : Engine :=
  mkEngine ["app"] [("web-1", "running"); ("web-2", "paused"); ("db", "running")].

Definition on_engine (e : Engine) : DockerManager.DState Engine string :=
  DockerManager.mkDState e [].

Definition sample_kwargs : DockerManager.Config :=
  [("remove", OBool true);
   ("environment", ODict [("CHUTES_API_KEY", OStr "xxx")])].

(* ================================================================== *)
(** * Properties of the environment proxy *)

Section ProxyProperties.
Context {St Ref : Type} {D : Dispatch St Ref}.
Implicit Types (w self : EnvironmentWrapper Ref) (ps : PState St Ref).

Lemma getattr_ok self attr f :
  __getattr__ self attr = Ok f ->
  startswith_underscore attr = false /\ _is_ready self = true /\ f = attr.
Proof.
  unfold __getattr__.
  destruct (startswith_underscore attr); [discriminate|].
  destruct (_is_ready self); simpl; [|discriminate].
  intros E; injection E as <-; auto.
Qed.

Lemma getattr_ready self attr :
  startswith_underscore attr = false -> _is_ready self = true ->
  __getattr__ self attr = Ok attr.
Proof. unfold __getattr__; intros -> ->; reflexivity. Qed.

Lemma forward_refused self attr args kw ps :
  startswith_underscore attr = false -> _is_ready self = false ->
  forward self attr args kw ps = (Raise (not_ready_error self), ps).
Proof. unfold forward, __getattr__; intros -> ->; reflexivity. Qed.

Lemma method_caller_journal self attr args kw ps :
  calls (snd (method_caller self attr args kw ps))
  = (calls ps ++ [forwarded_entry self attr args kw])%list.
Proof.
  unfold method_caller, try_except, call_call_method, on_store, journal, raise.
  simpl.
  destruct (b_call_method _ _ _ _ _ _) as [[v|e] st']; reflexivity.
Qed.

Lemma method_caller_outcome self attr args kw ps :
  method_caller self attr args kw ps
  = let (r, st') := b_call_method (vtable (_backend self)) attr args
                      (bound_timeout kw) (bound_kwargs kw) (store ps) in
    (match r with
     | Ok v => Ok v
     | Raise e =>
         Raise (mkExc EnvironmentError
                  ("Method '" ++ attr ++ "' failed on environment '"
                   ++ name self ++ "': " ++ exc_msg e))
     end,
     mkPState st' (calls ps ++ [forwarded_entry self attr args kw])).
Proof.
  unfold method_caller, try_except, call_call_method, on_store, journal, raise.
  simpl.
  destruct (b_call_method _ _ _ _ _ _) as [[v|e] st']; reflexivity.
Qed.

Lemma cleanup_returns self ps : fst (fst (cleanup self ps)) = Ok tt.
Proof.
  unfold cleanup. destruct (call_cleanup _ ps) as [[u|e] ps']; reflexivity.
Qed.

Lemma cleanup_flag self ps :
  _is_ready (snd (fst (cleanup self ps)))
  = match fst (b_cleanup (vtable (_backend self)) (store ps)) with
    | Ok _ => false
    | Raise _ => _is_ready self
    end.
Proof.
  unfold cleanup, call_cleanup, on_store, journal; simpl.
  destruct (b_cleanup _ _) as [[u|e] st']; reflexivity.
Qed.

Lemma cleanup_keeps_identity self ps :
  let w' := snd (fst (cleanup self ps)) in
  _backend w' = _backend self /\ _is_pool w' = _is_pool self
  /\ name w' = name self.
Proof.
  unfold cleanup. destruct (call_cleanup _ ps) as [[u|e] ps']; simpl; auto.
Qed.

Lemma cleanup_journal self ps :
  calls (snd (cleanup self ps)) = (calls ps ++ [(_backend self, CCleanup)])%list.
Proof.
  unfold cleanup, call_cleanup, on_store, journal; simpl.
  destruct (b_cleanup _ _) as [[u|e] st']; reflexivity.
Qed.

(** No operation of the proxy sets the stored flag again once it is
    cleared, and none changes the name. *)
Lemma run_op_cleared o w ps :
  _is_ready w = false ->
  _is_ready (fst (run_op o (w, ps))) = false
  /\ name (fst (run_op o (w, ps))) = name w.
Proof.
  intros Hw. destruct o; simpl; auto.
  pose proof (cleanup_flag w ps) as F.
  pose proof (cleanup_keeps_identity w ps) as (_ & _ & N).
  destruct (cleanup w ps) as [[r w'] ps']; simpl in *.
  split; [|exact N].
  rewrite F. destruct (fst (b_cleanup _ _)); auto.
Qed.

Lemma run_ops_cleared os : forall w ps,
  _is_ready w = false ->
  _is_ready (fst (run_ops os (w, ps))) = false
  /\ name (fst (run_ops os (w, ps))) = name w.
Proof.
  unfold run_ops.
  induction os as [|o os IH]; intros w ps Hw; [simpl; auto|].
  cbn [fold_left].
  destruct (run_op_cleared o w ps Hw) as [F N].
  destruct (run_op o (w, ps)) as [w1 ps1]. cbn [fst] in F, N.
  destruct (IH w1 ps1 F) as [F' N']. split; [exact F'|]. rewrite N'. exact N.
Qed.

(** ** Binding of the reserved keyword *)

Lemma bound_kwargs_no_timeout kw : ~ In "timeout" (map fst (bound_kwargs kw)).
Proof.
  unfold bound_kwargs. intros H.
  apply in_map_iff in H as ((k & v) & Hk & Hin).
  apply filter_In in Hin as [_ Hf].
  unfold is_timeout_kw in Hf; simpl in *. subst k.
  rewrite String.eqb_refl in Hf. discriminate.
Qed.

Lemma bound_kwargs_spec kw p :
  In p (bound_kwargs kw) <-> In p kw /\ fst p <> "timeout".
Proof.
  unfold bound_kwargs. rewrite filter_In. unfold is_timeout_kw.
  destruct (String.eqb_spec (fst p) "timeout") as [E|E]; simpl; split;
    intros [H1 H2]; split; auto; try discriminate; contradiction.
Qed.

Lemma bound_kwargs_id kw :
  existsb is_timeout_kw kw = false -> bound_kwargs kw = kw.
Proof.
  unfold bound_kwargs.
  induction kw as [|p kw IH]; simpl; auto.
  intros H. apply orb_false_iff in H as [-> H]. simpl. f_equal; auto.
Qed.

Lemma bound_timeout_default kw :
  existsb is_timeout_kw kw = false -> bound_timeout kw = VNone.
Proof.
  unfold bound_timeout.
  induction kw as [|p kw IH]; simpl; auto.
  intros H. apply orb_false_iff in H as [-> H]. auto.
Qed.

(** A call that writes [timeout=t] among keywords that are not [timeout]:
    the proxy's parameter receives [t], the other keywords are kept in their
    order. *)
Lemma bound_split pre t post :
  existsb is_timeout_kw pre = false -> existsb is_timeout_kw post = false ->
  bound_timeout (pre ++ ("timeout", t) :: post)%list = t
  /\ bound_kwargs (pre ++ ("timeout", t) :: post)%list = (pre ++ post)%list.
Proof.
  intros Hpre Hpost. split.
  - unfold bound_timeout. induction pre as [|p pre IH]; simpl in *; auto.
    apply orb_false_iff in Hpre as [-> Hpre]. auto.
  - unfold bound_kwargs. rewrite filter_app. simpl.
    fold (bound_kwargs pre). fold (bound_kwargs post).
    rewrite !bound_kwargs_id; auto.
Qed.

End ProxyProperties.

Section ProxyClaims.
Context {St Ref : Type} {D : Dispatch St Ref}.
Implicit Types (w self : EnvironmentWrapper Ref) (ps : PState St Ref).

(** C2, as amended.  A forward request is decided by the stored flag
    [_is_ready] alone: when the flag is set the proxy issues exactly one call
    on the wrapped object, the [call_method], and no [is_ready] probe; when it
    is cleared the request fails with the not-ready error and nothing is
    issued.  The live backend is probed by the proxy's own [is_ready()] only,
    which answers the stored flag and the backend's answer together, and
    probes only when the flag is set. *)
Theorem forward_decided_by_stored_flag self attr args kw ps :
  startswith_underscore attr = false ->
  calls (snd (forward self attr args kw ps))
  = (calls ps ++ (if _is_ready self then [forwarded_entry self attr args kw]
                  else []))%list
  /\ (_is_ready self = false ->
      forward self attr args kw ps = (Raise (not_ready_error self), ps))
  /\ fst (is_ready self ps)
     = (_is_ready self && b_is_ready (vtable (_backend self)) (store ps))%bool
  /\ calls (snd (is_ready self ps))
     = (calls ps ++ (if _is_ready self then [(_backend self, CIsReady)]
                     else []))%list.
Proof.
  intros Hattr. repeat split.
  - destruct (_is_ready self) eqn:R.
    + unfold forward. rewrite (getattr_ready _ _ Hattr R).
      apply method_caller_journal.
    + rewrite (forward_refused _ _ _ _ _ Hattr R). simpl.
      now rewrite app_nil_r.
  - intros R. now apply forward_refused.
  - unfold is_ready. destruct (_is_ready self); reflexivity.
  - unfold is_ready. destruct (_is_ready self); simpl; [reflexivity|].
    now rewrite app_nil_r.
Qed.

(** C3, as amended.  Once [cleanup()] was called on a proxy and the cleanup
    of the wrapped backend completed without raising, then after any further
    operations on the proxy every forward request fails with the not-ready
    [EnvironmentError] and leaves the state as it is, journal included: no
    call is issued on the backend.  A repeated [cleanup()] returns normally
    and leaves the flag cleared. *)
Theorem forward_after_successful_cleanup self ps os attr args kw :
  fst (b_cleanup (vtable (_backend self)) (store ps)) = Ok tt ->
  startswith_underscore attr = false ->
  let after := run_ops os (snd (fst (cleanup self ps)), snd (cleanup self ps)) in
  forward (fst after) attr args kw (snd after)
  = (Raise (not_ready_error self), snd after)
  /\ fst (fst (cleanup (fst after) (snd after))) = Ok tt
  /\ _is_ready (snd (fst (cleanup (fst after) (snd after)))) = false.
Proof.
  intros Hb Hattr after.
  assert (F0 : _is_ready (snd (fst (cleanup self ps))) = false)
    by (rewrite cleanup_flag, Hb; reflexivity).
  destruct (cleanup_keeps_identity self ps) as (_ & _ & N0).
  destruct (run_ops_cleared os _ (snd (cleanup self ps)) F0) as [F N].
  fold after in F, N.
  repeat split.
  - rewrite (forward_refused _ _ _ _ _ Hattr F).
    unfold not_ready_error. now rewrite N, N0.
  - apply cleanup_returns.
  - rewrite cleanup_flag, F.
    destruct (fst (b_cleanup (vtable (_backend (fst after))) (store (snd after))));
      reflexivity.
Qed.

(** C5.  A forwarded call hands the backend's [call_method] the method name,
    the positional arguments as they were given, the value of the keyword
    [timeout] as the dedicated timeout parameter, and as keyword arguments
    exactly the caller's keywords other than [timeout], in their order: the
    one call the closure [method_caller] issues is that call, the backend
    acts on the store from those arguments, and [timeout] is not among the
    keyword arguments.  A forward request that passes the gate is the call
    of that closure. *)
Theorem forward_preserves_arguments self attr args kw ps :
  calls (snd (method_caller self attr args kw ps))
  = (calls ps ++ [(_backend self,
                   CCallMethod attr args (bound_timeout kw) (bound_kwargs kw))])%list
  /\ store (snd (method_caller self attr args kw ps))
     = snd (b_call_method (vtable (_backend self)) attr args
              (bound_timeout kw) (bound_kwargs kw) (store ps))
  /\ (forall f, __getattr__ self attr = Ok f ->
      forward self attr args kw ps = method_caller self attr args kw ps)
  /\ ~ In "timeout" (map fst (bound_kwargs kw))
  /\ (forall p, In p (bound_kwargs kw) <-> In p kw /\ fst p <> "timeout")
  /\ (existsb is_timeout_kw kw = false ->
      bound_kwargs kw = kw /\ bound_timeout kw = VNone)
  /\ (forall pre t post,
        kw = (pre ++ ("timeout", t) :: post)%list ->
        existsb is_timeout_kw pre = false ->
        existsb is_timeout_kw post = false ->
        bound_timeout kw = t /\ bound_kwargs kw = (pre ++ post)%list).
Proof.
  split; [apply method_caller_journal|].
  split.
  { rewrite method_caller_outcome.
    now destruct (b_call_method _ _ _ _ _ _) as [r st']. }
  split.
  { intros f G. apply getattr_ok in G as (Hattr & R & ->).
    unfold forward. now rewrite (getattr_ready _ _ Hattr R). }
  split; [apply bound_kwargs_no_timeout|].
  split; [intros p; apply bound_kwargs_spec|].
  split.
  - intros H. split; [now apply bound_kwargs_id|now apply bound_timeout_default].
  - intros pre t post -> Hpre Hpost. now apply bound_split.
Qed.

(** C6.  When the backend's [call_method] raises during a forwarded call,
    the caller receives an [EnvironmentError] whose message names the method
    and the environment and ends with the message of the cause; the class of
    the cause does not reach the caller.  This holds of the closure
    [method_caller], and so of every forward request that passes the
    gate. *)
Theorem forward_translates_failure self attr args kw ps cause st' :
  b_call_method (vtable (_backend self)) attr args
    (bound_timeout kw) (bound_kwargs kw) (store ps) = (Raise cause, st') ->
  let failure :=
    Raise (mkExc EnvironmentError
             ("Method '" ++ attr ++ "' failed on environment '"
              ++ name self ++ "': " ++ exc_msg cause)) in
  fst (method_caller self attr args kw ps) = failure
  /\ (forall f, __getattr__ self attr = Ok f ->
      fst (forward self attr args kw ps) = failure).
Proof.
  intros Hc failure.
  assert (Hm : fst (method_caller self attr args kw ps) = failure)
    by (rewrite method_caller_outcome, Hc; reflexivity).
  split; [exact Hm|].
  intros f G. apply getattr_ok in G as (Hattr & R & ->).
  unfold forward. now rewrite (getattr_ready _ _ Hattr R).
Qed.

(** C9.  [cleanup()] of the proxy returns normally whatever the cleanup of
    the backend does; it calls that cleanup once; the stored flag is cleared
    when the backend's cleanup returned, and keeps its value when it raised;
    the other attributes of the proxy are unchanged. *)
Theorem cleanup_never_raises self ps :
  fst (fst (cleanup self ps)) = Ok tt
  /\ _is_ready (snd (fst (cleanup self ps)))
     = match fst (b_cleanup (vtable (_backend self)) (store ps)) with
       | Ok _ => false
       | Raise _ => _is_ready self
       end
  /\ calls (snd (cleanup self ps)) = (calls ps ++ [(_backend self, CCleanup)])%list
  /\ store (snd (cleanup self ps))
     = snd (b_cleanup (vtable (_backend self)) (store ps))
  /\ _backend (snd (fst (cleanup self ps))) = _backend self
  /\ _is_pool (snd (fst (cleanup self ps))) = _is_pool self
  /\ name (snd (fst (cleanup self ps))) = name self.
Proof.
  split; [apply cleanup_returns|].
  split; [apply cleanup_flag|].
  split; [apply cleanup_journal|].
  split; [|apply cleanup_keeps_identity].
  unfold cleanup, call_cleanup, on_store, journal; simpl.
  destruct (b_cleanup _ _) as [[u|e] st']; reflexivity.
Qed.

(** C10.  A proxy built over an object that is not an [InstancePool] answers
    [get_stats()] with [None], in any state and without touching it: nothing
    is called on the backend.  Whenever [get_stats()] of a proxy returns
    statistics, the proxy wraps a pool and the statistics are those its
    [get_stats] gave. *)
Theorem get_stats_none_for_single_backend (r : Ref) ps0 :
  b_isinstance_pool (vtable r) = false ->
  (forall ps, get_stats (fst (EnvironmentWrapper_init r ps0)) ps = (Ok None, ps))
  /\ (forall self ps s ps',
        get_stats self ps = (Ok (Some s), ps') ->
        _is_pool self = true
        /\ fst (b_get_stats (vtable (_backend self)) (store ps)) = Ok s
        /\ calls ps' = (calls ps ++ [(_backend self, CGetStats)])%list).
Proof.
  intros Hr. split.
  - intros ps. unfold EnvironmentWrapper_init, get_stats. simpl.
    rewrite Hr. reflexivity.
  - intros self ps s ps'. unfold get_stats.
    destruct (_is_pool self); [|discriminate].
    unfold bind, ret, call_get_stats, on_store, journal. simpl.
    destruct (b_get_stats _ _) as [[s0|e] st']; simpl; [|discriminate].
    intros E. injection E as <- <-. auto.
Qed.

End ProxyClaims.

(* ================================================================== *)
(** * Properties of the deployment orchestrator *)

(** A handler that only re-raises changes nothing. *)
Lemma try_except_reraise {St A} (m : M St A) (st : St) :
  try_except m (fun e => raise e) st = m st.
Proof. unfold try_except, raise. now destruct (m st) as [[a|e] st']. Qed.

Section ApiProperties.
Context {B : Type} {AB : AbstractBackend B} {BC : BackendClasses B}
        {PP : PoolPolicy}.
Implicit Types (w : World B) (ps : Proc (B := B)).

(** ** Tasks and [gather] *)

Lemma gather_all_raise {St A} (tasks : list (M St A)) (e : Exc) (st : St) :
  tasks <> [] ->
  (forall t, In t tasks -> t st = (Raise e, st)) ->
  gather tasks st = (Raise e, st).
Proof.
  unfold gather. intros Hne Hall.
  assert (R : forall l : list (M St A),
            (forall t, In t l -> t st = (Raise e, st)) ->
            run_tasks l st = (map (fun _ => Raise e) l, st)).
  { induction l as [|t l IH]; intros H; simpl; auto.
    rewrite (H t (or_introl eq_refl)).
    rewrite IH by (intros t' Ht'; apply H; now right). reflexivity. }
  rewrite (R tasks Hall).
  destruct tasks as [|t l]; [contradiction|]. reflexivity.
Qed.

Lemma first_remote_host_none hosts :
  first_remote_host hosts = None -> forall h, In h hosts -> h = "localhost".
Proof.
  unfold first_remote_host. intros H h Hin.
  pose proof (find_none _ _ H h Hin) as N. simpl in N.
  apply negb_false_iff in N. now apply String.eqb_eq.
Qed.

(** [hosts[i]] exists for every index of the comprehension when there are
    enough hosts. *)
Lemma index_hosts_enough hosts : forall indices,
  (forall i, In i indices -> i < List.length hosts) ->
  exists assigned,
    index_hosts hosts indices = Ok assigned
    /\ map fst assigned = indices
    /\ (forall ih, In ih assigned -> In (snd ih) hosts).
Proof.
  induction indices as [|i rest IH]; intros H; simpl.
  - exists []. simpl; intuition.
  - destruct (nth_error hosts i) as [h|] eqn:E.
    + destruct IH as (l & -> & Hm & Hin); [intros j Hj; apply H; now right|].
      exists ((i, h) :: l). simpl. rewrite Hm. repeat split; auto.
      intros ih [<-|Hl]; simpl; eauto using nth_error_In.
    + apply nth_error_None in E. specialize (H i (or_introl eq_refl)). lia.
Qed.

Lemma index_hosts_fst hosts : forall indices assigned,
  index_hosts hosts indices = Ok assigned -> map fst assigned = indices.
Proof.
  induction indices as [|i rest IH]; simpl; intros assigned H.
  - injection H as <-. reflexivity.
  - destruct (nth_error hosts i); [|discriminate].
    destruct (index_hosts hosts rest); [|discriminate].
    injection H as <-. simpl. f_equal. now apply IH.
Qed.

(** ** Rejection of the mode by [_deploy_instance] *)

Lemma deploy_instance_rejects_mode image mode p i cn ev et fr bk w :
  String.eqb mode "local" = false ->
  _deploy_instance image mode "localhost" p i cn ev et fr bk w
  = (Raise (mode_unsupported mode), w).
Proof. unfold _deploy_instance. simpl. intros ->. reflexivity. Qed.

Lemma deploy_all_rejects_mode image mode replicas hosts base_port cn ev et fr bk w :
  (2 <= replicas)%Z ->
  Z.to_nat replicas <= List.length hosts ->
  first_remote_host hosts = None ->
  String.eqb mode "local" = false ->
  deploy_all image mode replicas hosts base_port cn ev et fr bk w
  = (Raise (mode_unsupported mode), w).
Proof.
  intros Hr Hlen Hloc Hmode. unfold deploy_all.
  destruct (index_hosts_enough hosts (seq 0 (Z.to_nat replicas)))
    as (assigned & -> & Hfst & Hin).
  { intros i Hi. apply in_seq in Hi. lia. }
  apply gather_all_raise.
  - destruct assigned; [|discriminate].
    simpl in Hfst. destruct (Z.to_nat replicas) eqn:E; [lia|discriminate].
  - intros t Ht. apply in_map_iff in Ht as (ih & <- & Hih).
    rewrite (first_remote_host_none _ Hloc _ (Hin ih Hih)).
    now apply deploy_instance_rejects_mode.
Qed.

Lemma target_hosts_length hosts replicas :
  (truthy_hosts hosts && (len_hosts hosts <? replicas)%Z)%bool = false ->
  Z.to_nat replicas <= List.length (target_hosts hosts replicas).
Proof.
  unfold target_hosts, truthy_hosts, len_hosts.
  destruct hosts as [[|h t]|]; simpl; intros H;
    try (rewrite repeat_length; lia).
  apply Z.ltb_ge in H. simpl in H. lia.
Qed.

(** ** The failure path of [_load_multi_instance] *)

(** A loop that is not the running one runs the coroutine. *)
Lemma run_until_complete_runs {St A} loop (m : M St A) :
  loop <> LoopRunning -> run_until_complete (loop_obtained loop) m = m.
Proof. destruct loop; intros H; [reflexivity|reflexivity|contradiction]. Qed.

(** When [deploy_all] raises, the handler finds [instances] empty: the
    outcome is the aggregated [BackendError], and the state is the one
    [deploy_all] left, with nothing added to the journal. *)
Lemma multi_instance_failed_construction loop
    image mode replicas hosts lb base_port cn ev et fr bk ps e w1 :
  loop <> LoopRunning ->
  first_remote_host (target_hosts hosts replicas) = None ->
  deploy_all image mode replicas (target_hosts hosts replicas) base_port
    cn ev et fr bk (store ps) = (Raise e, w1) ->
  _load_multi_instance loop image mode replicas hosts lb base_port cn ev et fr bk ps
  = (Raise (mkExc BackendError ("Multi-instance deployment failed: " ++ exc_msg e)),
     mkPState w1 (calls ps)).
Proof.
  intros Hl Hloc Hd. unfold _load_multi_instance. rewrite Hloc.
  rewrite (run_until_complete_runs _ _ Hl).
  unfold lift, on_store. rewrite Hd. reflexivity.
Qed.

(** Called from inside the running loop, [run_until_complete] refuses: the
    handler finds [instances] empty, nothing was constructed, and the state
    is as it was. *)
Lemma multi_instance_running_loop
    image mode replicas hosts lb base_port cn ev et fr bk ps :
  first_remote_host (target_hosts hosts replicas) = None ->
  _load_multi_instance LoopRunning image mode replicas hosts lb base_port
    cn ev et fr bk ps
  = (Raise (mkExc BackendError
              "Multi-instance deployment failed: This event loop is already running"),
     ps).
Proof. intros Hloc. unfold _load_multi_instance. rewrite Hloc. reflexivity. Qed.

End ApiProperties.

Section DeploymentSuccess.
Context {B : Type} {AB : AbstractBackend B} {BC : BackendClasses B}
        {PP : PoolPolicy}.
Implicit Types (w : World B) (ps : Proc (B := B)).

Lemma all_or_first_exception_ok {A} (rs : list (result A)) (l : list A) :
  all_or_first_exception rs = Ok l -> rs = map Ok l.
Proof.
  revert l. induction rs as [|[a|e] rs IH]; simpl; intros l H.
  - injection H as <-. reflexivity.
  - destruct (all_or_first_exception rs) as [l'|]; [|discriminate].
    injection H as <-. simpl. f_equal. now apply IH.
  - discriminate.
Qed.

(** What a successful [_deploy_instance] did: it built one local backend on
    the port it was given, appended it to the heap, and returned a healthy
    record for the local host bound to that port and that backend. *)
Lemma deploy_instance_ok image mode h p i cn ev et fr bk w inst w' :
  _deploy_instance image mode h p i cn ev et fr bk w = (Ok inst, w') ->
  host inst = "localhost" /\ port inst = p /\ healthy inst = true
  /\ backend inst = List.length (heap w)
  /\ List.length (heap w') = Datatypes.S (List.length (heap w))
  /\ pools w' = pools w
  /\ exists a, constructions w' = (constructions w ++ [NewLocalBackend a])%list
               /\ la_http_port a = p /\ la_image a = image.
Proof.
  unfold _deploy_instance.
  destruct (String.eqb_spec h "localhost") as [->|]; simpl; [|discriminate].
  destruct (String.eqb mode "local"); [|discriminate].
  unfold bind, new_LocalBackend, construct, time_time, ret.
  destruct (LocalBackend _ (heap w)) as [s|e]; [|discriminate].
  intros E. injection E as <- <-. simpl.
  rewrite length_app. simpl. repeat split; try lia.
  eexists. split; [reflexivity|]. auto.
Qed.

(** The instances [deploy_all] returns, for the assignment it computed:
    instance number [i] of the comprehension is bound to [base_port + i] and
    to the local host, through a constructor call on that port, and each to a
    backend of its own. *)
Lemma deployed_assignment image mode base_port cn ev et fr bk :
  forall (assigned : list (nat * string)) w rs w' insts,
    run_tasks
      (map (fun ih : nat * string =>
              _deploy_instance image mode (snd ih)
                (base_port + Z.of_nat (fst ih)) (fst ih) cn ev et fr bk)
           assigned) w = (rs, w') ->
    all_or_first_exception rs = Ok insts ->
    map port insts = map (fun ih => (base_port + Z.of_nat (fst ih))%Z) assigned
    /\ (forall inst, In inst insts -> host inst = "localhost" /\ healthy inst = true)
    /\ map backend insts = seq (List.length (heap w)) (List.length assigned)
    /\ pools w' = pools w
    /\ exists args,
         constructions w' = (constructions w ++ map NewLocalBackend args)%list
         /\ map la_http_port args
            = map (fun ih => (base_port + Z.of_nat (fst ih))%Z) assigned.
Proof.
  induction assigned as [|ih assigned IH]; intros w rs w' insts Hrun Hall.
  - simpl in Hrun. injection Hrun as <- <-. simpl in Hall.
    injection Hall as <-. simpl. repeat split; auto; try contradiction.
    exists []. simpl. now rewrite app_nil_r.
  - simpl in Hrun.
    destruct (_deploy_instance _ _ _ _ _ _ _ _ _ _ w) as [r w1] eqn:E1.
    destruct (run_tasks _ w1) as [rs' w2] eqn:E2.
    injection Hrun as <- <-.
    simpl in Hall. destruct r as [inst|e]; [|discriminate].
    destruct (all_or_first_exception rs') as [insts'|] eqn:E3; [|discriminate].
    injection Hall as <-.
    apply deploy_instance_ok in E1
      as (Hh & Hp & Hhl & Hb & Hlen & Hpools & a & Hc & Hap & _).
    destruct (IH w1 rs' w2 insts' E2 E3)
      as (IHp & IHh & IHb & IHpools & args & IHc & IHa).
    simpl. rewrite Hp, IHp, Hb, IHb, Hlen, IHpools, Hpools.
    repeat split; auto.
    + destruct H as [<-|H]; auto. now apply IHh.
    + destruct H as [<-|H]; auto. now apply IHh.
    + exists (a :: args). simpl. rewrite IHc, Hc, <- app_assoc, Hap, IHa.
      split; reflexivity.
Qed.

(** A successful multi-instance [load_env], taken apart. *)
Lemma load_env_multi_ok loop
    image mode replicas hosts lb base_port cn ev et fr bk ps wrapper ps' :
  (2 <= replicas)%Z ->
  load_env loop image mode replicas hosts lb base_port cn ev et fr bk ps
  = (Ok wrapper, ps') ->
  exists insts w1,
    deploy_all image mode replicas (target_hosts hosts replicas) base_port
      cn ev et fr bk (store ps) = (Ok insts, w1)
    /\ Z.to_nat replicas <= List.length (target_hosts hosts replicas)
    /\ _backend wrapper = RefPool (List.length (pools w1))
    /\ _is_pool wrapper = true
    /\ pools (store ps')
       = (pools w1 ++ [mkPool (name_pool insts) insts lb 0 true])%list
    /\ heap (store ps') = heap w1
    /\ constructions (store ps') = constructions w1.
Proof.
  intros Hr. unfold load_env, try_except.
  destruct (Z.ltb_spec replicas 1) as [|_]; [lia|].
  destruct (truthy_hosts hosts && (len_hosts hosts <? replicas)%Z)%bool eqn:Hh;
    [discriminate|].
  destruct (Z.eqb_spec replicas 1) as [|_]; [lia|].
  unfold _load_multi_instance.
  destruct (first_remote_host _); [discriminate|].
  destruct loop; cbn [loop_obtained run_until_complete]; [| |discriminate].
  all: unfold lift at 1, on_store at 1.
  all: destruct (deploy_all _ _ _ _ _ _ _ _ _ _ (store ps))
         as [[insts|e] w1] eqn:Hd; [|discriminate].
  all: unfold try_except, bind, lift, on_store, new_InstancePool; simpl.
  all: destruct insts as [|i0 insts]; [discriminate|]; simpl.
  all: destruct (constructor_raises (i0 :: insts) lb); [discriminate|]; simpl.
  all: unfold ret; intros E; injection E as <- <-; simpl.
  all: exists (i0 :: insts), w1; repeat split; auto.
  all: now apply target_hosts_length.
Qed.

End DeploymentSuccess.

Section ApiClaims.
Context {B : Type} {AB : AbstractBackend B} {BC : BackendClasses B}
        {PP : PoolPolicy}.
Implicit Types (w : World B) (ps : Proc (B := B)).


(** C7.  A multi-instance [load_env] that succeeds returns a proxy over a
    pool whose instances, in order, are bound to the ports [base_port],
    [base_port + 1], ... one per replica, and all to the local host; the
    backend of instance [i] was constructed on port [base_port + i]. *)
Theorem instances_get_consecutive_ports loop
    image mode replicas hosts lb base_port cn ev et fr bk ps wrapper ps' :
  (2 <= replicas)%Z ->
  load_env loop image mode replicas hosts lb base_port cn ev et fr bk ps
  = (Ok wrapper, ps') ->
  exists pid pool args,
    _backend wrapper = RefPool pid
    /\ nth_error (pools (store ps')) pid = Some pool
    /\ map port (instances pool)
       = map (fun i => (base_port + Z.of_nat i)%Z) (seq 0 (Z.to_nat replicas))
    /\ (forall inst, In inst (instances pool) -> host inst = "localhost")
    /\ constructions (store ps')
       = (constructions (store ps) ++ map NewLocalBackend args)%list
    /\ map la_http_port args
       = map (fun i => (base_port + Z.of_nat i)%Z) (seq 0 (Z.to_nat replicas)).
Proof.
  intros Hr Hload.
  destruct (load_env_multi_ok _ _ _ _ _ _ _ _ _ _ _ _ _ _ _ Hr Hload)
    as (insts & w1 & Hd & _ & Hb & _ & Hpools & _ & Hc).
  unfold deploy_all in Hd.
  destruct (index_hosts _ _) as [assigned|e] eqn:Hi; [|discriminate].
  apply index_hosts_fst in Hi.
  unfold gather in Hd.
  destruct (run_tasks _ (store ps)) as [rs w2] eqn:Hrun.
  injection Hd as Hall <-.
  destruct (deployed_assignment _ _ _ _ _ _ _ _ _ _ _ _ _ Hrun Hall)
    as (Hp & Hh & _ & _ & args & Hcons & Ha).
  assert (Hmap : map (fun ih : nat * string => (base_port + Z.of_nat (fst ih))%Z)
                     assigned
                 = map (fun i => (base_port + Z.of_nat i)%Z)
                       (seq 0 (Z.to_nat replicas))).
  { rewrite <- Hi, map_map. reflexivity. }
  exists (List.length (pools w2)), (mkPool (name_pool insts) insts lb 0 true), args.
  split; [exact Hb|].
  split; [rewrite Hpools, nth_error_app2, Nat.sub_diag by lia; reflexivity|].
  simpl. split; [now rewrite Hp|].
  split; [intros inst Hin; now apply Hh|].
  split; [now rewrite Hc|]. now rewrite Ha.
Qed.

End ApiClaims.

(** C1, on the test double.  Two replicas from port 9000, loaded from
    synchronous code: the backend of instance 0 is constructed, the
    construction of instance 1 fails.
    [load_env] raises the aggregated [BackendError]; no [cleanup] was
    called, and the backend of instance 0 is still in the heap and still
    reports ready. *)
Theorem failed_deployment_leaves_backend_running :
  let outcome :=
    load_env LoopIdle "x" "local" 2 None "random" 9000 None None None false [] fresh in
  fst outcome
  = Raise (mkExc BackendError
             "Multi-instance deployment failed: port is already allocated")
  /\ calls (snd outcome) = []
  /\ heap (store (snd outcome)) = [mkMock "x-0" true false false]
  /\ leaf_ready_at 0 (store (snd outcome)) = true
  /\ registry (store (snd outcome)) = [].
Proof. cbv zeta. repeat split; reflexivity. Qed.

(* ================================================================== *)
(** * One replica and a pool of one *)

Section SingletonPool.
Context {B : Type} {AB : AbstractBackend B} {BC : BackendClasses B}
        {PP : PoolPolicy}.
Implicit Types (w st : World B) (ps : Proc (B := B)).

(** A successful single-replica [load_env], taken apart: the proxy wraps the
    backend just constructed, directly. *)
Lemma load_env_single_ok loop
    image mode hosts lb base_port cn ev et fr bk ps wrapper ps' :
  load_env loop image mode 1 hosts lb base_port cn ev et fr bk ps = (Ok wrapper, ps') ->
  exists s,
    heap (store ps') = (heap (store ps) ++ [s])%list
    /\ pools (store ps') = pools (store ps)
    /\ wrapper = mkWrapper (RefBackend (List.length (heap (store ps)))) false
                           (leaf_name s) (leaf_is_ready s).
Proof.
  unfold load_env. rewrite try_except_reraise. simpl.
  destruct (truthy_hosts hosts && (len_hosts hosts <? 1)%Z)%bool; [discriminate|].
  unfold _load_single_instance.
  destruct (negb _); [discriminate|].
  assert (K : forall (c : Construction) (o : result B),
            (id <- lift (fun w => construct c o w) ;;
             (fun ps0 =>
                let (wr, ps1) := EnvironmentWrapper_init (RefBackend id) ps0 in
                (lift (registry_register (leaf_name_at id (store ps1)) wr) ;;;
                 ret wr)%py ps1))%py ps = (Ok wrapper, ps') ->
            exists s,
              heap (store ps') = (heap (store ps) ++ [s])%list
              /\ pools (store ps') = pools (store ps)
              /\ wrapper = mkWrapper (RefBackend (List.length (heap (store ps))))
                                     false (leaf_name s) (leaf_is_ready s)).
  { intros c o. unfold bind, lift, on_store, construct. simpl.
    destruct o as [s|e]; [|discriminate]. simpl.
    unfold EnvironmentWrapper_init, call_is_ready, journal, registry_register, ret.
    simpl. unfold leaf_name_at, leaf_ready_at. simpl.
    rewrite nth_error_app2, Nat.sub_diag by lia. simpl.
    intros E. injection E as <- <-. simpl. exists s. auto. }
  destruct (String.eqb mode "local").
  - unfold new_LocalBackend. intros E.
    eapply (K _ (LocalBackend _ (heap (store ps)))).
    unfold bind, lift, on_store in *. exact E.
  - destruct (String.eqb mode "remote"); [|discriminate].
    unfold new_RemoteBackend. intros E.
    eapply (K _ (RemoteBackend _ _ (heap (store ps)))).
    unfold bind, lift, on_store in *. exact E.
Qed.

Lemma on_leaf_at {A} (m : M B A) b s st :
  nth_error (heap st) b = Some s ->
  on_leaf b m st = (fst (m s), with_heap (set_nth b (snd (m s)) (heap st)) st).
Proof. unfold on_leaf. intros ->. now destruct (m s). Qed.

(** Selection in a pool of one healthy instance whose backend reports ready:
    that instance, under either strategy. *)
Lemma select_singleton pool inst s st :
  instances pool = [inst] -> healthy inst = true ->
  nth_error (heap st) (backend inst) = Some s -> leaf_is_ready s = true ->
  pool_strategy pool = "random" \/ pool_strategy pool = "round_robin" ->
  exists c st1,
    select_instance pool st = (Ok (inst, c), st1)
    /\ heap st1 = heap st /\ pools st1 = pools st.
Proof.
  intros Hi Hh Hs Hr Hstrat. unfold select_instance. rewrite Hi.
  assert (Hsel : selectable st inst = true)
    by (unfold selectable, leaf_ready_at; now rewrite Hh, Hs, Hr).
  cbn [filter]. rewrite Hsel. cbn [List.length]. rewrite !Nat.mod_1_r.
  destruct Hstrat as [-> | ->]; simpl; eauto.
Qed.

End SingletonPool.

Section SingletonPoolClaim.
Context {B : Type} {AB : AbstractBackend B} {BC : BackendClasses B}
        {PP : PoolPolicy}.
Implicit Types (w st : World B) (ps : Proc (B := B)).

(** C8, as amended.  Take the proxy a single-replica [load_env] returned,
    which found its backend ready, and a proxy built over a pool of one
    healthy instance bound to the same backend, under either strategy.  In
    any state in which that backend reports ready:
    - [is_ready()] is true on both;
    - a forwarded call gives the caller the same result on both when the
      backend's call returns, an [EnvironmentError] carrying the same cause
      on both when it raises, and leaves the backend in the same state;
    - [cleanup()] returns normally on both and leaves the backend in the
      same state, and when the backend's cleanup returned both proxies end
      with their flag cleared. *)
Theorem single_replica_agrees_with_singleton_pool loop
    image mode hosts lb base_port cn ev et fr bk ps0 wA ps1
    st jrnl s pid pool inst :
  load_env loop image mode 1 hosts lb base_port cn ev et fr bk ps0 = (Ok wA, ps1) ->
  _is_ready wA = true ->
  nth_error (heap st) (List.length (heap (store ps0))) = Some s ->
  leaf_is_ready s = true ->
  nth_error (pools st) pid = Some pool ->
  instances pool = [inst] ->
  backend inst = List.length (heap (store ps0)) ->
  healthy inst = true ->
  pool_ready pool = true ->
  pool_strategy pool = "random" \/ pool_strategy pool = "round_robin" ->
  let b := List.length (heap (store ps0)) in
  let ps := mkPState st jrnl in
  let wB := fst (EnvironmentWrapper_init (RefPool pid) ps) in
  (fst (is_ready wA ps) = true /\ fst (is_ready wB ps) = true)
  /\ (forall attr args kw,
        startswith_underscore attr = false ->
        let r := leaf_call_method attr args (bound_timeout kw) (bound_kwargs kw) s in
        fst (forward wA attr args kw ps) = translated (name wA) attr (fst r)
        /\ fst (forward wB attr args kw ps) = translated (name wB) attr (fst r)
        /\ heap (store (snd (forward wA attr args kw ps)))
           = set_nth b (snd r) (heap st)
        /\ heap (store (snd (forward wB attr args kw ps)))
           = set_nth b (snd r) (heap st))
  /\ (fst (fst (cleanup wA ps)) = Ok tt
      /\ fst (fst (cleanup wB ps)) = Ok tt
      /\ heap (store (snd (cleanup wA ps)))
         = set_nth b (snd (leaf_cleanup s)) (heap st)
      /\ heap (store (snd (cleanup wB ps)))
         = set_nth b (snd (leaf_cleanup s)) (heap st)
      /\ (fst (leaf_cleanup s) = Ok tt ->
          _is_ready (snd (fst (cleanup wA ps))) = false
          /\ _is_ready (snd (fst (cleanup wB ps))) = false)).
Proof.
  intros Hload HrA Hs Hr Hp Hi Hb Hh Hpr Hstrat b ps wB.
  apply load_env_single_ok in Hload as (s0 & _ & _ & HwA).
  fold b in HwA, Hs, Hb.
  assert (HbA : _backend wA = RefBackend b) by (now rewrite HwA).
  assert (HwB : wB = mkWrapper (RefPool pid) true (pool_name pool) true).
  { unfold wB, EnvironmentWrapper_init, call_is_ready. simpl.
    now rewrite Hp, Hpr. }
  assert (HrB : _is_ready wB = true) by (now rewrite HwB).
  assert (HbB : _backend wB = RefPool pid) by (now rewrite HwB).
  rewrite <- Hb in Hs.
  split; [|split].
  - unfold is_ready, call_is_ready. rewrite HrA, HrB, HbA, HbB. simpl.
    unfold leaf_ready_at. rewrite <- Hb, Hs, Hp. auto.
  - intros attr args kw Hattr r.
    unfold forward.
    rewrite (getattr_ready _ _ Hattr HrA), (getattr_ready _ _ Hattr HrB).
    rewrite !method_caller_outcome, HbA, HbB. simpl.
    rewrite <- Hb, (on_leaf_at _ _ _ _ Hs). fold r.
    unfold pool_call_method. rewrite Hp.
    destruct (select_singleton pool inst s st Hi Hh Hs Hr Hstrat)
      as (c & st1 & -> & Hheap & _).
    rewrite (on_leaf_at _ _ s).
    2:{ simpl. now rewrite Hheap. }
    fold r. simpl. rewrite Hheap.
    destruct r as [[v|e] s']; simpl; auto.
  - assert (CA : cleanup wA ps
                 = (Ok tt,
                    match fst (leaf_cleanup s) with
                    | Ok _ => mkWrapper (_backend wA) (_is_pool wA) (name wA) false
                    | Raise _ => wA
                    end,
                    mkPState (with_heap (set_nth b (snd (leaf_cleanup s)) (heap st)) st)
                             (jrnl ++ [(RefBackend b, CCleanup)]))).
    { unfold cleanup, call_cleanup, on_store, journal. rewrite HbA. simpl.
      rewrite <- Hb, (on_leaf_at _ _ _ _ Hs).
      destruct (leaf_cleanup s) as [[u|e] s']; reflexivity. }
    assert (CB : exists wB' st',
               cleanup wB ps = (Ok tt, wB', mkPState st' (jrnl ++ [(RefPool pid, CCleanup)]))
               /\ heap st' = set_nth b (snd (leaf_cleanup s)) (heap st)
               /\ (fst (leaf_cleanup s) = Ok tt -> _is_ready wB' = false)).
    { unfold cleanup, call_cleanup, on_store, journal. rewrite HbB. simpl.
      unfold pool_cleanup. rewrite Hp, Hi. simpl.
      rewrite (on_leaf_at _ _ _ _ Hs). rewrite <- Hb.
      destruct (leaf_cleanup s) as [[u|e] s']; simpl.
      - do 2 eexists. split; [reflexivity|]. simpl. auto.
      - destruct (report_partial_cleanup [e]); do 2 eexists;
          (split; [reflexivity|]); simpl; split; auto; discriminate. }
    destruct CB as (wB' & st' & CB & HheapB & HflagB).
    rewrite CA, CB. simpl.
    split; [reflexivity|]. split; [reflexivity|].
    split; [reflexivity|]. split; [exact HheapB|].
    intros Hok. rewrite Hok. split; [reflexivity|now apply HflagB].
Qed.

End SingletonPoolClaim.

(* ================================================================== *)
(** * The properties on the test double *)

(** C2, counterexample.  The proxy was built while its backend reported
    ready.  The backend no longer does; a forward request is nevertheless
    passed to the backend, and the only call issued on the backend is the
    [call_method]: its [is_ready] was not invoked. *)
Lemma forward_ignores_live_readiness :
  _is_ready ready_proxy = true
  /\ b_is_ready (vtable (_backend ready_proxy)) (store stale) = false
  /\ forward ready_proxy "evaluate" [VInt 1] [] stale
     = (Ok (VStr "evaluate"),
        mkPState (store stale)
          [(RefBackend 0, CCallMethod "evaluate" [VInt 1] VNone [])]).
Proof. repeat split; reflexivity. Qed.

(** C2, the amended statement at a ready proxy and at a cleared one. *)
Lemma forward_decided_by_stored_flag_witness :
  calls (snd (forward ready_proxy "evaluate" [VInt 1] [] stale))
  = [(RefBackend 0, CCallMethod "evaluate" [VInt 1] VNone [])]
  /\ forward cleared_proxy "evaluate" [VInt 1] [] stale
     = (Raise (not_ready_error cleared_proxy), stale)
  /\ fst (is_ready ready_proxy stale) = false.
Proof.
  split; [|split].
  - exact (proj1 (forward_decided_by_stored_flag ready_proxy "evaluate"
                    [VInt 1] [] stale eq_refl)).
  - exact (proj1 (proj2 (forward_decided_by_stored_flag cleared_proxy "evaluate"
                           [VInt 1] [] stale eq_refl)) eq_refl).
  - exact (proj1 (proj2 (proj2 (forward_decided_by_stored_flag ready_proxy
                                  "evaluate" [VInt 1] [] stale eq_refl)))).
Defined.

(** C3, counterexample.  [cleanup()] is called on a proxy whose backend's
    cleanup raises: the call returns normally, the flag stays set, and the
    next forward request is passed to the backend. *)
Lemma forward_after_failed_cleanup_reaches_backend :
  let w := fst (EnvironmentWrapper_init (RefBackend 0) stubborn) in
  let after := cleanup w stubborn in
  fst (fst after) = Ok tt
  /\ _is_ready (snd (fst after)) = true
  /\ fst (forward (snd (fst after)) "evaluate" [] [] (snd after))
     = Ok (VStr "evaluate")
  /\ calls (snd (forward (snd (fst after)) "evaluate" [] [] (snd after)))
     = [(RefBackend 0, CCleanup);
        (RefBackend 0, CCallMethod "evaluate" [] VNone [])].
Proof. cbv zeta. repeat split; reflexivity. Qed.

(** A closure obtained before [cleanup()] and called after it is not gated
    any more: the call reaches the backend although the cleanup succeeded
    and the flag is cleared.  The statements about forward requests are
    about an access made when the request is made. *)
Lemma stored_closure_outlives_cleanup :
  let ps := one_backend (mkMock "env" true false false) in
  let after := cleanup ready_proxy ps in
  __getattr__ ready_proxy "evaluate" = Ok "evaluate"
  /\ _is_ready (snd (fst after)) = false
  /\ calls (snd (method_caller (snd (fst after)) "evaluate" [] [] (snd after)))
     = [(RefBackend 0, CCleanup);
        (RefBackend 0, CCallMethod "evaluate" [] VNone [])].
Proof. cbv zeta. repeat split; reflexivity. Qed.

(** C3, the amended statement on a backend whose cleanup returns, with a
    readiness probe and a second cleanup between the cleanup and the forward
    request. *)
Lemma forward_after_successful_cleanup_witness :
  let ps := one_backend (mkMock "env" true false false) in
  let after := run_ops [OpIsReady; OpCleanup]
                 (snd (fst (cleanup ready_proxy ps)), snd (cleanup ready_proxy ps)) in
  forward (fst after) "evaluate" [] [] (snd after)
  = (Raise (not_ready_error ready_proxy), snd after)
  /\ fst (fst (cleanup (fst after) (snd after))) = Ok tt
  /\ _is_ready (snd (fst (cleanup (fst after) (snd after)))) = false.
Proof.
  exact (forward_after_successful_cleanup ready_proxy
           (one_backend (mkMock "env" true false false))
           [OpIsReady; OpCleanup] "evaluate" [] [] eq_refl eq_refl).
Defined.

(** C5 on a call that mixes positional arguments, business keywords and the
    reserved keyword. *)
Lemma forward_preserves_arguments_witness :
  let kw := [("task_type", VStr "sat"); ("timeout", VInt 30);
             ("num_samples", VInt 5)] in
  calls (snd (forward ready_proxy "evaluate" [VInt 1; VStr "a"] kw stale))
  = [(RefBackend 0,
      CCallMethod "evaluate" [VInt 1; VStr "a"] (VInt 30)
        [("task_type", VStr "sat"); ("num_samples", VInt 5)])]
  /\ ~ In "timeout" (map fst (bound_kwargs kw)).
Proof.
  cbv zeta.
  pose proof (forward_preserves_arguments ready_proxy "evaluate"
                [VInt 1; VStr "a"]
                [("task_type", VStr "sat"); ("timeout", VInt 30);
                 ("num_samples", VInt 5)] stale)
    as (Hj & _ & Hf & Hn & _).
  split; [|exact Hn].
  rewrite (Hf "evaluate" eq_refl). exact Hj.
Defined.

(** C6 on a backend whose call raises [RayExecutionError]. *)
Lemma forward_translates_failure_witness :
  fst (forward ready_proxy "evaluate" [] [] failing)
  = Raise (mkExc EnvironmentError
             "Method 'evaluate' failed on environment 'env': actor died").
Proof.
  exact (proj2 (forward_translates_failure ready_proxy "evaluate" [] [] failing
                  (mkExc RayExecutionError "actor died") _ eq_refl)
               "evaluate" eq_refl).
Defined.

(** C10 on the proxy of a single backend, and on the pool proxy, whose
    statistics come from the pool. *)
Lemma get_stats_none_for_single_backend_witness :
  get_stats ready_proxy stale = (Ok None, stale)
  /\ _is_pool pool_proxy = true.
Proof.
  pose proof (get_stats_none_for_single_backend (RefBackend 0)
                (one_backend (mkMock "env" true false false)) eq_refl)
    as [H1 H2].
  split; [exact (H1 stale)|].
  exact (proj1 (H2 pool_proxy stale (mkStats 1 1 "round_robin") _ eq_refl)).
Defined.



(** C7, the scenario of the design document: three replicas from port
    8000, every construction succeeding. *)
Lemma three_replicas_from_port_8000 :
  let outcome :=
    load_env LoopIdle "x" "local" 3 None "random" 8000 None None None false [] fresh in
  fst outcome = Ok (mkWrapper (RefPool 0) true "pool" true)
  /\ exists pool,
       nth_error (pools (store (snd outcome))) 0 = Some pool
       /\ map port (instances pool) = [8000; 8001; 8002]%Z
       /\ (forall inst, In inst (instances pool) -> host inst = "localhost").
Proof.
  cbv zeta.
  assert (H : load_env LoopIdle "x" "local" 3 None "random" 8000 None None None false []
                fresh
              = (Ok (mkWrapper (RefPool 0) true "pool" true),
                 snd (load_env LoopIdle "x" "local" 3 None "random" 8000 None None None
                        false [] fresh)))
    by reflexivity.
  assert (H2 : (2 <= 3)%Z) by discriminate.
  destruct (instances_get_consecutive_ports
              _ _ _ _ _ _ _ _ _ _ _ _ _ _ _ H2 H)
    as (pid & pool & args & Hb & Hp & Hports & Hhosts & _).
  split; [reflexivity|].
  injection Hb as <-.
  exists pool. split; [exact Hp|]. split; [exact Hports|exact Hhosts].
Defined.

(** C8, counterexample.  Both proxies were built while the backend reported
    ready.  The backend then stops reporting ready but still answers: the
    call forwarded by the proxy of the single backend returns the backend's
    result, the same call forwarded by the proxy of the pool of one fails,
    no instance being selectable. *)
Lemma singleton_pool_refuses_where_single_forwards :
  _is_ready ready_proxy = true /\ _is_ready pool_proxy = true
  /\ fst (forward ready_proxy "evaluate" [] [] stale) = Ok (VStr "evaluate")
  /\ fst (forward pool_proxy "evaluate" [] [] stale)
     = Raise (mkExc EnvironmentError
                "Method 'evaluate' failed on environment 'pool': no healthy instances").
Proof. repeat split; reflexivity. Qed.

(** C8, the amended statement on the proxy [load_env] returns for one
    replica and a pool of one over the backend it constructed. *)
Lemma single_replica_agrees_with_singleton_pool_witness :
  let loaded :=
    snd (load_env LoopIdle "env" "local" 1 None "random" 8000 None None None false []
           fresh) in
  let st :=
    with_pools [mkPool "pool" [mkInstanceInfo "localhost" 8000 0 true 0]
                  "round_robin" 0 true]
               (store loaded) in
  let ps := mkPState st (calls loaded) in
  exists wA,
    fst (load_env LoopIdle "env" "local" 1 None "random" 8000 None None None false []
           fresh) = Ok wA
    /\ let wB := fst (EnvironmentWrapper_init (RefPool 0) ps) in
       fst (is_ready wA ps) = true /\ fst (is_ready wB ps) = true
       /\ fst (forward wA "evaluate" [] [] ps) = Ok (VStr "evaluate")
       /\ fst (forward wB "evaluate" [] [] ps) = Ok (VStr "evaluate")
       /\ fst (fst (cleanup wA ps)) = Ok tt
       /\ fst (fst (cleanup wB ps)) = Ok tt
       /\ heap (store (snd (cleanup wA ps))) = heap (store (snd (cleanup wB ps))).
Proof.
  cbv zeta. eexists. split; [reflexivity|].
  set (loaded := snd (load_env LoopIdle "env" "local" 1 None "random" 8000 None None None
                        false [] fresh)).
  set (pool := mkPool "pool" [mkInstanceInfo "localhost" 8000 0 true 0]
                 "round_robin" 0 true).
  assert (Hload : load_env LoopIdle "env" "local" 1 None "random" 8000 None None None
                    false [] fresh
                  = (Ok (mkWrapper (RefBackend 0) false "env" true), loaded))
    by reflexivity.
  assert (Hs : nth_error (heap (with_pools [pool] (store loaded)))
                 (List.length (heap (store fresh)))
               = Some (mkMock "env" true false false)) by reflexivity.
  assert (Hp : nth_error (pools (with_pools [pool] (store loaded))) 0 = Some pool)
    by reflexivity.
  destruct (single_replica_agrees_with_singleton_pool
              _ _ _ _ _ _ _ _ _ _ _ _ _ _ _ (calls loaded) _ _ _
              (mkInstanceInfo "localhost" 8000 0 true 0)
              Hload eq_refl Hs eq_refl Hp eq_refl eq_refl eq_refl eq_refl
              (or_intror eq_refl))
    as ((HA & HB) & Hf & (CA & CB & HhA & HhB & _)).
  destruct (Hf "evaluate" [] [] eq_refl) as (FA & FB & _).
  split; [exact HA|]. split; [exact HB|]. split; [exact FA|].
  split; [exact FB|]. split; [exact CA|]. split; [exact CB|].
  exact (eq_trans HhA (eq_sym HhB)).
Defined.

(* ================================================================== *)
(** * Further properties *)

Section FurtherProxyProperties.
Context {St Ref : Type} {D : Dispatch St Ref}.
Implicit Types (self : EnvironmentWrapper Ref) (ps : PState St Ref).

(** An attribute name that begins with an underscore is never a forward
    request: the access fails with [AttributeError] whatever the state of
    the proxy, and nothing is called on the backend. *)
Theorem private_names_are_not_forwarded self attr args kw ps :
  startswith_underscore attr = true ->
  forward self attr args kw ps
  = (Raise (mkExc AttributeError
              ("'EnvironmentWrapper' has no attribute '" ++ attr ++ "'")), ps).
Proof. unfold forward, __getattr__. intros ->. reflexivity. Qed.

(** Construction of a proxy performs no deployment: it reads the name
    of the wrapped object, records whether it is a pool, probes its
    readiness once and stores the answer; the store is left as it was. *)
Theorem proxy_construction_probes_once (r : Ref) ps :
  let built := EnvironmentWrapper_init r ps in
  _backend (fst built) = r
  /\ name (fst built) = b_name (vtable r) (store ps)
  /\ _is_pool (fst built) = b_isinstance_pool (vtable r)
  /\ _is_ready (fst built) = b_is_ready (vtable r) (store ps)
  /\ store (snd built) = store ps
  /\ calls (snd built) = (calls ps ++ [(r, CIsReady)])%list.
Proof. cbv zeta. repeat split. Qed.

End FurtherProxyProperties.

Section FurtherApiProperties.
Context {B : Type} {AB : AbstractBackend B} {BC : BackendClasses B}
        {PP : PoolPolicy}.
Implicit Types (ps : Proc (B := B)).

(** X2.  A single-replica [load_env] that succeeds builds no pool: exactly
    one backend is added to the heap, and the proxy returned wraps that
    backend directly, with the flag the backend's probe gave. *)
Theorem single_replica_bypasses_pool loop
    image mode hosts lb base_port cn ev et fr bk ps wrapper ps' :
  load_env loop image mode 1 hosts lb base_port cn ev et fr bk ps = (Ok wrapper, ps') ->
  exists s,
    heap (store ps') = (heap (store ps) ++ [s])%list
    /\ pools (store ps') = pools (store ps)
    /\ _backend wrapper = RefBackend (List.length (heap (store ps)))
    /\ _is_pool wrapper = false
    /\ name wrapper = leaf_name s
    /\ _is_ready wrapper = leaf_is_ready s.
Proof.
  intros H. apply load_env_single_ok in H as (s & Hh & Hp & ->).
  exists s. simpl. repeat split; assumption.
Qed.

(** X3.  Remote deployment is not implemented and fails fast: when the input
    passes the validation of [load_env] and a target host is not
    ["localhost"], the call raises [NotImplementedError] naming the first
    such host (two replicas or more), and the process is left as it was: no
    backend is constructed. *)
Theorem remote_hosts_fail_fast loop
    image mode replicas hosts lb base_port cn ev et fr bk ps h :
  (2 <= replicas)%Z ->
  (truthy_hosts hosts = true -> (replicas <= len_hosts hosts)%Z) ->
  first_remote_host (target_hosts hosts replicas) = Some h ->
  load_env loop image mode replicas hosts lb base_port cn ev et fr bk ps
  = (Raise (mkExc NotImplementedError
              ("Remote SSH deployment to '" ++ h ++ "' not yet implemented. "
               ++ "Currently only localhost deployment is supported.")), ps).
Proof.
  intros H2 Hlen Hrem. unfold load_env. rewrite try_except_reraise.
  destruct (Z.ltb_spec replicas 1) as [|_]; [lia|].
  assert (Hv : (truthy_hosts hosts && (len_hosts hosts <? replicas)%Z)%bool = false).
  { destruct (truthy_hosts hosts); simpl; auto. apply Z.ltb_ge. auto. }
  rewrite Hv.
  destruct (Z.eqb_spec replicas 1) as [|_]; [lia|].
  unfold _load_multi_instance. rewrite Hrem. reflexivity.
Qed.

End FurtherApiProperties.

(** A private name on the test double. *)
Lemma private_names_are_not_forwarded_witness :
  forward ready_proxy "_backend" [] [] stale
  = (Raise (mkExc AttributeError
              "'EnvironmentWrapper' has no attribute '_backend'"), stale).
Proof.
  exact (private_names_are_not_forwarded ready_proxy "_backend" [] [] stale
           eq_refl).
Defined.

(** X2 on the test double. *)
Lemma single_replica_bypasses_pool_witness :
  let outcome :=
    load_env LoopIdle "env" "local" 1 None "random" 8000 None None None false [] fresh in
  fst outcome = Ok (mkWrapper (RefBackend 0) false "env" true)
  /\ pools (store (snd outcome)) = []
  /\ exists s, heap (store (snd outcome)) = [s] /\ leaf_is_ready s = true.
Proof.
  cbv zeta.
  assert (H : load_env LoopIdle "env" "local" 1 None "random" 8000 None None None false []
                fresh
              = (Ok (mkWrapper (RefBackend 0) false "env" true),
                 snd (load_env LoopIdle "env" "local" 1 None "random" 8000 None None None
                        false [] fresh)))
    by reflexivity.
  destruct (single_replica_bypasses_pool _ _ _ _ _ _ _ _ _ _ _ _ _ _ H)
    as (s & Hh & Hp & _ & _ & _ & Hr).
  split; [reflexivity|]. split; [exact Hp|].
  exists s. split; [exact Hh|]. symmetry. exact Hr.
Defined.

(** X3 on the test double: the second of two hosts is remote. *)
Lemma remote_hosts_fail_fast_witness :
  load_env LoopIdle "x" "local" 2 (Some ["localhost"; "192.168.1.10"]) "random" 8000
    None None None false [] fresh
  = (Raise (mkExc NotImplementedError
              "Remote SSH deployment to '192.168.1.10' not yet implemented. Currently only localhost deployment is supported."),
     fresh).
Proof.
  assert (H2 : (2 <= 2)%Z) by discriminate.
  exact (remote_hosts_fail_fast LoopIdle "x" "local" 2 (Some ["localhost"; "192.168.1.10"])
           "random" 8000 None None None false [] fresh "192.168.1.10"
           H2 (fun _ => H2) eq_refl).
Defined.

(* ================================================================== *)
(** * The failure handler and the registry *)

Section HandlerProperties.
Context {B : Type} {AB : AbstractBackend B} {BC : BackendClasses B}
        {PP : PoolPolicy}.
Implicit Types (w : World B) (ps : Proc (B := B)).

Lemma same_frame_refl w : same_frame w w.
Proof. unfold same_frame; auto. Qed.

Lemma same_frame_trans w1 w2 w3 :
  same_frame w1 w2 -> same_frame w2 w3 -> same_frame w1 w3.
Proof.
  unfold same_frame. intros (A1 & A2 & A3) (B1 & B2 & B3).
  repeat split; congruence.
Qed.

Lemma on_leaf_frame {A} id (m : M B A) w :
  same_frame w (snd (on_leaf id m w)).
Proof.
  unfold on_leaf, dangling, raise.
  destruct (nth_error (heap w) id) as [s|]; [|apply same_frame_refl].
  destruct (m s) as [r s']. simpl. unfold same_frame. simpl. auto.
Qed.

Lemma call_cleanup_leaf id ps :
  calls (snd (call_cleanup (RefBackend id) ps))
  = (calls ps ++ [(RefBackend id, CCleanup)])%list
  /\ same_frame (store ps) (store (snd (call_cleanup (RefBackend id) ps))).
Proof.
  unfold call_cleanup, on_store, journal. simpl.
  pose proof (on_leaf_frame id leaf_cleanup (store ps)) as F.
  destruct (on_leaf id leaf_cleanup (store ps)) as [r w']. simpl in *. auto.
Qed.

Lemma cleanup_all_effect insts : forall ps,
  calls (cleanup_all insts ps)
  = (calls ps ++ map (fun inst => (RefBackend (backend inst), CCleanup)) insts)%list
  /\ same_frame (store ps) (store (cleanup_all insts ps)).
Proof.
  unfold cleanup_all.
  induction insts as [|i insts IH]; intros ps; simpl.
  - rewrite app_nil_r. split; [reflexivity|apply same_frame_refl].
  - destruct (call_cleanup_leaf (backend i) ps) as [J F].
    destruct (call_cleanup (RefBackend (backend i)) ps) as [r ps1].
    simpl in J, F.
    destruct (IH ps1) as [J' F'].
    destruct (run_tasks _ ps1) as [rs ps2]. simpl in *.
    split.
    + rewrite J', J, <- app_assoc. reflexivity.
    + eapply same_frame_trans; eauto.
Qed.

End HandlerProperties.

Section HandlerClaims.
Context {B : Type} {AB : AbstractBackend B} {BC : BackendClasses B}
        {PP : PoolPolicy}.
Implicit Types (w : World B) (ps : Proc (B := B)).

(** X4.  The handler of [_load_multi_instance], entered with a non-empty
    [instances]: [cleanup()] is called once on the backend of every
    instance, in order, whether or not an earlier cleanup raised; pools,
    registry and constructor calls are left as they were; and the error
    raised is the [BackendError] that carries the message of the exception
    that entered the handler, not one of a cleanup. *)
Theorem failure_handler_cleans_every_instance insts e ps :
  insts <> [] ->
  let outcome := deployment_failed insts e ps in
  fst outcome
  = Raise (mkExc BackendError ("Multi-instance deployment failed: " ++ exc_msg e))
  /\ calls (snd outcome)
     = (calls ps
        ++ map (fun inst => (RefBackend (backend inst), CCleanup)) insts)%list
  /\ same_frame (store ps) (store (snd outcome)).
Proof.
  intros Hne outcome. unfold outcome, deployment_failed.
  destruct insts as [|i insts]; [contradiction|]. simpl.
  split; [reflexivity|]. apply cleanup_all_effect.
Qed.

End HandlerClaims.

(** X4 on the test double: two instances, the cleanup of the first one
    raises, the second one is cleaned all the same. *)
Lemma failure_handler_cleans_every_instance_witness :
  let ps := mkPState (mkWorld [mkMock "a" true true false; mkMock "b" true false false]
                        [] [] [] 0 []) [] in
  let insts := [mkInstanceInfo "localhost" 8000 0 true 0;
                mkInstanceInfo "localhost" 8001 1 true 0] in
  let outcome := deployment_failed insts (mkExc SetupError "no route") ps in
  fst outcome
  = Raise (mkExc BackendError "Multi-instance deployment failed: no route")
  /\ calls (snd outcome) = [(RefBackend 0, CCleanup); (RefBackend 1, CCleanup)]
  /\ map mock_ready (heap (store (snd outcome))) = [true; false].
Proof.
  cbv zeta.
  assert (Hne : [mkInstanceInfo "localhost" 8000 0 true 0;
                 mkInstanceInfo "localhost" 8001 1 true 0] <> [])
    by discriminate.
  destruct (failure_handler_cleans_every_instance
              (AB := mock_backend) (PP := mock_policy)
              _ (mkExc SetupError "no route")
              (mkPState (mkWorld [mkMock "a" true true false;
                                  mkMock "b" true false false] [] [] [] 0 []) [])
              Hne) as (H1 & H2 & _).
  split; [exact H1|]. split; [exact H2|reflexivity].
Defined.

Section LoadFrame.
Context {B : Type} {AB : AbstractBackend B} {BC : BackendClasses B}
        {PP : PoolPolicy}.
Implicit Types (w : World B) (ps : Proc (B := B)).

Lemma construct_effect c o w :
  keeps_registry w (snd (construct c o w))
  /\ constructions (snd (construct c o w)) = (constructions w ++ [c])%list.
Proof. unfold construct, keeps_registry. destruct o; simpl; auto. Qed.

(** Whatever its outcome, [_deploy_instance] leaves pools and registry
    alone; in local mode on the local host it makes exactly one constructor
    call, on the port it was given. *)
Lemma deploy_instance_effect image mode h p i cn ev et fr bk w :
  keeps_registry w (snd (_deploy_instance image mode h p i cn ev et fr bk w))
  /\ (mode = "local" -> h = "localhost" ->
      exists a,
        constructions (snd (_deploy_instance image mode h p i cn ev et fr bk w))
        = (constructions w ++ [NewLocalBackend a])%list
        /\ la_http_port a = p).
Proof.
  unfold _deploy_instance.
  destruct (String.eqb_spec h "localhost") as [->|Hh]; simpl.
  2:{ split; [split; reflexivity|]. intros _ E. contradiction. }
  destruct (String.eqb_spec mode "local") as [->|Hm].
  2:{ split; [split; reflexivity|]. intros E. contradiction. }
  unfold bind, new_LocalBackend, time_time, ret.
  match goal with
  | |- context [construct ?c ?o w] =>
      destruct (construct_effect c o w) as [K C];
      destruct (construct c o w) as [[b|e] w1]
  end; simpl in *; (split; [exact K|]); intros _ _;
    eexists; (split; [exact C|reflexivity]).
Qed.

Lemma deploy_tasks_effect image mode base_port cn ev et fr bk :
  forall (assigned : list (nat * string)) w,
    let after :=
      snd (run_tasks
             (map (fun ih : nat * string =>
                     _deploy_instance image mode (snd ih)
                       (base_port + Z.of_nat (fst ih)) (fst ih) cn ev et fr bk)
                  assigned) w) in
    keeps_registry w after
    /\ (mode = "local" ->
        (forall ih, In ih assigned -> snd ih = "localhost") ->
        exists args,
          constructions after = (constructions w ++ map NewLocalBackend args)%list
          /\ map la_http_port args
             = map (fun ih => (base_port + Z.of_nat (fst ih))%Z) assigned).
Proof.
  induction assigned as [|ih assigned IH]; intros w; simpl.
  - split; [split; reflexivity|]. intros _ _. exists []. simpl.
    now rewrite app_nil_r.
  - destruct (deploy_instance_effect image mode (snd ih)
                (base_port + Z.of_nat (fst ih)) (fst ih) cn ev et fr bk w)
      as [[K1 K2] C].
    destruct (_deploy_instance _ _ _ _ _ _ _ _ _ _ w) as [r w1]. simpl in *.
    specialize (IH w1). cbv zeta in IH. destruct IH as [[K1' K2'] C'].
    destruct (run_tasks _ w1) as [rs w2]. simpl in *.
    split; [split; congruence|].
    intros Hm Hall.
    destruct (C Hm (Hall ih (or_introl eq_refl))) as (a & Ca & Pa).
    destruct (C' Hm (fun x Hx => Hall x (or_intror Hx))) as (args & Cargs & Pargs).
    exists (a :: args). simpl. rewrite Cargs, Ca, <- app_assoc, Pa, Pargs.
    split; reflexivity.
Qed.

Lemma index_hosts_nth hosts : forall indices assigned,
  index_hosts hosts indices = Ok assigned ->
  forall ih, In ih assigned -> nth_error hosts (fst ih) = Some (snd ih).
Proof.
  induction indices as [|j idx IH]; simpl; intros l H x Hx.
  - injection H as <-. contradiction.
  - destruct (nth_error hosts j) eqn:Ej; [|discriminate].
    destruct (index_hosts hosts idx) as [l'|]; [|discriminate].
    injection H as <-. destruct Hx as [<-|Hx]; simpl; eauto.
Qed.

Lemma deploy_all_effect image mode replicas hosts base_port cn ev et fr bk w :
  let after :=
    snd (deploy_all image mode replicas hosts base_port cn ev et fr bk w) in
  keeps_registry w after
  /\ (mode = "local" -> first_remote_host hosts = None ->
      Z.to_nat replicas <= List.length hosts ->
      exists args,
        constructions after = (constructions w ++ map NewLocalBackend args)%list
        /\ map la_http_port args
           = map (fun i => (base_port + Z.of_nat i)%Z) (seq 0 (Z.to_nat replicas))).
Proof.
  cbv zeta. unfold deploy_all.
  destruct (index_hosts hosts (seq 0 (Z.to_nat replicas))) as [assigned|e] eqn:Hi.
  - unfold gather.
    pose proof (deploy_tasks_effect image mode base_port cn ev et fr bk assigned w)
      as E. cbv zeta in E.
    destruct (run_tasks _ w) as [rs w']. simpl in *.
    destruct E as [K C]. split; [exact K|].
    intros Hm Hloc _.
    destruct (C Hm) as (args & Ca & Pa).
    { intros ih Hih. apply (first_remote_host_none _ Hloc).
      eapply nth_error_In. eapply index_hosts_nth; eauto. }
    exists args. split; [exact Ca|].
    rewrite Pa. apply index_hosts_fst in Hi. rewrite <- Hi, map_map. reflexivity.
  - simpl. split; [split; reflexivity|].
    intros _ _ Hlen. exfalso.
    destruct (index_hosts_enough hosts (seq 0 (Z.to_nat replicas)))
      as (assigned & Hi' & _).
    { intros i Hi0. apply in_seq in Hi0. lia. }
    congruence.
Qed.

End LoadFrame.

Section LoadOutcomes.
Context {B : Type} {AB : AbstractBackend B} {BC : BackendClasses B}
        {PP : PoolPolicy}.
Implicit Types (w : World B) (ps : Proc (B := B)).

(** The ends of [_load_multi_instance] once every target host is local, on
    a loop that is not running: either [deploy_all] raised and the handler
    found nothing to clean, or the constructor of the pool raised and the
    handler cleaned every instance, or the pool was built, wrapped and
    registered. *)
Lemma load_multi_cases loop image mode replicas hosts lb base_port cn ev et fr bk ps :
  loop <> LoopRunning ->
  first_remote_host (target_hosts hosts replicas) = None ->
  let d := deploy_all image mode replicas (target_hosts hosts replicas)
             base_port cn ev et fr bk (store ps) in
  let outcome :=
    _load_multi_instance loop image mode replicas hosts lb base_port cn ev et fr bk ps in
  match fst d with
  | Raise e =>
      outcome
      = (Raise (mkExc BackendError
                  ("Multi-instance deployment failed: " ++ exc_msg e)),
         mkPState (snd d) (calls ps))
  | Ok [] =>
      outcome
      = (Raise (mkExc BackendError
                  ("Multi-instance deployment failed: " ++ "no instances")),
         mkPState (snd d) (calls ps))
  | Ok (i :: rest) =>
      match constructor_raises (i :: rest) lb with
      | Some e =>
          outcome
          = (Raise (mkExc BackendError
                      ("Multi-instance deployment failed: " ++ exc_msg e)),
             cleanup_all (i :: rest) (mkPState (snd d) (calls ps)))
      | None =>
          let pid := List.length (pools (snd d)) in
          let wrapper := mkWrapper (RefPool pid) true (name_pool (i :: rest)) true in
          outcome
          = (Ok wrapper,
             mkPState
               (mkWorld (heap (snd d))
                  (pools (snd d)
                   ++ [mkPool (name_pool (i :: rest)) (i :: rest) lb 0 true])
                  (constructions (snd d))
                  (assoc_set (name_pool (i :: rest)) wrapper (registry (snd d)))
                  (clock (snd d)) (entropy (snd d)))
               (calls ps ++ [(RefPool pid, CIsReady)]))
      end
  end.
Proof.
  intros Hl Hloc. unfold _load_multi_instance. cbv zeta. rewrite Hloc.
  rewrite (run_until_complete_runs _ _ Hl).
  unfold lift, on_store.
  destruct (deploy_all _ _ _ _ _ _ _ _ _ _ (store ps)) as [[insts|e] w1];
    cbn [fst snd]; [|reflexivity].
  destruct insts as [|i rest]; [reflexivity|].
  unfold try_except, bind, lift, on_store, new_InstancePool,
    EnvironmentWrapper_init, call_is_ready, journal, registry_register, ret.
  cbn [store calls fst snd].
  destruct (constructor_raises (i :: rest) lb) as [e|]; [reflexivity|].
  simpl. rewrite nth_error_app2, Nat.sub_diag by lia. simpl. reflexivity.
Qed.

(** A successful [deploy_all] returns one instance per replica. *)
Lemma deploy_all_length image mode replicas hosts base_port cn ev et fr bk w insts w' :
  deploy_all image mode replicas hosts base_port cn ev et fr bk w = (Ok insts, w') ->
  List.length insts = Z.to_nat replicas.
Proof.
  unfold deploy_all.
  destruct (index_hosts _ _) as [assigned|e] eqn:Hi; [|discriminate].
  apply index_hosts_fst in Hi. unfold gather.
  destruct (run_tasks _ w) as [rs w2] eqn:Hrun. intros E. injection E as Hall <-.
  destruct (deployed_assignment _ _ _ _ _ _ _ _ _ _ _ _ _ Hrun Hall)
    as (Hp & _).
  apply (f_equal (@List.length _)) in Hp. rewrite !length_map in Hp.
  apply (f_equal (@List.length _)) in Hi. rewrite length_map, length_seq in Hi.
  congruence.
Qed.

End LoadOutcomes.

Section RegistryProperties.
Context {B : Type} {AB : AbstractBackend B} {BC : BackendClasses B}
        {PP : PoolPolicy}.
Implicit Types (w : World B) (ps : Proc (B := B)).

Lemma assoc_set_find {V} k (v : V) l :
  find (fun kv => String.eqb k (fst kv)) (assoc_set k v l) = Some (k, v).
Proof.
  induction l as [|[k' v'] l IH]; simpl.
  - now rewrite String.eqb_refl.
  - destruct (String.eqb k k') eqn:E; simpl.
    + now rewrite String.eqb_refl.
    + now rewrite E.
Qed.

Lemma assoc_set_find_other {V} k k0 (v : V) l :
  k0 <> k ->
  find (fun kv => String.eqb k0 (fst kv)) (assoc_set k v l)
  = find (fun kv => String.eqb k0 (fst kv)) l.
Proof.
  intros Hne. induction l as [|[k' v'] l IH]; simpl.
  - apply String.eqb_neq in Hne. now rewrite Hne.
  - destruct (String.eqb_spec k k') as [<-|E]; simpl.
    + apply String.eqb_neq in Hne. now rewrite Hne.
    + now rewrite IH.
Qed.

Lemma assoc_set_keys {V} k (v : V) l : In k (map fst (assoc_set k v l)).
Proof.
  induction l as [|[k' v'] l IH]; simpl; auto.
  destruct (String.eqb k k'); simpl; auto.
Qed.

(** What [_load_single_instance] does to pools and registry. *)
Lemma load_single_registry image mode h p cn ev et fr bk ps :
  let outcome := _load_single_instance image mode h p cn ev et fr bk ps in
  pools (store (snd outcome)) = pools (store ps)
  /\ registry (store (snd outcome))
     = match fst outcome with
       | Ok wrapper => assoc_set (name wrapper) wrapper (registry (store ps))
       | Raise _ => registry (store ps)
       end.
Proof.
  cbv zeta. unfold _load_single_instance.
  destruct (negb _); [simpl; auto|].
  assert (K : forall (c : Construction) (o : result B),
            let outcome :=
              (id <- lift (fun w => construct c o w) ;;
               (fun ps0 =>
                  let (wr, ps1) := EnvironmentWrapper_init (RefBackend id) ps0 in
                  (lift (registry_register (leaf_name_at id (store ps1)) wr) ;;;
                   ret wr)%py ps1))%py ps in
            pools (store (snd outcome)) = pools (store ps)
            /\ registry (store (snd outcome))
               = match fst outcome with
                 | Ok wrapper => assoc_set (name wrapper) wrapper (registry (store ps))
                 | Raise _ => registry (store ps)
                 end).
  { intros c o. cbv zeta. unfold bind, lift, on_store, construct. simpl.
    destruct o as [s|e]; simpl; auto. }
  destruct (String.eqb mode "local").
  - unfold new_LocalBackend.
    apply (K (NewLocalBackend _) (LocalBackend _ (heap (store ps)))).
  - destruct (String.eqb mode "remote"); [|simpl; auto].
    unfold new_RemoteBackend.
    apply (K (NewRemoteBackend _ _) (RemoteBackend _ _ (heap (store ps)))).
Qed.

(** What [load_env] does to the registry, and to the pools when it fails. *)
Lemma load_env_registry loop image mode replicas hosts lb base_port cn ev et fr bk ps :
  let outcome :=
    load_env loop image mode replicas hosts lb base_port cn ev et fr bk ps in
  match fst outcome with
  | Ok wrapper =>
      registry (store (snd outcome))
      = assoc_set (name wrapper) wrapper (registry (store ps))
  | Raise _ =>
      registry (store (snd outcome)) = registry (store ps)
      /\ pools (store (snd outcome)) = pools (store ps)
  end.
Proof.
  cbv zeta. unfold load_env. rewrite try_except_reraise.
  destruct (replicas <? 1)%Z; [simpl; auto|].
  destruct (truthy_hosts hosts && _)%bool; [simpl; auto|].
  destruct (replicas =? 1)%Z.
  - match goal with
    | |- context [_load_single_instance ?a ?b ?c ?d ?e ?f ?g ?h ?i ps] =>
        pose proof (load_single_registry a b c d e f g h i ps) as L
    end.
    cbv zeta in L. destruct L as [Lp Lr].
    destruct (_load_single_instance _ _ _ _ _ _ _ _ _ ps) as [[wr|e] ps'];
      simpl in *; auto.
  - destruct (first_remote_host (target_hosts hosts replicas)) as [h|] eqn:Hloc.
    + unfold _load_multi_instance. cbv zeta. rewrite Hloc. simpl. auto.
    + assert (Hrun : loop = LoopRunning \/ loop <> LoopRunning)
        by (destruct loop; auto; right; discriminate).
      destruct Hrun as [->|Hl].
      { rewrite (multi_instance_running_loop _ _ _ _ _ _ _ _ _ _ _ _ Hloc).
        simpl. auto. }
      pose proof (load_multi_cases loop image mode replicas hosts lb base_port
                    cn ev et fr bk ps Hl Hloc) as C. cbv zeta in C.
      destruct (deploy_all_effect image mode replicas
                  (target_hosts hosts replicas) base_port cn ev et fr bk
                  (store ps)) as [[Kp Kr] _].
      destruct (deploy_all _ _ _ _ _ _ _ _ _ _ (store ps)) as [[[|i rest]|e] w1];
        cbn [fst snd] in *.
      * rewrite C. simpl. auto.
      * destruct (constructor_raises (i :: rest) lb) as [e|].
        -- rewrite C. cbn [fst snd].
           destruct (cleanup_all_effect (i :: rest) (mkPState w1 (calls ps)))
             as [_ (Fp & Fr & _)].
           cbn [store] in Fp, Fr. rewrite Fp, Fr. auto.
        -- rewrite C. simpl. now rewrite Kr.
      * rewrite C. simpl. auto.
Qed.

End RegistryProperties.

Section RegistryClaims.
Context {B : Type} {AB : AbstractBackend B} {BC : BackendClasses B}
        {PP : PoolPolicy}.
Implicit Types (w : World B) (ps : Proc (B := B)).

(** X5.  A [load_env] that fails, for whatever reason and on whichever
    path, registers nothing and builds no pool: the registry and the pools
    are what they were before the call, so [list_active_environments] gives
    the same names and every lookup the same answer. *)
Theorem failed_load_registers_nothing loop
    image mode replicas hosts lb base_port cn ev et fr bk ps e ps' :
  load_env loop image mode replicas hosts lb base_port cn ev et fr bk ps
  = (Raise e, ps') ->
  registry (store ps') = registry (store ps)
  /\ pools (store ps') = pools (store ps)
  /\ list_active_environments (store ps') = list_active_environments (store ps)
  /\ (forall env_id,
        get_environment env_id (store ps') = get_environment env_id (store ps)).
Proof.
  intros H.
  pose proof (load_env_registry loop image mode replicas hosts lb base_port
                cn ev et fr bk ps) as L.
  cbv zeta in L. rewrite H in L. simpl in L. destruct L as [Lr Lp].
  unfold list_active_environments, get_environment. rewrite Lr. auto.
Qed.

(** X6.  A [load_env] that succeeds registers the proxy it returns under the
    proxy's name: [get_environment] on that name gives that proxy, the name
    is among [list_active_environments], and the lookup of every other name
    is unchanged. *)
Theorem loaded_proxy_is_registered loop
    image mode replicas hosts lb base_port cn ev et fr bk ps wrapper ps' :
  load_env loop image mode replicas hosts lb base_port cn ev et fr bk ps
  = (Ok wrapper, ps') ->
  get_environment (name wrapper) (store ps') = Some wrapper
  /\ In (name wrapper) (list_active_environments (store ps'))
  /\ (forall other, other <> name wrapper ->
        get_environment other (store ps') = get_environment other (store ps)).
Proof.
  intros H.
  pose proof (load_env_registry loop image mode replicas hosts lb base_port
                cn ev et fr bk ps) as L.
  cbv zeta in L. rewrite H in L. simpl in L.
  unfold get_environment, list_active_environments. rewrite L.
  split; [now rewrite assoc_set_find|].
  split; [apply assoc_set_keys|].
  intros other Hne. now rewrite assoc_set_find_other.
Qed.

End RegistryClaims.

Section AttemptClaims.
Context {B : Type} {AB : AbstractBackend B} {BC : BackendClasses B}
        {PP : PoolPolicy}.
Implicit Types (w : World B) (ps : Proc (B := B)).


End AttemptClaims.

(** X5 on the test double: a load that fails on its second construction,
    in a process that already holds a registered environment. *)
Lemma failed_load_registers_nothing_witness :
  let before :=
    snd (load_env LoopIdle "env" "local" 1 None "random" 8000 None None None false []
           fresh) in
  let outcome :=
    load_env LoopIdle "x" "local" 2 None "random" 9000 None None None false [] before in
  is_ok (fst outcome) = false
  /\ list_active_environments (store (snd outcome)) = ["env"]
  /\ pools (store (snd outcome)) = [].
Proof.
  cbv zeta.
  set (before := snd (load_env LoopIdle "env" "local" 1 None "random" 8000 None None None
                        false [] fresh)).
  assert (H : load_env LoopIdle "x" "local" 2 None "random" 9000 None None None false []
                before
              = (Raise (mkExc BackendError
                          "Multi-instance deployment failed: port is already allocated"),
                 snd (load_env LoopIdle "x" "local" 2 None "random" 9000 None None None
                        false [] before)))
    by reflexivity.
  destruct (failed_load_registers_nothing _ _ _ _ _ _ _ _ _ _ _ _ _ _ _ H)
    as (_ & Hp & Hl & _).
  split; [reflexivity|]. split; [exact Hl|exact Hp].
Defined.

(** X6 on the test double: the pool proxy of a three-replica load. *)
Lemma loaded_proxy_is_registered_witness :
  let outcome :=
    load_env LoopIdle "x" "local" 3 None "random" 8000 None None None false [] fresh in
  get_environment "pool" (store (snd outcome))
  = Some (mkWrapper (RefPool 0) true "pool" true)
  /\ In "pool" (list_active_environments (store (snd outcome))).
Proof.
  cbv zeta.
  assert (H : load_env LoopIdle "x" "local" 3 None "random" 8000 None None None false []
                fresh
              = (Ok (mkWrapper (RefPool 0) true "pool" true),
                 snd (load_env LoopIdle "x" "local" 3 None "random" 8000 None None None
                        false [] fresh)))
    by reflexivity.
  destruct (loaded_proxy_is_registered _ _ _ _ _ _ _ _ _ _ _ _ _ _ _ H)
    as (Hg & Hin & _).
  split; [exact Hg|exact Hin].
Defined.


(* ================================================================== *)
(** * Context manager and destructor *)

Section ReleaseClaims.
Context {St Ref : Type} {D : Dispatch St Ref}.
Implicit Types (self : EnvironmentWrapper Ref) (ps : PState St Ref).

(** X8.  The destructor and an explicit [cleanup()].  After a [cleanup()]
    whose backend cleanup returned, and any further operations on the
    proxy, [__del__] does nothing whatever the event loop: no second cleanup
    reaches the backend and none is scheduled.  After a [cleanup()] whose
    backend cleanup raised, the flag is still set and [__del__] on an idle
    loop calls the backend's cleanup once more. *)
Theorem destructor_after_cleanup self ps :
  let w1 := snd (fst (cleanup self ps)) in
  let ps1 := snd (cleanup self ps) in
  (fst (b_cleanup (vtable (_backend self)) (store ps)) = Ok tt ->
   forall os loop,
     let after := run_ops os (w1, ps1) in
     __del__ loop (fst after) (snd after)
     = (mkReleased (fst after) false, snd after))
  /\ (forall e, fst (b_cleanup (vtable (_backend self)) (store ps)) = Raise e ->
      _is_ready self = true ->
      calls (snd (__del__ LoopIdle w1 ps1))
      = (calls ps ++ [(_backend self, CCleanup); (_backend self, CCleanup)])%list
      /\ cleanup_scheduled (fst (__del__ LoopRunning w1 ps1)) = true
      /\ snd (__del__ LoopRunning w1 ps1) = ps1).
Proof.
  cbv zeta. split.
  - intros Hb os loop.
    assert (F0 : _is_ready (snd (fst (cleanup self ps))) = false)
      by (rewrite cleanup_flag, Hb; reflexivity).
    destruct (run_ops_cleared os _ (snd (cleanup self ps)) F0) as [F _].
    unfold __del__. now rewrite F.
  - intros e Hb Hr.
    assert (F0 : _is_ready (snd (fst (cleanup self ps))) = true)
      by (rewrite cleanup_flag, Hb; exact Hr).
    destruct (cleanup_keeps_identity self ps) as (Hbk & _).
    unfold __del__. rewrite F0. unfold cleanup_in_sync_context.
    split; [|split; reflexivity].
    pose proof (cleanup_journal (snd (fst (cleanup self ps)))
                  (snd (cleanup self ps))) as J.
    destruct (cleanup (snd (fst (cleanup self ps))) (snd (cleanup self ps)))
      as [[r w2] ps2]. simpl in *.
    rewrite J, cleanup_journal, Hbk, <- app_assoc. reflexivity.
Qed.

(** X9.  The proxy as a context manager, outside a running event loop: the
    [with] statement gives the outcome of its body unchanged, value or
    exception, and on the way out calls the backend's cleanup exactly once,
    after everything the body issued; when that cleanup returns, the proxy
    left behind refuses every forward request.  Inside a running event loop
    the cleanup is only scheduled: when the block is left nothing has been
    called on the backend and the proxy is as the body left it. *)
Theorem with_statement_releases {A} self
    (body : EnvironmentWrapper Ref ->
            PState St Ref -> (result A * EnvironmentWrapper Ref) * PState St Ref)
    ps :
  let r := fst (fst (body self ps)) in
  let w1 := snd (fst (body self ps)) in
  let ps1 := snd (body self ps) in
  let idle := with_statement LoopIdle self body ps in
  let running := with_statement LoopRunning self body ps in
  (fst (fst idle) = r
   /\ cleanup_scheduled (snd (fst idle)) = false
   /\ calls (snd idle) = (calls ps1 ++ [(_backend w1, CCleanup)])%list
   /\ (fst (b_cleanup (vtable (_backend w1)) (store ps1)) = Ok tt ->
       forall attr args kw,
         startswith_underscore attr = false ->
         forward (released_proxy (snd (fst idle))) attr args kw (snd idle)
         = (Raise (not_ready_error w1), snd idle)))
  /\ (fst (fst running) = r
      /\ cleanup_scheduled (snd (fst running)) = true
      /\ released_proxy (snd (fst running)) = w1
      /\ snd running = ps1).
Proof.
  cbv zeta. unfold with_statement, __enter__, __exit__, cleanup_in_sync_context.
  destruct (body self ps) as [[r w1] ps1]. simpl.
  split; [|repeat split].
  pose proof (cleanup_journal w1 ps1) as J.
  pose proof (cleanup_flag w1 ps1) as F.
  destruct (cleanup_keeps_identity w1 ps1) as (_ & _ & N).
  destruct (cleanup w1 ps1) as [[u w2] ps2]. simpl in *.
  split; [reflexivity|]. split; [reflexivity|]. split; [exact J|].
  intros Hb attr args kw Hattr. rewrite Hb in F.
  rewrite (forward_refused _ _ _ _ _ Hattr F).
  unfold not_ready_error. now rewrite N.
Qed.

End ReleaseClaims.

(** X8 on the test double: a backend that stops, and one whose cleanup
    raises. *)
Lemma destructor_after_cleanup_witness :
  let ps := one_backend (mkMock "env" true false false) in
  let after := run_ops [OpIsReady]
                 (snd (fst (cleanup ready_proxy ps)), snd (cleanup ready_proxy ps)) in
  calls (snd (__del__ LoopIdle (fst after) (snd after)))
  = [(RefBackend 0, CCleanup)]
  /\ calls (snd (__del__ LoopIdle (snd (fst (cleanup ready_proxy stubborn)))
                   (snd (cleanup ready_proxy stubborn))))
     = [(RefBackend 0, CCleanup); (RefBackend 0, CCleanup)].
Proof.
  cbv zeta. split.
  - pose proof (proj1 (destructor_after_cleanup ready_proxy
                         (one_backend (mkMock "env" true false false)))
                  eq_refl [OpIsReady] LoopIdle) as H.
    cbv zeta in H. rewrite H. reflexivity.
  - exact (proj1 (proj2 (destructor_after_cleanup ready_proxy stubborn)
                    (mkExc ContainerError "cannot stop container")
                    eq_refl eq_refl)).
Defined.

(** X9 on the test double: the body forwards a call that fails. *)
Lemma with_statement_releases_witness :
  let body := fun (w : EnvironmentWrapper BackendRef) ps =>
                (fst (forward w "evaluate" [] [] ps), w,
                 snd (forward w "evaluate" [] [] ps)) in
  let idle := with_statement LoopIdle ready_proxy body failing in
  fst (fst idle)
  = Raise (mkExc EnvironmentError
             "Method 'evaluate' failed on environment 'env': actor died")
  /\ calls (snd idle)
     = [(RefBackend 0, CCallMethod "evaluate" [] VNone []);
        (RefBackend 0, CCleanup)]
  /\ forward (released_proxy (snd (fst idle))) "evaluate" [] [] (snd idle)
     = (Raise (not_ready_error ready_proxy), snd idle).
Proof.
  cbv zeta.
  destruct (with_statement_releases ready_proxy
              (fun (w : EnvironmentWrapper BackendRef) ps =>
                 (fst (forward w "evaluate" [] [] ps), w,
                  snd (forward w "evaluate" [] [] ps)))
              failing) as ((H1 & _ & H3 & H4) & _).
  split; [exact H1|]. split; [exact H3|].
  exact (H4 eq_refl "evaluate" [] [] eq_refl).
Defined.

(* ================================================================== *)
(** * What a proxy may issue *)

Section JournalInvariant.
Context {St Ref : Type} {D : Dispatch St Ref}.
Implicit Types (w self : EnvironmentWrapper Ref) (ps : PState St Ref).

Lemma run_op_issues o w ps :
  _backend (fst (run_op o (w, ps))) = _backend w
  /\ _is_pool (fst (run_op o (w, ps))) = _is_pool w
  /\ exists added,
       calls (snd (run_op o (w, ps))) = (calls ps ++ added)%list
       /\ Forall (issued_by w) added.
Proof.
  destruct o as [| |attr args kw|]; simpl.
  - destruct (cleanup_keeps_identity w ps) as (Hb & Hp & _).
    pose proof (cleanup_journal w ps) as J.
    destruct (cleanup w ps) as [[r w'] ps']. simpl in *.
    repeat split; auto. eexists. split; [exact J|].
    repeat constructor.
  - repeat split; auto. unfold is_ready.
    destruct (_is_ready w); simpl.
    + eexists. split; [reflexivity|]. repeat constructor.
    + exists []. now rewrite app_nil_r.
  - repeat split; auto. unfold forward.
    destruct (__getattr__ w attr) as [f|e] eqn:G; simpl.
    + apply getattr_ok in G as (Hattr & _ & ->).
      eexists. split; [apply method_caller_journal|].
      repeat constructor. exact Hattr.
    + exists []. now rewrite app_nil_r.
  - repeat split; auto. unfold get_stats.
    destruct (_is_pool w) eqn:P; simpl.
    + unfold bind, call_get_stats, on_store, journal, ret. simpl.
      exists [(_backend w, CGetStats)].
      destruct (b_get_stats _ _) as [[s|e] st']; simpl;
        (split; [reflexivity|]); repeat constructor; exact P.
    + exists []. now rewrite app_nil_r.
Qed.

(** X1.  Whatever operations are performed on a proxy, in whatever order
    and with whatever arguments, everything it issues is issued on the
    object it wraps; it never passes the backend a [call_method] for a name
    that begins with an underscore, and it asks for statistics only if the
    object is a pool.  The journal only grows. *)
Theorem proxy_issues_only_on_its_backend os : forall w ps,
  _backend (fst (run_ops os (w, ps))) = _backend w
  /\ exists added,
       calls (snd (run_ops os (w, ps))) = (calls ps ++ added)%list
       /\ Forall (issued_by w) added.
Proof.
  unfold run_ops.
  induction os as [|o os IH]; intros w ps.
  - simpl. split; [reflexivity|]. exists []. now rewrite app_nil_r.
  - cbn [fold_left].
    destruct (run_op_issues o w ps) as (Hb & Hp & added & Hj & Hf).
    destruct (run_op o (w, ps)) as [w1 ps1]. cbn [fst snd] in *.
    destruct (IH w1 ps1) as (Hb' & added' & Hj' & Hf').
    split; [congruence|].
    exists (added ++ added')%list. split.
    + rewrite Hj', Hj, app_assoc. reflexivity.
    + apply Forall_app. split; [exact Hf|].
      eapply Forall_impl; [|exact Hf'].
      intros rc [H1 H2]. unfold issued_by. rewrite <- Hb, <- Hp. auto.
Qed.

End JournalInvariant.

(* ================================================================== *)
(** * Listing and printing the methods *)

Section PrintingProperties.
Context {R : Repr}.

Lemma pr_bind_done {A C} (m : Pr A) (k : A -> Pr C) out a out' :
  m out = (Done a, out') -> pr_bind m k out = k a out'.
Proof. unfold pr_bind. now intros ->. Qed.

Lemma pr_bind_failed {A C} (m : Pr A) (k : A -> Pr C) out e :
  fst (m out) = Failed e -> pr_bind m k out = (Failed e, snd (m out)).
Proof. unfold pr_bind. destruct (m out) as [[a|e'] o]; simpl; congruence. Qed.

Lemma select_by_dicts key value : forall items,
  forallb is_dict items = true ->
  select_by key value items = Done (filter (field_is key value) items).
Proof.
  induction items as [|m items IH]; simpl; auto.
  intros H. apply andb_prop in H as [Hm Hrest].
  destruct m; try discriminate. simpl.
  rewrite (IH Hrest). unfold field_is. simpl. reflexivity.
Qed.

Lemma filter_keeps_forallb {A} (f g : A -> bool) l :
  forallb f l = true -> forallb f (filter g l) = true.
Proof.
  induction l as [|x l IH]; simpl; auto.
  intros H. apply andb_prop in H as [Hx Hl].
  destruct (g x); simpl; auto. now rewrite Hx, IH.
Qed.

Lemma print_signatures_named : forall l out,
  forallb (has_key "name") l = true ->
  pr_for l print_signature out = (Done tt, (out ++ map signature_line l)%list).
Proof.
  induction l as [|m l IH]; intros out H; simpl.
  - now rewrite app_nil_r.
  - apply andb_prop in H as [Hm Hl].
    destruct m as [| | | | |kv]; try discriminate.
    unfold pr_bind at 1. unfold print_signature, pr_bind, pr_try, print.
    simpl in *. unfold dict_index, signature_line. simpl.
    destruct (dict_lookup "name" kv) as [v|]; [|discriminate].
    rewrite (IH _ Hl), <- app_assoc. reflexivity.
Qed.

(** The first descriptor without a name stops the printing of a group. *)
Lemma print_signatures_unnamed : forall l out,
  forallb is_dict l = true ->
  forallb (has_key "name") l = false ->
  fst (pr_for l print_signature out) = Failed (NoSuchKey "name").
Proof.
  induction l as [|m l IH]; intros out Hd H; simpl in *; [discriminate|].
  apply andb_prop in Hd as [Hm Hl].
  destruct m as [| | | | |kv]; try discriminate.
  unfold pr_bind at 1. unfold print_signature, pr_bind, pr_try, print.
  simpl in *. unfold dict_index.
  destruct (dict_lookup "name" kv) as [v|]; simpl in *.
  - apply (IH _ Hl H).
  - reflexivity.
Qed.

Lemma print_group title l out :
  forallb (has_key "name") l = true ->
  (match l with
   | [] => pr_ret tt
   | _ => (print title ;;~ pr_for l print_signature)%pr
   end) out
  = (Done tt, (out ++ titled title (map signature_line l))%list).
Proof.
  intros H. destruct l as [|m l].
  - simpl. unfold pr_ret. now rewrite app_nil_r.
  - unfold pr_bind, print. rewrite (print_signatures_named _ _ H).
    rewrite <- app_assoc. reflexivity.
Qed.

Lemma print_function_methods_named methods out :
  forallb is_dict methods = true ->
  forallb (has_key "name") (filter (field_is "source" "Actor") methods) = true ->
  forallb (has_key "name") (filter (field_is "source" "module") methods) = true ->
  _print_function_methods methods out
  = (Done tt, (out ++ function_listing methods)%list).
Proof.
  intros Hd Ha Hm. unfold _print_function_methods.
  do 3 (erewrite pr_bind_done by (unfold print; reflexivity)).
  do 2 (erewrite pr_bind_done
          by (unfold pr_try; rewrite select_by_dicts by assumption; reflexivity)).
  erewrite pr_bind_done by (apply print_group; assumption).
  erewrite pr_bind_done by (apply print_group; assumption).
  unfold print, function_listing.
  rewrite <- !app_assoc. reflexivity.
Qed.

Lemma print_endpoints_plain : forall l out,
  forallb is_dict l = true ->
  forallb (fun e => negb (truthy (field e "parameters" (OList [])))) l = true ->
  pr_for l print_endpoint out
  = (Done tt, (out ++ flat_map endpoint_lines l)%list).
Proof.
  induction l as [|e l IH]; intros out Hd Hp; simpl.
  - now rewrite app_nil_r.
  - apply andb_prop in Hd as [He Hl]. apply andb_prop in Hp as [Hpe Hpl].
    destruct e as [| | | | |kv]; try discriminate.
    unfold pr_bind at 1. unfold print_endpoint, endpoint_lines.
    simpl in Hpe. apply negb_true_iff in Hpe.
    unfold pr_bind, pr_try, print, obj_get, field, pr_ret. rewrite Hpe.
    destruct (truthy match dict_lookup "summary" kv with
                     | Some v => v | None => OStr "" end);
      destruct (truthy match dict_lookup "description" kv with
                       | Some v => v | None => OStr "" end
                && negb (py_eq match dict_lookup "description" kv with
                               | Some v => v | None => OStr "" end
                               match dict_lookup "summary" kv with
                               | Some v => v | None => OStr "" end))%bool;
      rewrite (IH _ Hl Hpl), <- ?app_assoc; reflexivity.
Qed.

End PrintingProperties.

Section ListingClaims.
Context {St Ref : Type} {L : Lister St Ref} {R : Repr}.
Implicit Types (self : EnvironmentWrapper Ref) (ls : ListState St Ref).

(** The outcome of [list_methods] when the backend has answered. *)
Lemma list_methods_answered self print_info ls methods st' :
  _is_ready self = true ->
  b_list_methods (_backend self) (store (proxy_state ls)) = (Ok methods, st') ->
  list_methods self print_info ls
  = let ps' := mkPState st' (calls (proxy_state ls)) in
    let asked := (listed ls ++ [_backend self])%list in
    if print_info then
      match _print_method_info methods (console ls) with
      | (Done _, out) => (Ok methods, mkListState ps' out asked)
      | (Failed e, out) =>
          (Raise (mkExc EnvironmentError
                    ("Failed to list methods: " ++ str_of_error e)),
           mkListState ps' out asked)
      end
    else (Ok methods, mkListState ps' (console ls) asked).
Proof. unfold list_methods. intros -> ->. reflexivity. Qed.

(** X10.  [list_methods] of the proxy.  On a proxy that is not ready it
    raises the not-ready error at once: the backend is not asked and
    nothing is printed.  Every exception that leaves it is an
    [EnvironmentError], be the cause the backend or the printing.  What it
    returns is the backend's answer, unchanged, and the backend was asked
    once.  Without [print_info] nothing is printed and it returns whenever
    the backend does.  It journals no call. *)
Theorem list_methods_outcomes self print_info ls :
  let outcome := list_methods self print_info ls in
  let answer := b_list_methods (_backend self) (store (proxy_state ls)) in
  (_is_ready self = false -> outcome = (Raise (not_ready_error self), ls))
  /\ (forall e, fst outcome = Raise e -> exc_class e = EnvironmentError)
  /\ (forall methods, fst outcome = Ok methods ->
      fst answer = Ok methods
      /\ listed (snd outcome) = (listed ls ++ [_backend self])%list
      /\ store (proxy_state (snd outcome)) = snd answer)
  /\ (print_info = false ->
      console (snd outcome) = console ls
      /\ (_is_ready self = true -> forall methods,
          fst answer = Ok methods -> fst outcome = Ok methods))
  /\ calls (proxy_state (snd outcome)) = calls (proxy_state ls).
Proof.
  cbv zeta. unfold list_methods, not_ready_error.
  destruct (_is_ready self); simpl;
    [destruct (b_list_methods _ _) as [[methods|e] st']; simpl;
     [destruct print_info;
      [destruct (_print_method_info methods (console ls)) as [[u|e] out]|];
      simpl|]|];
    (split; [intros H; try discriminate H; reflexivity|]);
    (split; [intros e0 E; try discriminate E; injection E as <-; reflexivity|]);
    (split; [intros m E; try discriminate E; injection E as <-; auto|]);
    (split; [|reflexivity]);
    intros Hp; try discriminate Hp;
    (split; [reflexivity|]);
    intros Hr m E; try discriminate Hr; try discriminate E;
    injection E as <-; reflexivity.
Qed.

(** X11.  Function descriptors: the first descriptor is a dictionary without
    [path], every descriptor is a dictionary, and those whose [source] is
    [Actor] or [module] have a [name].  Then [list_methods] prints, between
    two banners, the [Actor] methods under their title and then the
    [module] functions under theirs, one line each in the order received, a
    title being left out when its group is empty; descriptors with any other
    source are not shown; and the data are returned. *)
Theorem function_methods_listed self ls kv rest st' :
  _is_ready self = true ->
  b_list_methods (_backend self) (store (proxy_state ls))
  = (Ok (ODict kv :: rest), st') ->
  dict_lookup "path" kv = None ->
  forallb is_dict rest = true ->
  forallb (has_key "name")
    (filter (field_is "source" "Actor") (ODict kv :: rest)) = true ->
  forallb (has_key "name")
    (filter (field_is "source" "module") (ODict kv :: rest)) = true ->
  fst (list_methods self true ls) = Ok (ODict kv :: rest)
  /\ console (snd (list_methods self true ls))
     = (console ls ++ function_listing (ODict kv :: rest))%list.
Proof.
  intros Hr Hb Hpath Hd Ha Hm.
  rewrite (list_methods_answered _ _ _ _ _ Hr Hb). cbv zeta.
  unfold _print_method_info. rewrite Hpath.
  rewrite print_function_methods_named by assumption. simpl. auto.
Qed.

(** X12.  A descriptor without [name] among those whose [source] is
    [Actor], all descriptors being dictionaries and the first one without
    [path]: with [print_info] the listing fails with
    [EnvironmentError("Failed to list methods: 'name'")] although the
    backend answered; without it the same answer is returned. *)
Theorem unnamed_method_breaks_printed_listing self ls kv rest st' :
  _is_ready self = true ->
  b_list_methods (_backend self) (store (proxy_state ls))
  = (Ok (ODict kv :: rest), st') ->
  dict_lookup "path" kv = None ->
  forallb is_dict rest = true ->
  forallb (has_key "name")
    (filter (field_is "source" "Actor") (ODict kv :: rest)) = false ->
  fst (list_methods self true ls)
  = Raise (mkExc EnvironmentError "Failed to list methods: 'name'")
  /\ fst (list_methods self false ls) = Ok (ODict kv :: rest).
Proof.
  intros Hr Hb Hpath Hd Ha.
  rewrite !(list_methods_answered _ _ _ _ _ Hr Hb). cbv zeta.
  split; [|reflexivity].
  unfold _print_method_info. rewrite Hpath.
  unfold _print_function_methods.
  do 3 (erewrite pr_bind_done by (unfold print; reflexivity)).
  assert (Hall : forallb is_dict (ODict kv :: rest) = true) by exact Hd.
  do 2 (erewrite pr_bind_done
          by (unfold pr_try; rewrite select_by_dicts by assumption; reflexivity)).
  destruct (filter (field_is "source" "Actor") (ODict kv :: rest))
    as [|m l] eqn:F; [discriminate|].
  assert (Hdl : forallb is_dict (m :: l) = true)
    by (rewrite <- F; now apply filter_keeps_forallb).
  rewrite (pr_bind_failed _ _ _ (NoSuchKey "name")); [reflexivity|].
  erewrite pr_bind_done by (unfold print; reflexivity).
  now apply print_signatures_unnamed.
Qed.

(** X13.  HTTP endpoints: the first descriptor is a dictionary with [path],
    every descriptor is a dictionary, and none has parameters.  Then
    [list_methods] prints, between two banners, for every endpoint in the
    order received its verb ([GET] when none is given) and path, its summary
    when it has one, and its description when it has one that differs from
    the summary; and the data are returned. *)
Theorem plain_endpoints_listed self ls kv rest st' p :
  _is_ready self = true ->
  b_list_methods (_backend self) (store (proxy_state ls))
  = (Ok (ODict kv :: rest), st') ->
  dict_lookup "path" kv = Some p ->
  forallb is_dict rest = true ->
  forallb (fun e => negb (truthy (field e "parameters" (OList []))))
    (ODict kv :: rest) = true ->
  fst (list_methods self true ls) = Ok (ODict kv :: rest)
  /\ console (snd (list_methods self true ls))
     = (console ls
        ++ [(nl ++ banner)%string; "Available Endpoints (http_based)"; banner]
        ++ flat_map endpoint_lines (ODict kv :: rest)
        ++ [(nl ++ banner)%string])%list.
Proof.
  intros Hr Hb Hpath Hd Hp.
  rewrite (list_methods_answered _ _ _ _ _ Hr Hb). cbv zeta.
  unfold _print_method_info. rewrite Hpath.
  unfold _print_http_methods.
  do 3 (erewrite pr_bind_done by (unfold print; reflexivity)).
  erewrite pr_bind_done by (apply print_endpoints_plain; assumption).
  unfold print. cbn [fst snd console]. split; [reflexivity|].
  rewrite <- !app_assoc. reflexivity.
Qed.

(** X14.  A listing whose first item is not a dictionary, a list of names
    for instance, is printed as a simple list, one line per item under one
    title, and this cannot fail; an empty listing prints the one line
    ["No methods available"].  Either way the data are returned. *)
Theorem simple_listing_printed self ls methods st' :
  _is_ready self = true ->
  b_list_methods (_backend self) (store (proxy_state ls)) = (Ok methods, st') ->
  match methods with ODict _ :: _ => false | _ => true end = true ->
  fst (list_methods self true ls) = Ok methods
  /\ console (snd (list_methods self true ls))
     = (console ls
        ++ match methods with
           | [] => ["No methods available"]
           | _ => (nl ++ "Available methods:")%string
                  :: map (fun m => ("  - " ++ py_str m)%string) methods
           end)%list.
Proof.
  intros Hr Hb Hshape.
  rewrite (list_methods_answered _ _ _ _ _ Hr Hb). cbv zeta.
  assert (G : forall l out,
            pr_for l (fun m => print ("  - " ++ py_str m)) out
            = (Done tt, (out ++ map (fun m => ("  - " ++ py_str m)%string) l)%list)).
  { induction l as [|m l IH]; intros out; simpl.
    - now rewrite app_nil_r.
    - unfold pr_bind, print at 1. rewrite IH, <- app_assoc. reflexivity. }
  destruct methods as [|m rest]; [simpl; auto|].
  destruct m; try discriminate;
    unfold _print_method_info;
    (erewrite pr_bind_done by (unfold print; reflexivity));
    rewrite G, <- app_assoc; simpl; auto.
Qed.

End ListingClaims.

(** X10 on a canned answer: a proxy that is not ready, and a quiet
    listing. *)
Lemma list_methods_outcomes_witness :
  list_methods (listing_proxy false) true (listing_state sample_functions)
  = (Raise (not_ready_error (listing_proxy false)), listing_state sample_functions)
  /\ console (snd (list_methods (listing_proxy true) false
                     (listing_state sample_functions))) = []
  /\ fst (list_methods (listing_proxy true) false (listing_state sample_functions))
     = Ok sample_functions.
Proof.
  split; [|split].
  - exact (proj1 (list_methods_outcomes (listing_proxy false) true
                    (listing_state sample_functions)) eq_refl).
  - exact (proj1 (proj1 (proj2 (proj2 (proj2
             (list_methods_outcomes (listing_proxy true) false
                (listing_state sample_functions))))) eq_refl)).
  - exact (proj2 (proj1 (proj2 (proj2 (proj2
             (list_methods_outcomes (listing_proxy true) false
                (listing_state sample_functions))))) eq_refl)
             eq_refl sample_functions eq_refl).
Defined.

(** X11 on three descriptors, one of them from another source. *)
Lemma function_methods_listed_witness :
  console (snd (list_methods (listing_proxy true) true
                  (listing_state sample_functions)))
  = [(nl ++ banner)%string; "Available Methods (function_based)"; banner;
     (nl ++ "Actor Methods:")%string; "  env.evaluate(task)";
     (nl ++ "Module Functions:")%string; "  env.helper(...)";
     (nl ++ banner)%string].
Proof.
  exact (proj2 (function_methods_listed (listing_proxy true)
                  (listing_state sample_functions) _ _ sample_functions
                  eq_refl eq_refl eq_refl eq_refl eq_refl eq_refl)).
Defined.

(** X12 on an [Actor] descriptor without a name. *)
Lemma unnamed_method_breaks_printed_listing_witness :
  let answer := [ODict [("source", OStr "Actor"); ("signature", OStr "()")]] in
  fst (list_methods (listing_proxy true) true (listing_state answer))
  = Raise (mkExc EnvironmentError "Failed to list methods: 'name'")
  /\ fst (list_methods (listing_proxy true) false (listing_state answer))
     = Ok answer.
Proof.
  exact (unnamed_method_breaks_printed_listing (listing_proxy true)
           (listing_state [ODict [("source", OStr "Actor");
                                  ("signature", OStr "()")]])
           _ _ [ODict [("source", OStr "Actor"); ("signature", OStr "()")]]
           eq_refl eq_refl eq_refl eq_refl eq_refl).
Defined.

(** X13 on two endpoints: the description of the first repeats its summary,
    the second has no verb and no summary. *)
Lemma plain_endpoints_listed_witness :
  console (snd (list_methods (listing_proxy true) true
                  (listing_state sample_endpoints)))
  = [(nl ++ banner)%string; "Available Endpoints (http_based)"; banner;
     (nl ++ "POST /evaluate")%string; "  Summary: Run a task";
     (nl ++ "GET /health")%string; "  Description: Liveness";
     (nl ++ banner)%string].
Proof.
  exact (proj2 (plain_endpoints_listed (listing_proxy true)
                  (listing_state sample_endpoints) _ _ sample_endpoints
                  (OStr "/evaluate") eq_refl eq_refl eq_refl eq_refl eq_refl)).
Defined.

(** X14 on a list of two names. *)
Lemma simple_listing_printed_witness :
  console (snd (list_methods (listing_proxy true) true
                  (listing_state [OStr "evaluate"; OStr "reset"])))
  = [(nl ++ "Available methods:")%string; "  - evaluate"; "  - reset"].
Proof.
  exact (proj2 (simple_listing_printed (listing_proxy true)
                  (listing_state [OStr "evaluate"; OStr "reset"])
                  [OStr "evaluate"; OStr "reset"]
                  [OStr "evaluate"; OStr "reset"] eq_refl eq_refl eq_refl)).
Defined.

(* ================================================================== *)
(** * Container lifecycle *)

Section ManagerProperties.
Import DockerManager.
Context {D C : Type} {S : Sdk D C}.
Implicit Types (st : DState D C) (c : C).

(** Neither lookup nor removal by name lets anything out. *)
Lemma get_existing_container_returns name st :
  exists r, fst (get_existing_container name st) = Returned r.
Proof.
  unfold get_existing_container, try_catch.
  destruct (dbind _ _ st) as [[r|[cl text|e]] st']; unfold dret; cbn [fst]; eauto.
  destruct (isinstance cl NotFound); cbn [fst]; eauto.
Qed.

Lemma remove_container_returns name st :
  exists b, fst (remove_container name st) = Returned b.
Proof.
  unfold remove_container, try_catch.
  destruct (dbind _ _ st) as [[r|[cl text|e]] st']; unfold dret; cbn [fst]; eauto.
  destruct (isinstance cl NotFound); cbn [fst]; eauto.
Qed.

(** The search for a container to reuse fails only as the SDK fails. *)
Lemma reuse_existing_throws name fr st t :
  fst (reuse_existing name fr st) = Threw t ->
  exists cl text, t = Foreign cl text.
Proof.
  unfold reuse_existing.
  destruct (given name); [|discriminate].
  unfold dbind at 1.
  destruct (get_existing_container_returns (text_of name) st) as [r Hr].
  destruct (get_existing_container (text_of name) st) as [o st1].
  cbn [fst] in Hr. subst o.
  destruct r as [ex|]; [|discriminate].
  destruct fr.
  - unfold dbind.
    destruct (remove_container_returns (text_of name) st1) as [b Hb].
    destruct (remove_container (text_of name) st1) as [o st2].
    cbn [fst] in Hb. subst o. discriminate.
  - unfold dbind, sdk_read, call_start, call_reload, sdk_call, dret.
    destruct (container_status ex (daemon st1)) as [s|cl text]; cbn [of_reply fst snd daemon].
    2:{ intros [= <-]. eauto. }
    destruct (String.eqb s "running"); [discriminate|].
    destruct (container_start ex (daemon st1)) as [[[]|cl text] d2]; cbn [of_reply fst snd daemon].
    2:{ intros [= <-]. eauto. }
    destruct (container_reload ex d2) as [[[]|cl text] d3]; cbn [of_reply fst snd daemon].
    2:{ intros [= <-]. eauto. }
    destruct (container_status ex d3) as [s'|cl text]; cbn [of_reply fst snd daemon].
    2:{ intros [= <-]. eauto. }
    destruct (String.eqb s' "running"); [discriminate|].
    match goal with |- context [remove_container ?n ?s] =>
      destruct (remove_container_returns n s) as [b Hb];
      destruct (remove_container n s) as [o st4] end.
    cbn [fst] in Hb. subst o. discriminate.
Qed.

Lemma running_text s : String.eqb s "running" = true -> s = "running".
Proof. apply String.eqb_eq. Qed.

Lemma reuse_existing_running name fr st c st' :
  reuse_existing name fr st = (Returned (Some c), st') ->
  container_status c (daemon st') = Fine "running".
Proof.
  intros H. dk_unfold H. dk_cases H; try discriminate.
  all: injection H as <- <-; cbn [daemon].
  all: try
    match goal with
    | E : String.eqb ?s "running" = true |- _ =>
        apply running_text in E; subst s; assumption
    end.
Qed.

Lemma run_new_running image name detach kwargs st c st' :
  run_new image name detach kwargs st = (Returned c, st') ->
  container_status c (daemon st') = Fine "running".
Proof.
  intros H. dk_unfold H. dk_cases H; try discriminate.
  injection H as <- <-; cbn [daemon].
  match goal with
  | E : negb (String.eqb ?s "running") = false |- _ =>
      apply negb_false_iff, running_text in E; subst s
  end.
  assumption.
Qed.

Lemma run_new_throws image name detach kwargs st t :
  fst (run_new image name detach kwargs st) = Threw t ->
  (exists cl text, t = Foreign cl text)
  \/ exists msg, t = Own (mkExc ContainerError msg).
Proof.
  intros H. dk_unfold H. dk_cases H; cbn [fst] in H; try discriminate;
    injection H as <-; eauto.
Qed.

End ManagerProperties.

Section ManagerClaims.
Import DockerManager.
Context {D C : Type} {S : Sdk D C}.
Implicit Types (st : DState D C) (c : C).

(** X15. Whatever the SDK does, [start_container] lets out only the two
    exceptions its documentation names: [ImageNotFoundError] and
    [ContainerError].  It is [ImageNotFoundError] exactly when the lookup of
    the image raised [docker.errors.ImageNotFound], and then the lookup is
    the only call that was made: no container was looked up, started,
    removed or run. *)
Theorem start_container_raises_two_classes image name detach fr kwargs st :
  (forall t,
     fst (start_container image name detach fr kwargs st) = Threw t ->
     exists e, t = Own e
               /\ (exc_class e = ImageNotFoundError
                   \/ exc_class e = ContainerError))
  /\ ((exists e,
         fst (start_container image name detach fr kwargs st) = Threw (Own e)
         /\ exc_class e = ImageNotFoundError)
      <-> exists text,
            fst (images_get image (daemon st)) = Fault ImageNotFound text)
  /\ (forall text,
        fst (images_get image (daemon st)) = Fault ImageNotFound text ->
        snd (start_container image name detach fr kwargs st)
        = mkDState (snd (images_get image (daemon st)))
                   (sdk_calls st ++ [ImagesGet image])%list).
Proof.
  split; [|split].
  - intros t. unfold start_container, try_catch at 1.
    destruct (dbind _ _ st) as [[c|[cl text|[cls msg]]] st'];
      cbn [fst]; [discriminate| |].
    + destruct (isinstance cl APIError); unfold throw; cbn [fst];
        intros [= <-]; eauto 6.
    + cbn [exc_class]. destruct cls; unfold throw; cbn [fst];
        intros [= <-]; eauto 6.
  - split.
    + intros [e [H Hc]].
      unfold start_container, try_catch at 1 in H.
      unfold dbind at 1 in H.
      unfold try_catch, call_images_get, sdk_call, of_reply in H.
      destruct (fst (images_get image (daemon st))) as [[]|cl text] eqn:Ei.
      * exfalso.
        cbn [fst snd] in H.
        unfold dbind at 1 in H.
        match type of H with context [reuse_existing name fr ?s] =>
          pose proof (reuse_existing_throws name fr s) as Hr;
          destruct (reuse_existing name fr s) as [[[ex|]|t0] s1] end.
        -- unfold dret in H. cbn in H. discriminate.
        -- pose proof (run_new_throws image name detach kwargs s1) as Hn.
           destruct (run_new image name detach kwargs s1) as [[c'|t1] s2].
           ++ cbn in H. discriminate.
           ++ destruct (Hn t1 eq_refl) as [[cl [text ->]]|[msg ->]].
              ** destruct (isinstance cl APIError); cbn in H;
                   injection H as <-; discriminate.
              ** cbn in H. injection H as <-. discriminate.
        -- destruct (Hr t0 eq_refl) as [cl [text ->]].
           destruct (isinstance cl APIError); cbn in H;
             injection H as <-; discriminate.
      * destruct cl; cbn in H; try (injection H as <-; discriminate).
        eauto.
    + intros [text Ei].
      unfold start_container, try_catch at 1.
      unfold dbind at 1.
      unfold try_catch, call_images_get, sdk_call, of_reply.
      rewrite Ei. cbn. eexists. split; reflexivity.
  - intros text Ei.
    unfold start_container, try_catch at 1.
    unfold dbind at 1.
    unfold try_catch, call_images_get, sdk_call, of_reply.
    rewrite Ei. cbn. reflexivity.
Qed.

(** X16. A container that [start_container] returns is running: in the
    state the call leaves, its status reads "running", whether it was
    found, restarted or newly run. *)
Theorem started_container_is_running image name detach fr kwargs st c :
  fst (start_container image name detach fr kwargs st) = Returned c ->
  container_status c
    (daemon (snd (start_container image name detach fr kwargs st)))
  = Fine "running".
Proof.
  destruct (start_container image name detach fr kwargs st) as [o s'] eqn:E0.
  cbn [fst snd]. intros ->.
  unfold start_container, try_catch at 1 in E0.
  destruct (dbind _ _ st) as [[c'|t] st'] eqn:E.
  2:{ destruct t as [cl text|[cls msg]];
        [destruct (isinstance cl APIError)|destruct cls];
        unfold throw in E0; cbn in E0; discriminate. }
  injection E0 as -> ->.
  unfold dbind at 1 in E.
  destruct (try_catch _ _ st) as [[[]|t] s0]; [|discriminate].
  unfold dbind at 1 in E.
  destruct (reuse_existing name fr s0) as [[[ex|]|t] s1] eqn:Er;
    [| |discriminate].
  - unfold dret in E. injection E as <- <-.
    exact (reuse_existing_running _ _ _ _ _ Er).
  - exact (run_new_running _ _ _ _ _ _ _ E).
Qed.

(** X17. A named container that is found running is handed back as it is:
    with [force_recreate] off, [start_container] returns it after the
    lookup of the image, the lookup of the container and its reload, and
    runs nothing, whatever the keyword arguments say. *)
Theorem running_container_is_reused image name detach kwargs st c d1 d2 d3 :
  given name = true ->
  images_get image (daemon st) = (Fine tt, d1) ->
  containers_get (text_of name) d1 = (Fine c, d2) ->
  container_reload c d2 = (Fine tt, d3) ->
  container_status c d3 = Fine "running" ->
  start_container image name detach false kwargs st
  = (Returned c,
     mkDState d3 (sdk_calls st ++ [ImagesGet image; ContainersGet (text_of name);
                                   Reload c])%list).
Proof.
  intros Hg Hi Hc Hr Hs.
  unfold start_container, reuse_existing, get_existing_container, try_catch,
    dbind, sdk_read, call_images_get, call_containers_get, call_reload,
    sdk_call, dret, of_reply.
  rewrite Hg. cbn [daemon sdk_calls fst snd].
  rewrite Hi. cbn [daemon sdk_calls fst snd].
  rewrite Hc. cbn [daemon sdk_calls fst snd].
  rewrite Hr. cbn [daemon sdk_calls fst snd].
  rewrite Hs. cbn [daemon sdk_calls fst snd].
  rewrite Hs. rewrite String.eqb_refl. cbn [daemon sdk_calls fst snd].
  rewrite <- !app_assoc. reflexivity.
Qed.

(** X18. A new container that is not running after it was run is left where
    it is: [start_container] raises [ContainerError], the text of the inner
    error wrapped a second time, and makes no call after the reload, so the
    container is neither stopped nor removed. *)
Theorem failed_start_leaves_container
    image name detach fr kwargs st c d1 st2 d3 d4 status :
  images_get image (daemon st) = (Fine tt, d1) ->
  reuse_existing name fr (mkDState d1 (sdk_calls st ++ [ImagesGet image])%list)
  = (Returned None, st2) ->
  containers_run (container_config image name detach kwargs) (daemon st2)
  = (Fine c, d3) ->
  container_reload c d3 = (Fine tt, d4) ->
  container_status c d4 = Fine status ->
  status <> "running" ->
  start_container image name detach fr kwargs st
  = (Threw (Own (mkExc ContainerError
                   ("Failed to start container: Container failed to start: "
                    ++ status))),
     mkDState d4
       (sdk_calls st2
        ++ [ContainersRun (container_config image name detach kwargs);
            Reload c])%list).
Proof.
  intros Hi Hre Hrun Hrl Hs Hne.
  unfold start_container, try_catch at 1.
  unfold dbind at 1.
  unfold try_catch, call_images_get, sdk_call, of_reply.
  rewrite Hi. cbn [fst snd].
  unfold dbind at 1. rewrite Hre.
  unfold run_new, dbind, call_containers_run, call_reload, sdk_read, sdk_call,
    of_reply, throw.
  rewrite Hrun. cbn [fst snd daemon sdk_calls].
  rewrite Hrl. cbn [fst snd daemon sdk_calls].
  rewrite Hs.
  apply String.eqb_neq in Hne. rewrite Hne. cbn [negb daemon].
  rewrite Hs. cbn [exc_class str_of exc_msg].
  rewrite <- !app_assoc. reflexivity.
Qed.

End ManagerClaims.

Section ManagerHousekeeping.
Import DockerManager.
Context {D C : Type} {S : Sdk D C}.
Implicit Types (st : DState D C) (c : C).

Lemma dict_set_lookup k v d : dict_lookup k (dict_set k v d) = Some v.
Proof.
  unfold dict_lookup.
  induction d as [|[k' v'] d IH]; cbn [dict_set find fst snd].
  - now rewrite String.eqb_refl.
  - destruct (String.eqb k k') eqn:E; cbn [find fst snd].
    + now rewrite String.eqb_refl.
    + now rewrite E.
Qed.

Lemma dict_set_lookup_other k0 k v d :
  k0 <> k -> dict_lookup k0 (dict_set k v d) = dict_lookup k0 d.
Proof.
  intros Hne. unfold dict_lookup.
  induction d as [|[k' v'] d IH]; cbn [dict_set find fst snd].
  - apply String.eqb_neq in Hne. now rewrite Hne.
  - destruct (String.eqb_spec k k') as [<-|E]; cbn [find fst snd].
    + apply String.eqb_neq in Hne. now rewrite Hne.
    + destruct (String.eqb k0 k'); [reflexivity|exact IH].
Qed.

Lemma dict_update_lookup_other k kwargs : forall d,
  ~ In k (map fst kwargs) ->
  dict_lookup k (dict_update d kwargs) = dict_lookup k d.
Proof.
  unfold dict_update.
  induction kwargs as [|[k' v'] kwargs IH]; intros d Hn; [reflexivity|].
  cbn [fold_left fst snd]. cbn [map fst In] in Hn.
  rewrite IH by tauto. apply dict_set_lookup_other. intros ->. tauto.
Qed.

Lemma dict_update_lookup k v kwargs : forall d,
  NoDup (map fst kwargs) -> In (k, v) kwargs ->
  dict_lookup k (dict_update d kwargs) = Some v.
Proof.
  unfold dict_update.
  induction kwargs as [|[k' v'] kwargs IH]; intros d Hnd Hin; [destruct Hin|].
  cbn [fold_left fst snd]. cbn [map fst] in Hnd.
  apply NoDup_cons_iff in Hnd. destruct Hnd as [Hk Hnd].
  destruct Hin as [[= -> ->]|Hin].
  - fold (dict_update (dict_set k v d) kwargs).
    rewrite dict_update_lookup_other by exact Hk.
    apply dict_set_lookup.
  - apply IH; assumption.
Qed.

(** X19. The configuration [start_container] runs a new container with:
    the image and the detach flag are the caller's, the name is the
    caller's when one is given and absent otherwise, every further keyword
    argument arrives as given, also where it replaces one of the defaults
    [remove=False], [tty=True], [stdin_open=True], and a default that is
    not replaced stays. *)
Theorem container_config_keeps_arguments image name detach kwargs :
  NoDup (map fst kwargs) ->
  ~ In "image" (map fst kwargs) ->
  ~ In "detach" (map fst kwargs) ->
  ~ In "name" (map fst kwargs) ->
  dict_lookup "image" (container_config image name detach kwargs)
  = Some (OStr image)
  /\ dict_lookup "detach" (container_config image name detach kwargs)
     = Some (OBool detach)
  /\ dict_lookup "name" (container_config image name detach kwargs)
     = (if given name then Some (OStr (text_of name)) else None)
  /\ (forall k v, In (k, v) kwargs ->
        dict_lookup k (container_config image name detach kwargs) = Some v)
  /\ (~ In "remove" (map fst kwargs) ->
        dict_lookup "remove" (container_config image name detach kwargs)
        = Some (OBool false))
  /\ (~ In "tty" (map fst kwargs) ->
        dict_lookup "tty" (container_config image name detach kwargs)
        = Some (OBool true))
  /\ (~ In "stdin_open" (map fst kwargs) ->
        dict_lookup "stdin_open" (container_config image name detach kwargs)
        = Some (OBool true)).
Proof.
  intros Hnd Hi Hd Hn.
  assert (Hother : forall k, k <> "name" ->
            dict_lookup k (container_config image name detach kwargs)
            = dict_lookup k
                (dict_update [("image", OStr image); ("detach", OBool detach);
                              ("remove", OBool false); ("tty", OBool true);
                              ("stdin_open", OBool true)] kwargs)).
  { intros k Hk. unfold container_config. cbv zeta.
    destruct (given name); [|reflexivity].
    now apply dict_set_lookup_other. }
  split; [|split; [|split; [|split; [|split; [|split]]]]].
  - rewrite Hother by discriminate.
    now rewrite dict_update_lookup_other.
  - rewrite Hother by discriminate.
    now rewrite dict_update_lookup_other.
  - unfold container_config. cbv zeta.
    destruct (given name).
    + apply dict_set_lookup.
    + now rewrite dict_update_lookup_other.
  - intros k v Hin.
    assert (Hk : k <> "name").
    { intros ->. apply Hn. apply (in_map fst) in Hin. exact Hin. }
    rewrite Hother by exact Hk.
    now apply dict_update_lookup.
  - intros H. rewrite Hother by discriminate.
    now rewrite dict_update_lookup_other.
  - intros H. rewrite Hother by discriminate.
    now rewrite dict_update_lookup_other.
  - intros H. rewrite Hother by discriminate.
    now rewrite dict_update_lookup_other.
Qed.

Lemma stop_container_returns c timeout st :
  fst (stop_container c timeout st) = Returned tt.
Proof.
  unfold stop_container, try_catch, dbind, sdk_read, call_stop, call_remove,
    sdk_call, dret, of_reply.
  destruct (container_short_id c (daemon st)) as [id|cl text];
    cbn [fst snd daemon sdk_calls].
  2:{ now destruct (fst (container_remove c true (daemon st))) as [[]|]. }
  destruct (fst (container_stop c timeout (daemon st)));
    cbn [fst snd daemon sdk_calls].
  - destruct (fst (container_remove c true _)) as [[]|];
      cbn [fst snd daemon sdk_calls]; [reflexivity|].
    now destruct (fst (container_remove c true _)) as [[]|].
  - now destruct (fst (container_remove c true _)) as [[]|].
Qed.

Lemma cleanup_all_returns pattern st :
  fst (cleanup_all pattern st) = Returned tt.
Proof.
  unfold cleanup_all, try_catch.
  destruct (dbind _ _ st) as [[[]|t] st']; reflexivity.
Qed.

(** X20. The housekeeping methods never raise, whatever the SDK does:
    [get_existing_container] and [remove_container] answer, and
    [stop_container] and [cleanup_all] return.  [remove_container] answers
    [True] exactly when the container was found and its removal
    returned. *)
Theorem housekeeping_never_raises name pattern c timeout st :
  (exists found, fst (get_existing_container name st) = Returned found)
  /\ (exists removed, fst (remove_container name st) = Returned removed)
  /\ (fst (remove_container name st) = Returned true
      <-> exists c',
            fst (containers_get name (daemon st)) = Fine c'
            /\ fst (container_remove c' true
                      (snd (containers_get name (daemon st)))) = Fine tt)
  /\ fst (stop_container c timeout st) = Returned tt
  /\ fst (cleanup_all pattern st) = Returned tt.
Proof.
  split; [apply get_existing_container_returns|].
  split; [apply remove_container_returns|].
  split; [|split; [apply stop_container_returns|apply cleanup_all_returns]].
  unfold remove_container, try_catch, dbind, call_containers_get, call_remove,
    sdk_call, dret, of_reply.
  destruct (fst (containers_get name (daemon st))) as [c'|cl text];
    cbn [fst snd daemon sdk_calls].
  - destruct (fst (container_remove c' true _)) as [[]|cl text] eqn:Er;
      cbn [fst snd].
    + split; [intros _; exists c'; split; [reflexivity|exact Er]|reflexivity].
    + split.
      * destruct (isinstance cl NotFound); discriminate.
      * intros [c'' [[= <-] H]]. rewrite Er in H. discriminate.
  - split.
    + destruct (isinstance cl NotFound); discriminate.
    + intros [c'' [H _]]. discriminate.
Qed.

(** X21. [stop_container] attempts the removal on every path: among the
    calls it makes there is a forced removal of the container, also when
    reading its id or stopping it raised, and it makes no call other than
    the stop and the forced removal of that container. *)
Theorem stop_container_always_removes c timeout st :
  exists added,
    sdk_calls (snd (stop_container c timeout st))
    = (sdk_calls st ++ added)%list
    /\ In (Remove c true) added
    /\ Forall (fun k => k = Stop c timeout \/ k = Remove c true) added.
Proof.
  unfold stop_container, try_catch, dbind, sdk_read, call_stop, call_remove,
    sdk_call, dret, of_reply.
  destruct (container_short_id c (daemon st)) as [id|cl text];
    cbn [fst snd daemon sdk_calls];
    [destruct (fst (container_stop c timeout (daemon st)));
       cbn [fst snd daemon sdk_calls];
       [destruct (fst (container_remove c true _));
          cbn [fst snd daemon sdk_calls]|]|];
    try (destruct (fst (container_remove c true _));
         cbn [fst snd daemon sdk_calls]);
    first
      [ exists [Remove c true];
        split; [reflexivity|split; [cbn; tauto|repeat apply Forall_cons; try apply Forall_nil; auto]]
      | exists [Stop c timeout; Remove c true];
        split; [rewrite <- ?app_assoc; reflexivity
               |split; [cbn; tauto|repeat apply Forall_cons; try apply Forall_nil; auto]]
      | exists [Stop c timeout; Remove c true; Remove c true];
        split; [rewrite <- ?app_assoc; reflexivity
               |split; [cbn; tauto|repeat apply Forall_cons; try apply Forall_nil; auto]] ].
Qed.

End ManagerHousekeeping.

Section ManagerLoops.
Import DockerManager.
Context {D C : Type} {S : Sdk D C}.
Implicit Types (st : DState D C) (c : C).

Lemma turns_from_app pattern (t1 t2 : list (C * bool)) : forall d : D,
  turns_from pattern d t1 ->
  turns_from pattern (after_turns t1 d) t2 ->
  turns_from pattern d (t1 ++ t2)%list.
Proof.
  induction t1 as [|t t1 IH]; intros d H1 H2; [exact H2|].
  cbn [app turns_from] in *. destruct H1 as (Hp & Hs & Hr).
  split; [exact Hp|]. split; [exact Hs|]. now apply IH.
Qed.

Lemma after_turns_app (t1 t2 : list (C * bool)) (d : D) :
  after_turns (t1 ++ t2)%list d = after_turns t2 (after_turns t1 d).
Proof. unfold after_turns. apply fold_left_app. Qed.

(** The [try] statement of a turn, from the state [st]: no call at all when
    the id cannot be read, else the stop, and the removal when the stop
    returned. *)
Lemma cleanup_try_turn c st :
  let r := try_catch
             (dbind (sdk_read (container_short_id c))
                (fun _ => dbind (call_stop c 5) (fun _ => call_remove c true)))
             (fun _ => dbind (sdk_read (container_short_id c)) (fun _ => dret tt))
             st in
  exists turns,
    sdk_calls (snd r) = (sdk_calls st ++ flat_map cleanup_block turns)%list
    /\ daemon (snd r) = after_turns turns (daemon st)
    /\ (turns = []
        \/ exists b, turns = [(c, b)]
                     /\ (b = true
                         <-> fst (container_stop c 5 (daemon st)) = Fine tt))
    /\ ((forall d, exists id, container_short_id c d = Fine id) ->
        fst r = Returned tt /\ map fst turns = [c]).
Proof.
  cbv zeta.
  unfold try_catch, dbind, sdk_read, call_stop, call_remove, sdk_call, dret,
    of_reply.
  destruct (container_short_id c (daemon st)) as [id|cl text] eqn:Eid;
    cbn [fst snd daemon sdk_calls].
  - destruct (fst (container_stop c 5 (daemon st))) as [[]|cl text] eqn:Es;
      cbn [fst snd daemon sdk_calls].
    + exists [(c, true)].
      assert (Hturn : [(c, true)] = [] \/
                exists b, [(c, true)] = [(c, b)]
                          /\ (b = true <-> Fine tt = Fine tt)).
      { right. exists true. split; [reflexivity|tauto]. }
      destruct (fst (container_remove c true _)) as [[]|cl text];
        cbn [fst snd daemon sdk_calls].
      * split; [now rewrite <- app_assoc|]. split; [reflexivity|].
        split; [exact Hturn|]. intros _. split; reflexivity.
      * match goal with
        | |- context [container_short_id c ?d] =>
            destruct (container_short_id c d) as [id'|cl' text'] eqn:Eid'
        end; cbn [fst snd daemon sdk_calls];
          (split; [now rewrite <- app_assoc|]); (split; [reflexivity|]);
          (split; [exact Hturn|]); intros Hs.
        -- split; reflexivity.
        -- match type of Eid' with
           | container_short_id c ?d = _ => destruct (Hs d) as [i Hi]
           end.
           rewrite Hi in Eid'. discriminate.
    + exists [(c, false)].
      assert (Hturn : [(c, false)] = [] \/
                exists b, [(c, false)] = [(c, b)]
                          /\ (b = true <-> Fault cl text = Fine tt)).
      { right. exists false. split; [reflexivity|].
        split; intros H; discriminate H. }
      match goal with
      | |- context [container_short_id c ?d] =>
          destruct (container_short_id c d) as [id'|cl' text'] eqn:Eid'
      end; cbn [fst snd daemon sdk_calls];
        (split; [reflexivity|]); (split; [reflexivity|]);
        (split; [exact Hturn|]); intros Hs.
      * split; reflexivity.
      * match type of Eid' with
        | container_short_id c ?d = _ => destruct (Hs d) as [i Hi]
        end.
        rewrite Hi in Eid'. discriminate.
  - rewrite Eid. cbn [fst snd daemon sdk_calls].
    exists []. split; [cbn; now rewrite app_nil_r|].
    split; [reflexivity|]. split; [left; reflexivity|].
    intros Hs. destruct (Hs (daemon st)) as [i Hi].
    rewrite Hi in Eid. discriminate.
Qed.

(** The same, for a container the pattern lets through. *)
Lemma cleanup_guarded_turn pattern c st :
  (given pattern = true ->
   exists nm, container_name c (daemon st) = Fine (Some nm)
              /\ contains (text_of pattern) nm = true) ->
  let r := try_catch
             (dbind (sdk_read (container_short_id c))
                (fun _ => dbind (call_stop c 5) (fun _ => call_remove c true)))
             (fun _ => dbind (sdk_read (container_short_id c)) (fun _ => dret tt))
             st in
  exists turns,
    sdk_calls (snd r) = (sdk_calls st ++ flat_map cleanup_block turns)%list
    /\ daemon (snd r) = after_turns turns (daemon st)
    /\ turns_from pattern (daemon st) turns
    /\ Forall (fun turn => fst turn = c) turns
    /\ ((forall d, exists id, container_short_id c d = Fine id) ->
        fst r = Returned tt /\ map fst turns = [c]).
Proof.
  intros Hname. cbv zeta.
  destruct (cleanup_try_turn c st) as (turns & Hj & Hd & Ht & Hc).
  cbv zeta in Hj, Hd, Hc.
  exists turns. split; [exact Hj|]. split; [exact Hd|].
  destruct Ht as [->|(b & -> & Hb)].
  - split; [exact I|]. split; [constructor|exact Hc].
  - split; [|split; [repeat constructor|exact Hc]].
    cbn [turns_from fst snd].
    split; [exact Hname|]. split; [exact Hb|exact I].
Qed.

(** One turn of the loop of [cleanup_all]. *)
Lemma cleanup_one_calls pattern c st :
  exists turns,
    sdk_calls (snd (cleanup_one pattern c st))
    = (sdk_calls st ++ flat_map cleanup_block turns)%list
    /\ daemon (snd (cleanup_one pattern c st)) = after_turns turns (daemon st)
    /\ turns_from pattern (daemon st) turns
    /\ Forall (fun turn => fst turn = c) turns
    /\ (given pattern = false ->
        (forall d, exists id, container_short_id c d = Fine id) ->
        fst (cleanup_one pattern c st) = Returned tt /\ map fst turns = [c]).
Proof.
  assert (Hnone : forall s : DState D C,
    sdk_calls s = (sdk_calls s ++ flat_map cleanup_block (@nil (C * bool)))%list
    /\ daemon s = after_turns [] (daemon s)
    /\ turns_from pattern (daemon s) []
    /\ Forall (fun turn : C * bool => fst turn = c) []).
  { intros s. cbn. rewrite app_nil_r. auto. }
  pose proof (cleanup_guarded_turn pattern c st) as Hbody. cbv zeta in Hbody.
  set (body := try_catch
                 (dbind (sdk_read (container_short_id c))
                    (fun _ => dbind (call_stop c 5) (fun _ => call_remove c true)))
                 (fun _ => dbind (sdk_read (container_short_id c))
                             (fun _ => dret tt))) in *.
  assert (Hskip : given pattern = true ->
            forall o, cleanup_one pattern c st = (o, st) ->
            exists turns,
              sdk_calls (snd (cleanup_one pattern c st))
              = (sdk_calls st ++ flat_map cleanup_block turns)%list
              /\ daemon (snd (cleanup_one pattern c st))
                 = after_turns turns (daemon st)
              /\ turns_from pattern (daemon st) turns
              /\ Forall (fun turn => fst turn = c) turns
              /\ (given pattern = false ->
                  (forall d, exists id, container_short_id c d = Fine id) ->
                  fst (cleanup_one pattern c st) = Returned tt
                  /\ map fst turns = [c])).
  { intros Hg o E. rewrite E. cbn [fst snd]. exists [].
    destruct (Hnone st) as (H1 & H2 & H3 & H4).
    repeat (split; [assumption|]).
    intros Hf. congruence. }
  destruct (given pattern) eqn:Eg.
  - destruct (container_name c (daemon st)) as [[nm|]|cl text] eqn:En.
    + destruct (contains (text_of pattern) nm) eqn:Ec.
      * assert (E : cleanup_one pattern c st = body st).
        { unfold cleanup_one, skipped. rewrite Eg.
          unfold dbind at 1. unfold dbind at 1. unfold sdk_read at 1.
          rewrite En. cbn [of_reply not_in dret]. rewrite Ec. reflexivity. }
        rewrite E.
        destruct Hbody as (turns & H1 & H2 & H3 & H4 & _);
          [intros _; exists nm; split; [reflexivity|exact Ec]|].
        exists turns. split; [exact H1|]. split; [exact H2|].
        split; [exact H3|]. split; [exact H4|discriminate].
      * apply (Hskip eq_refl (Returned tt)).
        unfold cleanup_one, skipped. rewrite Eg.
        unfold dbind at 1. unfold dbind at 1. unfold sdk_read at 1.
        rewrite En. cbn [of_reply not_in dret]. rewrite Ec. reflexivity.
    + eapply (Hskip eq_refl).
      unfold cleanup_one, skipped. rewrite Eg.
      unfold dbind at 1. unfold dbind at 1. unfold sdk_read at 1.
      rewrite En. reflexivity.
    + eapply (Hskip eq_refl).
      unfold cleanup_one, skipped. rewrite Eg.
      unfold dbind at 1. unfold dbind at 1. unfold sdk_read at 1.
      rewrite En. reflexivity.
  - assert (E : cleanup_one pattern c st = body st).
    { unfold cleanup_one, skipped. rewrite Eg. reflexivity. }
    rewrite E.
    destruct Hbody as (turns & H1 & H2 & H3 & H4 & H5); [discriminate|].
    exists turns. split; [exact H1|]. split; [exact H2|].
    split; [exact H3|]. split; [exact H4|]. intros _. exact H5.
Qed.

Lemma for_each_cleanup_calls pattern l : forall st,
  exists turns,
    sdk_calls (snd (for_each l (cleanup_one pattern) st))
    = (sdk_calls st ++ flat_map cleanup_block turns)%list
    /\ daemon (snd (for_each l (cleanup_one pattern) st))
       = after_turns turns (daemon st)
    /\ turns_from pattern (daemon st) turns
    /\ Forall (fun turn => In (fst turn) l) turns
    /\ (given pattern = false -> ids_readable (D := D) (C := C) ->
        map fst turns = l).
Proof.
  induction l as [|c l IH]; intros st.
  - exists []. cbn. rewrite app_nil_r. auto.
  - assert (E : for_each (c :: l) (cleanup_one pattern) st
                = match cleanup_one pattern c st with
                  | (Returned _, st1) => for_each l (cleanup_one pattern) st1
                  | (Threw t, st1) => (Threw t, st1)
                  end) by reflexivity.
    rewrite E. clear E.
    destruct (cleanup_one_calls pattern c st) as (t1 & J1 & D1 & T1 & F1 & C1).
    assert (F1' : Forall (fun turn => In (fst turn) (c :: l)) t1).
    { eapply Forall_impl; [|exact F1]. intros turn ->. left. reflexivity. }
    destruct (cleanup_one pattern c st) as [[[]|t] st1]; cbn [fst snd] in *.
    + destruct (IH st1) as (t2 & J2 & D2 & T2 & F2 & C2).
      exists (t1 ++ t2)%list.
      split; [rewrite J2, J1, flat_map_app, app_assoc; reflexivity|].
      split; [rewrite D2, D1, after_turns_app; reflexivity|].
      split; [apply turns_from_app; [exact T1|rewrite <- D1; exact T2]|].
      split.
      * apply Forall_app. split; [exact F1'|].
        eapply Forall_impl; [|exact F2]. intros turn Hin. right. exact Hin.
      * intros Hg Hids. rewrite map_app.
        destruct (C1 Hg (Hids c)) as [_ ->].
        rewrite (C2 Hg Hids). reflexivity.
    + exists t1. split; [exact J1|]. split; [exact D1|].
      split; [exact T1|]. split; [exact F1'|].
      intros Hg Hids. destruct (C1 Hg (Hids c)) as [E _]. discriminate.
Qed.

End ManagerLoops.

Section ManagerLoopClaims.
Import DockerManager.
Context {D C : Type} {S : Sdk D C}.
Implicit Types (st : DState D C) (c : C).

(** X22. What [cleanup_all] does to the containers.  After listing them it
    goes through turns, in the order of the listing, each the stop of a
    listed container followed by its forced removal, or the stop alone: the
    removal is attempted exactly when the stop, made in the state its turn
    starts in, returned.  With a pattern given, a container has a turn only
    when its name, read in the state its turn starts in, contains the
    pattern.  Every turn starts in the state the one before it left, the
    first in the state the listing left, and the state left by the last is
    the state [cleanup_all] leaves.  Without a pattern, every listed
    container has its turn provided the ids can be read. *)
Theorem cleanup_all_stops_then_removes pattern st :
  exists turns,
    sdk_calls (snd (cleanup_all pattern st))
    = (sdk_calls st ++ ContainersList :: flat_map cleanup_block turns)%list
    /\ daemon (snd (cleanup_all pattern st))
       = after_turns turns (snd (containers_list (daemon st)))
    /\ turns_from pattern (snd (containers_list (daemon st))) turns
    /\ match fst (containers_list (daemon st)) with
       | Fine listed =>
           Forall (fun turn => In (fst turn) listed) turns
           /\ (given pattern = false -> ids_readable (D := D) (C := C) ->
               map fst turns = listed)
       | Fault _ _ => turns = []
       end.
Proof.
  set (listing := mkDState (snd (containers_list (daemon st)))
                    (sdk_calls st ++ [ContainersList])%list).
  assert (E : snd (cleanup_all pattern st)
              = match fst (containers_list (daemon st)) with
                | Fine listed =>
                    snd (for_each listed (cleanup_one pattern) listing)
                | Fault _ _ => listing
                end).
  { unfold cleanup_all, try_catch, dbind, call_containers_list, sdk_call,
      of_reply. fold listing.
    destruct (fst (containers_list (daemon st))) as [listed|cl text];
      [|reflexivity].
    now destruct (for_each listed (cleanup_one pattern) listing)
      as [[[]|t] st1]. }
  rewrite E. clear E.
  destruct (fst (containers_list (daemon st))) as [listed|cl text].
  - destruct (for_each_cleanup_calls pattern listed listing)
      as (turns & J & Dd & T & F & Cc).
    exists turns. cbn [sdk_calls daemon listing] in J, Dd, T.
    split; [rewrite J, <- app_assoc; reflexivity|].
    split; [exact Dd|]. split; [exact T|]. split; [exact F|exact Cc].
  - exists []. cbn. auto.
Qed.

Lemma first_address_returns networks : forall st ip st',
  first_address networks st = (Returned ip, st') -> truthy ip = true.
Proof.
  induction networks as [|[nm info] rest IH]; intros st ip st';
    cbn [first_address].
  - discriminate.
  - unfold dbind, of_attempt.
    destruct (obj_get info "IPAddress" ONone) as [ip0|e];
      cbn [dret throw]; [|discriminate].
    destruct (truthy ip0) eqn:E.
    + intros [= <- <-]. exact E.
    + apply IH.
Qed.


Lemma first_address_state networks : forall st,
  snd (first_address networks st) = st.
Proof.
  induction networks as [|[nm info] rest IH]; intros st; cbn [first_address].
  - reflexivity.
  - unfold dbind, of_attempt.
    destruct (obj_get info "IPAddress" ONone) as [ip0|e];
      cbn [dret throw]; [|reflexivity].
    destruct (truthy ip0); [reflexivity|apply IH].
Qed.

Lemma first_address_none networks : forall st,
  Forall no_address networks ->
  first_address networks st
  = (Threw (Own (mkExc ContainerError "No IP address found for container")), st).
Proof.
  induction networks as [|[nm info] rest IH]; intros st Hall;
    cbn [first_address]; [reflexivity|].
  apply Forall_cons_iff in Hall. destruct Hall as [[ip [Hi Ht]] Hall].
  cbn [snd] in Hi. unfold dbind, of_attempt. rewrite Hi. cbn [dret].
  rewrite Ht. now apply IH.
Qed.

Lemma first_address_found before nm info after ip : forall st,
  Forall no_address before ->
  obj_get info "IPAddress" ONone = Done ip ->
  truthy ip = true ->
  first_address (before ++ (nm, info) :: after) st = (Returned ip, st).
Proof.
  induction before as [|[nm0 info0] before IH]; intros st Hall Hi Ht;
    cbn [first_address app].
  - unfold dbind, of_attempt. rewrite Hi. cbn [dret]. now rewrite Ht.
  - apply Forall_cons_iff in Hall. destruct Hall as [[ip0 [Hi0 Ht0]] Hall].
    cbn [snd] in Hi0. unfold dbind, of_attempt. rewrite Hi0. cbn [dret].
    rewrite Ht0. now apply IH.
Qed.

(** X23. [get_container_ip] returns an address or raises [ContainerError]:
    what it returns is never empty or [None], whatever it raises is a
    [ContainerError] whose text begins with "Failed to get container IP: ",
    and its only call is the reload of the container.  When no network has
    an address, the text is that of the inner error, wrapped. *)
Theorem get_container_ip_outcomes c st :
  (forall ip, fst (get_container_ip c st) = Returned ip -> truthy ip = true)
  /\ (forall t, fst (get_container_ip c st) = Threw t ->
        exists msg,
          t = Own (mkExc ContainerError ("Failed to get container IP: " ++ msg)))
  /\ sdk_calls (snd (get_container_ip c st)) = (sdk_calls st ++ [Reload c])%list
  /\ (forall networks,
        fst (container_reload c (daemon st)) = Fine tt ->
        container_networks c (snd (container_reload c (daemon st)))
        = Fine (ODict networks) ->
        Forall no_address networks ->
        fst (get_container_ip c st)
        = Threw (Own (mkExc ContainerError
             "Failed to get container IP: No IP address found for container"))).
Proof.
  unfold get_container_ip, try_catch, dbind, call_reload, sdk_call, sdk_read,
    of_reply, throw.
  destruct (fst (container_reload c (daemon st))) as [[]|cl text];
    cbn [fst snd daemon sdk_calls throw].
  2:{ split; [intros ? ?; discriminate|].
      split; [intros t [= <-]; eexists; reflexivity|].
      split; [reflexivity|intros ? ?; discriminate]. }
  destruct (container_networks c _) as [nets|cl text];
    cbn [fst snd daemon sdk_calls throw].
  2:{ split; [intros ? ?; discriminate|]. split; [intros t [= <-]; eexists; reflexivity|].
      split; [reflexivity|intros ? ?; discriminate]. }
  unfold of_attempt.
  destruct (items nets) as [kv|e] eqn:Ei; cbn [dret throw].
  2:{ split; [intros ? ?; discriminate|]. split; [intros t [= <-]; eexists; reflexivity|].
      split; [reflexivity|].
      intros networks _ [= ->]. discriminate. }
  match goal with |- context [first_address kv ?s] =>
    pose proof (first_address_returns kv s) as Hr;
    pose proof (first_address_state kv s) as Hs;
    pose proof (first_address_none kv s) as Hn;
    destruct (first_address kv s) as [[ip|t] s1]
  end; cbn [fst snd] in *; subst s1; cbn [sdk_calls].
  - split; [intros ip' [= <-]; eapply Hr; reflexivity|].
    split; [intros ? ?; discriminate|]. split; [reflexivity|].
    intros networks _ [= ->] Hall. cbn [items] in Ei. injection Ei as <-.
    specialize (Hn Hall). discriminate.
  - split; [intros ? ?; discriminate|]. split; [intros t' [= <-]; eexists; reflexivity|].
    split; [reflexivity|].
    intros networks _ [= ->] Hall. cbn [items] in Ei. injection Ei as <-.
    specialize (Hn Hall). injection Hn as ->. reflexivity.
Qed.

(** X24. [get_container_ip] returns the address of the first network, in
    the order of the container's attributes, that has one; the networks
    after it are not examined. *)
Theorem get_container_ip_first_address c st d1 before nm info after ip :
  container_reload c (daemon st) = (Fine tt, d1) ->
  container_networks c d1 = Fine (ODict (before ++ (nm, info) :: after)) ->
  Forall no_address before ->
  obj_get info "IPAddress" ONone = Done ip ->
  truthy ip = true ->
  get_container_ip c st
  = (Returned ip, mkDState d1 (sdk_calls st ++ [Reload c])%list).
Proof.
  intros Hr Hn Hall Hi Ht.
  unfold get_container_ip, try_catch, dbind, call_reload, sdk_call, sdk_read,
    of_reply.
  rewrite Hr. cbn [fst snd daemon sdk_calls].
  rewrite Hn. cbn [of_attempt items dret].
  now rewrite (first_address_found before nm info after ip _ Hall Hi Ht).
Qed.

End ManagerLoopClaims.

(* ================================================================== *)
(** * The container manager on the test double *)

Section ManagerExamples.
Import DockerManager.

(** X16 on a daemon without containers: the new container "web". *)
Lemma started_container_is_running_witness :
  container_status "web"
    (daemon (snd (start_container "app" (Some "web") true false sample_kwargs
                    (on_engine bare_engine))))
  = Fine "running".
Proof.
  exact (started_container_is_running "app" (Some "web") true false
           sample_kwargs (on_engine bare_engine) "web" eq_refl).
Defined.

(** X17 on a daemon where "web" is running: it is returned, and nothing is
    run. *)
Lemma running_container_is_reused_witness :
  start_container "app" (Some "web") true false sample_kwargs
    (on_engine busy_engine)
  = (Returned "web",
     mkDState busy_engine [ImagesGet "app"; ContainersGet "web"; Reload "web"]).
Proof.
  exact (running_container_is_reused "app" (Some "web") true sample_kwargs
           (on_engine busy_engine) "web" busy_engine busy_engine busy_engine
           eq_refl eq_refl eq_refl eq_refl eq_refl).
Defined.

(** X18 on the image whose containers exit at once. *)
Lemma failed_start_leaves_container_witness :
  start_container "broken" None true false [] (on_engine bare_engine)
  = (Threw (Own (mkExc ContainerError
       "Failed to start container: Container failed to start: exited")),
     mkDState (mkEngine ["app"; "broken"] [("unnamed", "exited")])
       [ImagesGet "broken";
        ContainersRun (container_config "broken" None true []);
        Reload "unnamed"]).
Proof.
  assert (Hne : "exited" <> "running") by discriminate.
  exact (failed_start_leaves_container "broken" None true false []
           (on_engine bare_engine) "unnamed" bare_engine
           (mkDState bare_engine [ImagesGet "broken"])
           (mkEngine ["app"; "broken"] [("unnamed", "exited")])
           (mkEngine ["app"; "broken"] [("unnamed", "exited")])
           "exited" eq_refl eq_refl eq_refl eq_refl eq_refl Hne).
Defined.

(** X19 on two keyword arguments, one of which replaces a default. *)
Lemma container_config_keeps_arguments_witness :
  dict_lookup "image" (container_config "app" (Some "web") true sample_kwargs)
  = Some (OStr "app")
  /\ dict_lookup "name" (container_config "app" (Some "web") true sample_kwargs)
     = Some (OStr "web")
  /\ dict_lookup "remove" (container_config "app" (Some "web") true sample_kwargs)
     = Some (OBool true)
  /\ dict_lookup "tty" (container_config "app" (Some "web") true sample_kwargs)
     = Some (OBool true).
Proof.
  assert (Hnd : NoDup (map fst sample_kwargs)).
  { constructor; [intros [H|[]]; discriminate H|].
    constructor; [intros []|constructor]. }
  assert (Hi : ~ In "image" (map fst sample_kwargs)).
  { intros [H|[H|[]]]; discriminate H. }
  assert (Hd : ~ In "detach" (map fst sample_kwargs)).
  { intros [H|[H|[]]]; discriminate H. }
  assert (Hn : ~ In "name" (map fst sample_kwargs)).
  { intros [H|[H|[]]]; discriminate H. }
  assert (Ht : ~ In "tty" (map fst sample_kwargs)).
  { intros [H|[H|[]]]; discriminate H. }
  pose proof (container_config_keeps_arguments "app" (Some "web") true
                sample_kwargs Hnd Hi Hd Hn) as [H1 [_ [H3 [H4 [_ [H6 _]]]]]].
  split; [exact H1|].
  split; [exact H3|].
  split; [exact (H4 "remove" (OBool true) (or_introl eq_refl))|].
  exact (H6 Ht).
Defined.

(** X24 on the double, whose first network has an empty address. *)
Lemma get_container_ip_first_address_witness :
  get_container_ip "web" (on_engine busy_engine)
  = (Returned (OStr "172.17.0.2"), mkDState busy_engine [Reload "web"]).
Proof.
  assert (Hall : Forall no_address [("none", ODict [("IPAddress", OStr "")])]).
  { constructor; [|constructor]. exists (OStr ""). split; reflexivity. }
  exact (get_container_ip_first_address "web" (on_engine busy_engine)
           busy_engine [("none", ODict [("IPAddress", OStr "")])]
           "bridge" (ODict [("IPAddress", OStr "172.17.0.2")]) []
           (OStr "172.17.0.2") eq_refl eq_refl Hall eq_refl eq_refl).
Defined.

(** [cleanup_all("web")] on the daemon with three containers: "web-1" is
    stopped and removed, "web-2" cannot be stopped and is left in place,
    "db" is not touched. *)
Example cleanup_all_on_crowded_engine :
  cleanup_all (Some "web") (on_engine crowded_engine)
  = (Returned tt,
     mkDState (mkEngine ["app"] [("web-2", "paused"); ("db", "running")])
       [ContainersList; Stop "web-1" 5; Remove "web-1" true; Stop "web-2" 5]).
Proof. reflexivity. Qed.

End ManagerExamples.
